(** * cutfile.py: the batch video converter

    A shallow embedding of [VideoConverter] (src/cutfile.py, lines 10-177):
    file enumeration, the per-format encoder command line, the encoder
    invocation with its exception handling, the conversion loop with its two
    event queues, and the cancel request issued from the user-interface
    thread; and of the methods of [VideoConverterApp] (lines 180-508) that
    decide something: the search for FFmpeg, the validation that starts a
    run, the cancel button and the tick of the timer that empties the two
    queues.

    Python [str] values are [string]s holding the UTF-8 encoding of the text;
    paths follow [posixpath].  Calls to the operating system are recorded in
    a trace, and what the operating system answers (the directory contents,
    the outcome of each encoder process, the interleaving of the controller
    thread) is an explicit environment. *)

From Stdlib Require Import String Ascii List ZArith Lia Bool Arith.
From Stdlib Require Import DecimalString SpecFloat.
Import ListNotations.

Local Open Scope string_scope.
Local Open Scope list_scope.

Set Implicit Arguments.
Set Warnings "-register-all".

(* ================================================================= *)
(** ** Python strings *)

Module PyStr.

(** [len(s) == 0], the truth value of [not s]. *)
Definition is_empty (s : string) : bool :=
  match s with EmptyString => true | String _ _ => false end.

(** [s.startswith(p)] *)
Fixpoint startswith (s p : string) {struct p} : bool :=
  match p, s with
  | EmptyString, _ => true
  | String _ _, EmptyString => false
  | String b p', String a s' => Ascii.eqb a b && startswith s' p'
  end.

(** [s[n:]] on bytes. *)
Fixpoint drop (n : nat) (s : string) : string :=
  match n, s with
  | O, _ => s
  | S _, EmptyString => EmptyString
  | S k, String _ s' => drop k s'
  end.

(** [s[:n]] on bytes. *)
Fixpoint take (n : nat) (s : string) : string :=
  match n, s with
  | O, _ => EmptyString
  | S _, EmptyString => EmptyString
  | S k, String a s' => String a (take k s')
  end.

(** [s.endswith(p)]: the last [len(p)] bytes of [s] are [p]. *)
Definition endswith (s p : string) : bool :=
  (String.length p <=? String.length s)%nat &&
  String.eqb (drop (String.length s - String.length p) s) p.

(** [str.lower()] as it acts on ASCII text: the capital letters A-Z
    are mapped to a-z and every other byte is kept.  This is what Python
    computes for a string without cased characters outside ASCII; the
    Unicode case mappings of other scripts are not modelled. *)
Definition lower_ascii (a : ascii) : ascii :=
  let n := nat_of_ascii a in
  if ((65 <=? n) && (n <=? 90))%nat then ascii_of_nat (n + 32) else a.

Fixpoint lower (s : string) : string :=
  match s with
  | EmptyString => EmptyString
  | String a s' => String (lower_ascii a) (lower s')
  end.

(** [s * n] *)
Fixpoint repeat (s : string) (n : nat) : string :=
  match n with
  | O => EmptyString
  | S k => (s ++ repeat s k)%string
  end.

(** [sep.join(l)] *)
Definition join (sep : string) (l : list string) : string :=
  String.concat sep l.

(** [str(n)] for a non-negative [int]. *)
Definition of_nat (n : nat) : string :=
  NilZero.string_of_uint (Nat.to_uint n).

(** [str(z)] for an [int]. *)
Definition of_Z (z : Z) : string :=
  NilZero.string_of_int (Z.to_int z).

(** A byte [10xxxxxx] continues a multi-byte UTF-8 character. *)
Definition is_continuation (a : ascii) : bool :=
  let n := nat_of_ascii a in ((128 <=? n) && (n <? 192))%nat.

(** [s[:n]] counted in characters (code points), as Python slices do:
    the bytes up to, not including, the lead byte of character [n]. *)
Fixpoint take_chars (n : nat) (s : string) : string :=
  match s with
  | EmptyString => EmptyString
  | String a s' =>
      if is_continuation a then String a (take_chars n s')
      else match n with
           | O => EmptyString
           | S k => String a (take_chars k s')
           end
  end.

(** [s.rfind(c)] for a one-byte [c]: the last index of [c], or [-1]. *)
Fixpoint rfind_from (i : Z) (c : ascii) (s : string) (found : Z) : Z :=
  match s with
  | EmptyString => found
  | String a s' =>
      rfind_from (i + 1) c s' (if Ascii.eqb a c then i else found)
  end.

Definition rfind (s : string) (c : ascii) : Z := rfind_from 0 c s (-1).

(** [s.split(c)] for a one-byte separator: never empty, [""] splits
    into [[""]]. *)
Fixpoint split (c : ascii) (s : string) : list string :=
  match s with
  | EmptyString => [EmptyString]
  | String a s' =>
      if Ascii.eqb a c then EmptyString :: split c s'
      else match split c s' with
           | [] => [String a EmptyString]
           | h :: t => String a h :: t
           end
  end.

(** [s.lstrip(c)] for a one-byte [c]. *)
Fixpoint lstrip (c : ascii) (s : string) : string :=
  match s with
  | EmptyString => EmptyString
  | String a s' => if Ascii.eqb a c then lstrip c s' else s
  end.

(** No byte of [s] is [c]. *)
Fixpoint free_of (c : ascii) (s : string) : bool :=
  match s with
  | EmptyString => true
  | String a s' => negb (Ascii.eqb a c) && free_of c s'
  end.

End PyStr.

(* ================================================================= *)
(** ** posixpath *)

Module posixpath.

Definition sep : ascii := "/"%char.
Definition extsep : ascii := "."%char.
Definition curdir : string := ".".
Definition pardir : string := "..".

Definition ends_with_sep (s : string) : bool := PyStr.endswith s "/".
Definition starts_with_sep (s : string) : bool := PyStr.startswith s "/".

(** [os.path.join(a, b)]: an absolute [b] replaces [a]; a separator is
    inserted unless [a] is empty or already ends with one. *)
Definition join (a b : string) : string :=
  if starts_with_sep b then b
  else if PyStr.is_empty a || ends_with_sep a then (a ++ b)%string
  else (a ++ "/" ++ b)%string.

(** The loop of [genericpath._splitext] that skips leading dots:
    is some byte of [s] at an index in [[lo, hi)] different from a dot?
    [i] is the index of the head of [s]. *)
Fixpoint has_non_dot (i lo hi : Z) (s : string) : bool :=
  match s with
  | EmptyString => false
  | String a s' =>
      ((lo <=? i)%Z && (i <? hi)%Z && negb (Ascii.eqb a extsep))
      || has_non_dot (i + 1) lo hi s'
  end.

(** [os.path.splitext(p)] *)
Definition splitext (p : string) : string * string :=
  let sepIndex := PyStr.rfind p sep in
  let dotIndex := PyStr.rfind p extsep in
  if (sepIndex <? dotIndex)%Z
  then if has_non_dot 0 (sepIndex + 1) dotIndex p
       then (PyStr.take (Z.to_nat dotIndex) p,
             PyStr.drop (Z.to_nat dotIndex) p)
       else (p, EmptyString)
  else (p, EmptyString).

(** One turn of the component loop of [normpath]; [new_comps] is kept
    in order. *)
Definition norm_step (initial_slashes : nat) (new_comps : list string)
           (comp : string) : list string :=
  if String.eqb comp "" || String.eqb comp curdir then new_comps
  else if negb (String.eqb comp pardir)
          || ((initial_slashes =? 0)%nat
              && match new_comps with [] => true | _ => false end)
          || match rev new_comps with
             | lastc :: _ => String.eqb lastc pardir
             | [] => false
             end
       then new_comps ++ [comp]
       else removelast new_comps.

(** The number of leading slashes [normpath] keeps: two when the path
    starts with exactly two, else one when it is absolute. *)
Definition initial_slashes (path : string) : nat :=
  if PyStr.startswith path "/"
  then if PyStr.startswith path "//" && negb (PyStr.startswith path "///")
       then 2 else 1
  else 0.

Definition norm_comps (path : string) : list string :=
  fold_left (norm_step (initial_slashes path)) (PyStr.split sep path) [].

(** [os.path.normpath(path)] *)
Definition normpath (path : string) : string :=
  if PyStr.is_empty path then curdir
  else
    let p := (PyStr.repeat "/" (initial_slashes path)
              ++ PyStr.join "/" (norm_comps path))%string in
    if PyStr.is_empty p then curdir else p.

(** [os.path.abspath(path)], with [os.getcwd()] given. *)
Definition abspath (cwd path : string) : string :=
  if starts_with_sep path then normpath path
  else normpath (join cwd path).

(** [os.path.commonprefix] on two lists of components: their longest
    common prefix. *)
Fixpoint commonprefix (l1 l2 : list string) : list string :=
  match l1, l2 with
  | a :: l1', b :: l2' =>
      if String.eqb a b then a :: commonprefix l1' l2' else []
  | _, _ => []
  end.

Definition tail_list (abs : string) : list string :=
  let tl := PyStr.lstrip sep abs in
  if PyStr.is_empty tl then [] else PyStr.split sep tl.

(** [os.path.relpath(path, start)] for a non-empty [path] (Python raises
    [ValueError] on the empty one; the roots produced by [os.walk] on a
    non-empty top are never empty). *)
Definition relpath (cwd path start : string) : string :=
  let start_list := tail_list (abspath cwd start) in
  let path_list := tail_list (abspath cwd path) in
  let i := length (commonprefix start_list path_list) in
  let rel_list := List.repeat pardir (length start_list - i)
                  ++ skipn i path_list in
  match rel_list with
  | [] => curdir
  | _ => PyStr.join "/" rel_list
  end.

End posixpath.

(* ================================================================= *)
(** ** The directory tree under the input directory *)

(** The contents of a directory, in the order the operating system lists
    them.  An entry is a regular file (or a link to one); some other thing
    that is not a directory (a FIFO, a socket, a device, a dangling link);
    a directory that [os.walk] lists and descends into; or a directory that
    [os.walk] names among the sub-directories and yields nothing for: a
    symbolic link to a directory, which it does not follow, or a directory
    that cannot be listed, whose error it swallows. *)
Inductive entry : Type :=
| File (name : string)
| Special (name : string)
| Dir (name : string) (children : list entry)
| ClosedDir (name : string).

Definition entry_name (e : entry) : string :=
  match e with File n => n | Special n => n | Dir n _ => n | ClosedDir n => n end.

(** [entry.is_dir()], which follows links. *)
Definition is_dir (e : entry) : bool :=
  match e with
  | File _ => false
  | Special _ => false
  | Dir _ _ => true
  | ClosedDir _ => true
  end.


(** [os.listdir(d)]: the names of all entries of [d], whatever their kind. *)
Definition os_listdir (entries : list entry) : list string :=
  map entry_name entries.

Definition dirnames (entries : list entry) : list string :=
  map entry_name (filter is_dir entries).

Definition filenames (entries : list entry) : list string :=
  map entry_name (filter (fun e => negb (is_dir e)) entries).

(** [os.walk(top)], top-down: the triple of [top] itself, whose third
    component holds every entry that is not a directory, then the walk of
    each sub-directory [os.path.join(top, d)] in listing order.
    [walk_entry top e] is the walk of the entry [e] of directory [top]:
    nothing for an entry that is not a directory, for a link to a
    directory and for a directory that cannot be listed,
    [os.walk(os.path.join(top, d))] for the other directories. *)
Fixpoint walk_entry (top : string) (e : entry)
  : list (string * list string * list string) :=
  match e with
  | File _ => []
  | Special _ => []
  | ClosedDir _ => []
  | Dir d children =>
      let new_path := posixpath.join top d in
      (new_path, dirnames children, filenames children)
      :: flat_map (walk_entry new_path) children
  end.

Definition os_walk (top : string) (entries : list entry)
  : list (string * list string * list string) :=
  (top, dirnames entries, filenames entries)
  :: flat_map (walk_entry top) entries.

(* ================================================================= *)
(** ** subprocess *)

(** Python exceptions, as far as [convert_video] tells them apart. *)
Inductive exn : Type :=
| CalledProcessError (returncode : Z) (stdout stderr : string)
| OtherException (message : string).

(** A computation that returns or raises. *)
Inductive py (A : Type) : Type :=
| Return (a : A)
| Raise (e : exn).
Arguments Return {A} a.
Arguments Raise {A} e.

Record CompletedProcess : Type := mkCompletedProcess {
  cp_returncode : Z;
  cp_stdout : string;
  cp_stderr : string
}.

(** What happens to one spawned process.  It runs, exits with a status,
    and its two captured streams decode as text.  Or it runs and exits
    with a status, and decoding a captured stream, which [subprocess] does
    after the wait, raises [UnicodeDecodeError], [message] being the
    [str(e)] of that error.  Or spawning or waiting fails with an
    exception whose [str(e)] is [message] (executable missing, permission
    denied, ...), and there is no exit status. *)
Inductive run_outcome : Type :=
| Exited (returncode : Z) (stdout stderr : string)
| Undecodable (returncode : Z) (message : string)
| Failed (message : string).


(** [subprocess.run(cmd, check=..., stdout=PIPE, stderr=PIPE, text=True)]
    once the operating system has answered with [o]. *)
Definition subprocess_run (check : bool) (o : run_outcome)
  : py CompletedProcess :=
  match o with
  | Failed message => Raise (OtherException message)
  | Undecodable _ message => Raise (OtherException message)
  | Exited rc out err =>
      if check && negb (rc =? 0)%Z
      then Raise (CalledProcessError rc out err)
      else Return (mkCompletedProcess rc out err)
  end.

(** The calls the converter makes to the operating system. *)
Inductive os_call : Type :=
| Makedirs (path : string) (exist_ok : bool)
| Spawn (cmd : list string).

Definition is_spawn (c : os_call) : bool :=
  match c with Spawn _ => true | Makedirs _ _ => false end.

(** The command lines spawned so far, oldest first. *)
Fixpoint spawned (calls : list os_call) : list (list string) :=
  match calls with
  | [] => []
  | Spawn cmd :: r => cmd :: spawned r
  | Makedirs _ _ :: r => spawned r
  end.

(* ================================================================= *)
(** ** The converter object *)

Definition ProgressEvent : Type := (nat * nat * string)%type.

Record VideoConverter : Type := mkVideoConverter {
  input_dir : string;
  output_dir : string;
  ffmpeg_path : string;
  src_formats : list string;
  dst_format : string;
  preserve_structure : bool;
  cancel_flag : bool;
  log_queue : list string;
  progress_queue : list ProgressEvent;
  total_files : nat;
  processed_files : nat
}.

(** [VideoConverter.__init__] *)
Definition init (input_dir output_dir ffmpeg_path : string)
           (src_formats : list string) (dst_format : string)
           (preserve_structure : bool) : VideoConverter :=
  mkVideoConverter input_dir output_dir ffmpeg_path src_formats dst_format
                   preserve_structure false [] [] 0 0.

Definition set_cancel_flag (b : bool) (c : VideoConverter) : VideoConverter :=
  mkVideoConverter (input_dir c) (output_dir c) (ffmpeg_path c)
    (src_formats c) (dst_format c) (preserve_structure c)
    b (log_queue c) (progress_queue c) (total_files c) (processed_files c).

(** [self.log_queue.put(line)] *)
Definition log_queue_put (line : string) (c : VideoConverter)
  : VideoConverter :=
  mkVideoConverter (input_dir c) (output_dir c) (ffmpeg_path c)
    (src_formats c) (dst_format c) (preserve_structure c)
    (cancel_flag c) (log_queue c ++ [line]) (progress_queue c)
    (total_files c) (processed_files c).

(** [self.progress_queue.put(ev)] *)
Definition progress_queue_put (ev : ProgressEvent) (c : VideoConverter)
  : VideoConverter :=
  mkVideoConverter (input_dir c) (output_dir c) (ffmpeg_path c)
    (src_formats c) (dst_format c) (preserve_structure c)
    (cancel_flag c) (log_queue c) (progress_queue c ++ [ev])
    (total_files c) (processed_files c).

Definition set_total_files (n : nat) (c : VideoConverter) : VideoConverter :=
  mkVideoConverter (input_dir c) (output_dir c) (ffmpeg_path c)
    (src_formats c) (dst_format c) (preserve_structure c)
    (cancel_flag c) (log_queue c) (progress_queue c)
    n (processed_files c).

Definition set_processed_files (n : nat) (c : VideoConverter)
  : VideoConverter :=
  mkVideoConverter (input_dir c) (output_dir c) (ffmpeg_path c)
    (src_formats c) (dst_format c) (preserve_structure c)
    (cancel_flag c) (log_queue c) (progress_queue c)
    (total_files c) n.

(* ================================================================= *)
(** ** cancel, run by the user-interface thread *)

Definition cancel_message : string := "正在取消转换...".

(** [VideoConverter.cancel]: two statements, which the worker thread may
    observe one at a time. *)
Inductive ctl_op : Type :=
| CancelSetFlag     (* self.cancel_flag = True *)
| CancelPutLog.     (* self.log_queue.put("正在取消转换...") *)

Definition ctl_step (c : VideoConverter) (op : ctl_op) : VideoConverter :=
  match op with
  | CancelSetFlag => set_cancel_flag true c
  | CancelPutLog => log_queue_put cancel_message c
  end.

Definition cancel (c : VideoConverter) : VideoConverter :=
  fold_left ctl_step [CancelSetFlag; CancelPutLog] c.

(* ================================================================= *)
(** ** Python floats, for the percentage *)

Module PyFloat.

Definition prec : Z := 53.
Definition emax : Z := 1024.

(** [float(z)] *)
Definition of_int (z : Z) : spec_float := binary_normalize prec emax z 0 false.

(** [a / b] on [int]s; [None] is [ZeroDivisionError]. *)
Definition truediv (a b : Z) : option spec_float :=
  if (b =? 0)%Z then None
  else Some (SFdiv prec emax (of_int a) (of_int b)).

(** [x * z] for a float [x] and an [int] [z]. *)
Definition mul_int (x : spec_float) (z : Z) : spec_float :=
  SFmul prec emax x (of_int z).

(** [int(x)]: truncation towards zero; [None] when Python raises (on an
    infinity or a NaN). *)
Definition to_int (x : spec_float) : option Z :=
  match x with
  | S754_zero _ => Some 0%Z
  | S754_finite s m e =>
      let v := match e with
               | Z0 => Zpos m
               | Zpos k => (Zpos m * 2 ^ Zpos k)%Z
               | Zneg k => (Zpos m / 2 ^ Zpos k)%Z
               end in
      Some (if s then (- v)%Z else v)
  | S754_infinity _ => None
  | S754_nan => None
  end.

End PyFloat.

(** [int((processed / total) * 100)] *)
Definition progress_percent (processed total : nat) : option Z :=
  match PyFloat.truediv (Z.of_nat processed) (Z.of_nat total) with
  | None => None
  | Some q => PyFloat.to_int (PyFloat.mul_int q 100)
  end.

(* ================================================================= *)
(** ** The environment and the state of a run *)

(** What the operating system answers during one run. *)
Record Env : Type := mkEnv {
  (** [os.getcwd()] *)
  cwd : string;
  (** the contents of the input directory, which exists and can be
      listed *)
  listing : list entry;
  (** the outcome of the [k]-th process spawned by the run, given its
      command line *)
  run_process : nat -> list string -> run_outcome
}.

(** The converter object shared by the two threads, the calls made to the
    operating system so far, and what the controller thread will do at each
    of the coming points where the worker touches the shared object. *)
Record World : Type := mkWorld {
  self : VideoConverter;
  calls : list os_call;
  pending : list (list ctl_op)
}.

Definition with_self (f : VideoConverter -> VideoConverter) (w : World)
  : World :=
  mkWorld (f (self w)) (calls w) (pending w).

Definition record_call (c : os_call) (w : World) : World :=
  mkWorld (self w) (calls w ++ [c]) (pending w).

(** The controller thread runs whatever it has scheduled before the
    worker's next access to the shared object. *)
Definition yield (w : World) : World :=
  match pending w with
  | [] => w
  | ops :: rest => mkWorld (fold_left ctl_step ops (self w)) (calls w) rest
  end.

Definition put_log (line : string) (w : World) : World :=
  with_self (log_queue_put line) (yield w).

Definition put_progress (ev : ProgressEvent) (w : World) : World :=
  with_self (progress_queue_put ev) (yield w).

(** [os.makedirs(path, exist_ok=True)]; the call is taken to return
    normally, the source has no handler around it. *)
Definition os_makedirs (path : string) (exist_ok : bool) (w : World)
  : World :=
  record_call (Makedirs path exist_ok) w.

Inductive run_result : Type :=
| Finished (w : World)
| Aborted (e : exn) (w : World).

(** How the [for] loop was left: by exhaustion or [break], or by an
    exception. *)
Inductive loop_result : Type :=
| LoopDone (broke : bool) (w : World)
| LoopAborted (e : exn) (w : World).

(* ================================================================= *)
(** ** VideoConverter.get_video_files *)

(** [any(file.lower().endswith(ext) for ext in self.src_formats)] *)
Definition matches_format (c : VideoConverter) (file : string) : bool :=
  existsb (fun ext => PyStr.endswith (PyStr.lower file) ext) (src_formats c).

Definition get_video_files (E : Env) (c : VideoConverter)
  : list (string * string) :=
  if preserve_structure c
  then flat_map
         (fun t : string * list string * list string =>
            let '(root, _, files) := t in
            map (fun file => (root, file)) (filter (matches_format c) files))
         (os_walk (input_dir c) (listing E))
  else map (fun file => (input_dir c, file))
           (filter (matches_format c) (os_listdir (listing E))).

(* ================================================================= *)
(** ** VideoConverter.convert_video *)

(** The command line, lines 41-95. *)
Definition encoder_cmd (c : VideoConverter) (input_path output_path : string)
  : list string :=
  if String.eqb (dst_format c) ".mp4" then
    [ffmpeg_path c; "-i"; input_path;
     "-c:v"; "libx264"; "-crf"; "23"; "-preset"; "medium";
     "-c:a"; "aac"; "-b:a"; "128k"; "-y"; output_path]
  else if String.eqb (dst_format c) ".webm" then
    [ffmpeg_path c; "-i"; input_path;
     "-c:v"; "libvpx-vp9"; "-crf"; "30"; "-b:v"; "0";
     "-c:a"; "libopus"; "-b:a"; "128k"; "-y"; output_path]
  else if String.eqb (dst_format c) ".avi" then
    [ffmpeg_path c; "-i"; input_path;
     "-c:v"; "mpeg4"; "-q:v"; "3";
     "-c:a"; "mp3"; "-b:a"; "128k"; "-y"; output_path]
  else if String.eqb (dst_format c) ".mov" then
    [ffmpeg_path c; "-i"; input_path;
     "-c:v"; "h264"; "-crf"; "23";
     "-c:a"; "aac"; "-b:a"; "128k"; "-y"; output_path]
  else
    [ffmpeg_path c; "-i"; input_path; "-c"; "copy"; "-y"; output_path].

(** The [try] statement, lines 97-109, around the outcome of the process. *)
Definition convert_result (o : run_outcome) : py (bool * string) :=
  match subprocess_run true o with
  | Return result => Return (true, cp_stderr result)
  | Raise (CalledProcessError _ _ stderr) => Return (false, stderr)
  | Raise (OtherException message) => Return (false, message)
  end.

Definition convert_video (E : Env) (input_path output_path : string)
           (w : World) : py (bool * string) * World :=
  let cmd := encoder_cmd (self w) input_path output_path in
  let o := run_process E (length (spawned (calls w))) cmd in
  (convert_result o, record_call (Spawn cmd) w).

(* ================================================================= *)
(** ** VideoConverter.start_conversion *)

(** [f"进度: {processed}/{total} ({progress}%)"]; [progress] is defined
    whenever [total] is positive, which it is inside the loop. *)
Definition progress_text (processed total : nat) : string :=
  ("进度: " ++ PyStr.of_nat processed ++ "/" ++ PyStr.of_nat total ++ " ("
   ++ match progress_percent processed total with
      | Some z => PyStr.of_Z z
      | None => ""
      end ++ "%)")%string.

Definition cancelled_label : string := "转换已取消".
Definition completed_label : string := "转换完成".
Definition nothing_label : string := "没有可转换的文件".
Definition break_line : string := "⚠️ 转换已取消".
Definition cancelled_line : string := "⏹️ 转换已取消".
Definition nothing_line : string := "❌ 没有找到可转换的视频文件".
Definition failure_line (file : string) : string :=
  ("❌ 转换失败: " ++ file)%string.
Definition success_line (file : string) : string :=
  ("✓ 转换成功: " ++ file)%string.

(** The destination of one file, lines 138-146: the sub-directory to
    create (in preserve-structure mode), the file name and the path. *)
Definition output_file (c : VideoConverter) (file : string) : string :=
  (fst (posixpath.splitext file) ++ dst_format c)%string.

Definition output_subdir (E : Env) (c : VideoConverter) (root : string)
  : string :=
  posixpath.join (output_dir c)
                 (posixpath.relpath (cwd E) root (input_dir c)).

Definition output_path (E : Env) (c : VideoConverter) (root file : string)
  : string :=
  if preserve_structure c
  then posixpath.join (output_subdir E c root) (output_file c file)
  else posixpath.join (output_dir c) (output_file c file).

(** The body of the loop after the cancellation check, lines 135-164. *)
Definition process_file (E : Env) (root file : string) (w : World)
  : run_result :=
  let input_path := posixpath.join root file in
  let w := if preserve_structure (self w)
           then os_makedirs (output_subdir E (self w) root) true w
           else w in
  let out_file := output_file (self w) file in
  let out_path := output_path E (self w) root file in
  let w := put_log ("转换中: " ++ file ++ " → " ++ out_file)%string w in
  let w := put_progress (processed_files (self w), total_files (self w),
                         ("处理: " ++ file)%string) w in
  match convert_video E input_path out_path w with
  | (Raise e, w) => Aborted e w
  | (Return (success, log), w) =>
      let w := if success
               then put_log (success_line file) w
               else put_log ("错误信息: " ++ PyStr.take_chars 200 log
                             ++ "...")%string
                            (put_log (failure_line file) w) in
      let w := with_self
                 (fun c => set_processed_files (processed_files c + 1) c) w in
      Finished
        (put_progress (processed_files (self w), total_files (self w),
                       progress_text (processed_files (self w))
                                     (total_files (self w))) w)
  end.

(** The [for] loop, lines 130-164. *)
Fixpoint conversion_loop (E : Env) (video_files : list (string * string))
         (w : World) : loop_result :=
  match video_files with
  | [] => LoopDone false w
  | (root, file) :: rest =>
      let w := yield w in
      if cancel_flag (self w)
      then LoopDone true (put_log break_line w)
      else match process_file E root file w with
           | Aborted e w => LoopAborted e w
           | Finished w => conversion_loop E rest w
           end
  end.

(** The seven lines that open the log, lines 113-119. *)
Definition header_lines (c : VideoConverter) : list string :=
  [ "🚀 开始转换视频...";
    ("输入目录: " ++ input_dir c)%string;
    ("输出目录: " ++ output_dir c)%string;
    ("源格式: " ++ PyStr.join ", " (src_formats c))%string;
    ("目标格式: " ++ dst_format c)%string;
    ("保留目录结构: " ++ (if preserve_structure c then "是" else "否"))%string;
    PyStr.repeat "-" 60 ].

(** Lines 166-172. *)
Definition finish (w : World) : World :=
  let w := yield w in
  if cancel_flag (self w)
  then put_progress (processed_files (self w), total_files (self w),
                     cancelled_label)
         (put_log cancelled_line w)
  else
    let w := put_log (PyStr.repeat "=" 60) w in
    let w := put_log ("✅ 转换完成! 成功转换 "
                      ++ PyStr.of_nat (processed_files (self w)) ++ "/"
                      ++ PyStr.of_nat (total_files (self w))
                      ++ " 个文件")%string w in
    put_progress (processed_files (self w), total_files (self w),
                  completed_label) w.

Definition start_conversion (E : Env) (w : World) : run_result :=
  let w := fold_left (fun w line => put_log line w) (header_lines (self w)) w in
  let video_files := get_video_files E (self w) in
  let w := with_self (set_total_files (length video_files)) w in
  let w := with_self (set_processed_files 0) w in
  if (total_files (self w) =? 0)%nat
  then Finished (put_progress (0, 0, nothing_label) (put_log nothing_line w))
  else match conversion_loop E video_files w with
       | LoopAborted e w => Aborted e w
       | LoopDone _ w => Finished (finish w)
       end.

(** A run starts from a fresh object, as [VideoConverterApp.start_conversion]
    builds it; [sched] is the controller's schedule. *)
Definition fresh (c : VideoConverter) (sched : list (list ctl_op)) : World :=
  mkWorld c [] sched.

(* ================================================================= *)
(** ** The encoder table of the specification *)

(** One row per supported destination format: video codec, quality or
    bitrate parameters, audio codec, audio bitrate. *)
Definition format_table : list (string * list string) :=
  [ (".mp4",  ["-c:v"; "libx264"; "-crf"; "23"; "-preset"; "medium";
               "-c:a"; "aac"; "-b:a"; "128k"]);
    (".webm", ["-c:v"; "libvpx-vp9"; "-crf"; "30"; "-b:v"; "0";
               "-c:a"; "libopus"; "-b:a"; "128k"]);
    (".avi",  ["-c:v"; "mpeg4"; "-q:v"; "3"; "-c:a"; "mp3"; "-b:a"; "128k"]);
    (".mov",  ["-c:v"; "h264"; "-crf"; "23"; "-c:a"; "aac"; "-b:a"; "128k"]) ].

Definition stream_copy : list string := ["-c"; "copy"].

Definition encoder_args (dst : string) : list string :=
  match find (fun row => String.eqb dst (fst row)) format_table with
  | Some row => snd row
  | None => stream_copy
  end.

(** A row names a video codec, an audio codec and an audio bitrate. *)
Definition names_codecs (args : list string) : Prop :=
  In "-c:v" args /\ In "-c:a" args /\ In "-b:a" args.

(* ================================================================= *)
(** ** What a run does, file by file, when nobody cancels *)

Definition file_cmd (E : Env) (c : VideoConverter) (root file : string)
  : list string :=
  encoder_cmd c (posixpath.join root file) (output_path E c root file).

Definition file_calls (E : Env) (c : VideoConverter) (root file : string)
  : list os_call :=
  (if preserve_structure c
   then [Makedirs (output_subdir E c root) true] else [])
  ++ [Spawn (file_cmd E c root file)].

(** The outcome of the [k]-th encoder process, spawned for [root/file]. *)
Definition file_outcome (E : Env) (c : VideoConverter) (k : nat)
           (root file : string) : run_outcome :=
  run_process E k (file_cmd E c root file).

(** The flag and the text [convert_video] returns for an outcome
    ([convert_result_returns]): the flag is true when the process exited
    with status 0 and its output decoded. *)
Definition exit_ok (o : run_outcome) : bool :=
  match o with
  | Exited rc _ _ => (rc =? 0)%Z
  | Undecodable _ _ => false
  | Failed _ => false
  end.

Definition diagnostic (o : run_outcome) : string :=
  match o with
  | Exited _ _ stderr => stderr
  | Undecodable _ message => message
  | Failed message => message
  end.

Definition file_lines (E : Env) (c : VideoConverter) (k : nat)
           (root file : string) : list string :=
  let o := file_outcome E c k root file in
  ("转换中: " ++ file ++ " → " ++ output_file c file)%string
  :: (if exit_ok o then [success_line file]
      else [failure_line file;
            ("错误信息: " ++ PyStr.take_chars 200 (diagnostic o)
             ++ "...")%string]).

Definition file_events (p t : nat) (file : string) : list ProgressEvent :=
  [(p, t, ("处理: " ++ file)%string); (p + 1, t, progress_text (p + 1) t)].

Fixpoint run_calls (E : Env) (c : VideoConverter)
         (files : list (string * string)) : list os_call :=
  match files with
  | [] => []
  | (root, file) :: rest => file_calls E c root file ++ run_calls E c rest
  end.

Fixpoint run_lines (E : Env) (c : VideoConverter) (k : nat)
         (files : list (string * string)) : list string :=
  match files with
  | [] => []
  | (root, file) :: rest =>
      file_lines E c k root file ++ run_lines E c (S k) rest
  end.

Fixpoint run_events (p t : nat) (files : list (string * string))
  : list ProgressEvent :=
  match files with
  | [] => []
  | (_, file) :: rest => file_events p t file ++ run_events (p + 1) t rest
  end.


(** A log line reporting the failure of a file. *)
Definition is_failure_line (line : string) : bool :=
  PyStr.startswith line "❌ 转换失败: ".

(** The log lines that do not come from [cancel]. *)
Definition worker_lines (q : list string) : list string :=
  filter (fun line => negb (String.eqb line cancel_message)) q.

(** The controller never sets the flag. *)
Definition no_cancel (sched : list (list ctl_op)) : Prop :=
  Forall (fun ops => ~ In CancelSetFlag ops) sched.

(** The state of the run when the loop is entered: the header is logged,
    the files are counted. *)
Definition announce (E : Env) (w : World) : World :=
  let w := fold_left (fun w line => put_log line w) (header_lines (self w)) w in
  let video_files := get_video_files E (self w) in
  let w := with_self (set_total_files (length video_files)) w in
  with_self (set_processed_files 0) w.

(** The object without what the controller writes: the flag cleared, the
    controller's log lines removed; and the world where, in addition, the
    controller stays silent. *)
Definition strip (c : VideoConverter) : VideoConverter :=
  mkVideoConverter (input_dir c) (output_dir c) (ffmpeg_path c)
    (src_formats c) (dst_format c) (preserve_structure c)
    false (worker_lines (log_queue c)) (progress_queue c)
    (total_files c) (processed_files c).

Definition still (w : World) : World := mkWorld (strip (self w)) (calls w) [].

Definition flagged (w : World) : Prop := cancel_flag (self w) = true.

Definition calm (w : World) : Prop :=
  no_cancel (pending w) /\ cancel_flag (self w) = false.

(* ================================================================= *)
(** ** Auxiliary definitions for the proofs *)

(** The world after [process_file], the encoder invocation having
    returned. *)
Definition after_file (E : Env) (root file : string) (w : World) : World :=
  let input_path := posixpath.join root file in
  let w := if preserve_structure (self w)
           then os_makedirs (output_subdir E (self w) root) true w
           else w in
  let out_file := output_file (self w) file in
  let out_path := output_path E (self w) root file in
  let w := put_log ("转换中: " ++ file ++ " → " ++ out_file)%string w in
  let w := put_progress (processed_files (self w), total_files (self w),
                         ("处理: " ++ file)%string) w in
  let cmd := encoder_cmd (self w) input_path out_path in
  let o := run_process E (length (spawned (calls w))) cmd in
  let w := record_call (Spawn cmd) w in
  let w := if exit_ok o
           then put_log (success_line file) w
           else put_log ("错误信息: " ++ PyStr.take_chars 200 (diagnostic o)
                         ++ "...")%string
                        (put_log (failure_line file) w) in
  let w := with_self
             (fun c => set_processed_files (processed_files c + 1) c) w in
  put_progress (processed_files (self w), total_files (self w),
                progress_text (processed_files (self w))
                              (total_files (self w))) w.

Definition begin_file (E : Env) (root file : string) (w : World) : World :=
  let w := if preserve_structure (self w)
           then os_makedirs (output_subdir E (self w) root) true w
           else w in
  let w := put_log ("转换中: " ++ file ++ " → "
                    ++ output_file (self w) file)%string w in
  put_progress (processed_files (self w), total_files (self w),
                ("处理: " ++ file)%string) w.

Definition end_file (file : string) (o : run_outcome) (w : World) : World :=
  let w := if exit_ok o
           then put_log (success_line file) w
           else put_log ("错误信息: " ++ PyStr.take_chars 200 (diagnostic o)
                         ++ "...")%string
                        (put_log (failure_line file) w) in
  let w := with_self
             (fun c => set_processed_files (processed_files c + 1) c) w in
  put_progress (processed_files (self w), total_files (self w),
                progress_text (processed_files (self w))
                              (total_files (self w))) w.

(** [c] with [lines] logged, [events] reported and [p] files processed. *)
Definition advance (c : VideoConverter) (lines : list string)
           (events : list ProgressEvent) (p : nat) : VideoConverter :=
  mkVideoConverter (input_dir c) (output_dir c) (ffmpeg_path c)
    (src_formats c) (dst_format c) (preserve_structure c)
    (cancel_flag c) (log_queue c ++ lines) (progress_queue c ++ events)
    (total_files c) p.

(** The world after the loop has gone through [files] undisturbed. *)
Definition silent_loop (E : Env) (files : list (string * string))
           (v : World) : World :=
  mkWorld
    (advance (self v)
       (run_lines E (self v) (length (spawned (calls v))) files)
       (run_events (processed_files (self v)) (total_files (self v)) files)
       (processed_files (self v) + length files))
    (calls v ++ run_calls E (self v) files) [].

(** [c] once the header is logged and the files are counted. *)
Definition opened (E : Env) (c : VideoConverter) : VideoConverter :=
  mkVideoConverter (input_dir c) (output_dir c) (ffmpeg_path c)
    (src_formats c) (dst_format c) (preserve_structure c)
    (cancel_flag c) (log_queue c ++ header_lines c) (progress_queue c)
    (length (get_video_files E c)) 0.

Definition summary_line (p t : nat) : string :=
  ("✅ 转换完成! 成功转换 " ++ PyStr.of_nat p ++ "/" ++ PyStr.of_nat t
   ++ " 个文件")%string.

(** How a run ends: with nothing to convert, completed, or cancelled after
    the files [done], the loop having been left by [break] or not. *)
Inductive ending : Type :=
| Nothing
| Completed
| Cancelled (done : list (string * string)) (broke : bool).

(** The files gone through, the last log lines and the terminal event of a
    run over [n] files that ends with [e]. *)
Definition ending_done (E : Env) (c : VideoConverter) (e : ending)
  : list (string * string) :=
  match e with
  | Nothing => []
  | Completed => get_video_files E c
  | Cancelled done _ => done
  end.

Definition ending_tail (n : nat) (e : ending) : list string :=
  match e with
  | Nothing => [nothing_line]
  | Completed => [PyStr.repeat "=" 60; summary_line n n]
  | Cancelled _ broke =>
      (if broke then [break_line] else []) ++ [cancelled_line]
  end.

Definition ending_event (n : nat) (e : ending) : ProgressEvent :=
  match e with
  | Nothing => (0, 0, nothing_label)
  | Completed => (n, n, completed_label)
  | Cancelled done _ => (length done, n, cancelled_label)
  end.

(** The world at the end of a run that started in [v], the controller's
    writes set aside. *)
Definition final_world (E : Env) (v : World) (e : ending) : World :=
  let c := opened E (self v) in
  let n := total_files c in
  let done := ending_done E (self v) e in
  mkWorld
    (advance c
       (run_lines E c (length (spawned (calls v))) done ++ ending_tail n e)
       (run_events 0 n done ++ [ending_event n e])
       (fst (fst (ending_event n e))))
    (calls v ++ run_calls E c done) [].

(** The two branches of [finish], after the flag has been read. *)
Definition cancelled_end (w : World) : World :=
  put_progress (processed_files (self w), total_files (self w),
                cancelled_label)
    (put_log cancelled_line w).

Definition completed_end (w : World) : World :=
  let w := put_log (PyStr.repeat "=" 60) w in
  let w := put_log (summary_line (processed_files (self w))
                                 (total_files (self w))) w in
  put_progress (processed_files (self w), total_files (self w),
                completed_label) w.

(** The fields set by [__init__] from its arguments agree. *)
Definition same_config (c c' : VideoConverter) : Prop :=
  input_dir c = input_dir c' /\ output_dir c = output_dir c'
  /\ ffmpeg_path c = ffmpeg_path c' /\ src_formats c = src_formats c'
  /\ dst_format c = dst_format c'
  /\ preserve_structure c = preserve_structure c'.

(** The processed counts carried by a sequence of progress events, and
    what it means for them never to decrease: each count is at least the
    one before it, the first at least [lo]. *)
Definition counts (q : list ProgressEvent) : list nat :=
  map (fun ev => fst (fst ev)) q.

Fixpoint chain (lo : nat) (l : list nat) : Prop :=
  match l with
  | [] => True
  | a :: r => lo <= a /\ chain a r
  end.

Definition nondecreasing (l : list nat) : Prop := chain 0 l.

(* ================================================================= *)
(** ** Walked directories and their paths *)

(** [dir_at entries path es]: following the directory names of [path] down
    from a directory with contents [entries] leads to a directory with
    contents [es]. *)
Inductive dir_at : list entry -> list string -> list entry -> Prop :=
| dir_at_here (es : list entry) : dir_at es [] es
| dir_at_sub (es : list entry) (d : string) (children : list entry)
             (path : list string) (es' : list entry) :
    In (Dir d children) es -> dir_at children path es' ->
    dir_at es (d :: path) es'.

(** The path [os.walk] builds for the directory reached through [path]. *)
Definition descend (top : string) (path : list string) : string :=
  fold_left posixpath.join path top.

(** Induction on a directory tree. *)
Fixpoint entry_tree_ind (P : entry -> Prop)
         (HF : forall name, P (File name))
         (HS : forall name, P (Special name))
         (HD : forall name children, Forall P children -> P (Dir name children))
         (HC : forall name, P (ClosedDir name))
         (e : entry) {struct e} : P e :=
  match e with
  | File name => HF name
  | Special name => HS name
  | ClosedDir name => HC name
  | Dir name children =>
      HD name children
         ((fix all (l : list entry) : Forall P l :=
             match l with
             | [] => Forall_nil P
             | x :: r => Forall_cons x (entry_tree_ind HF HS HD HC x) (all r)
             end) children)
  end.

(** A name a directory listing can hold: not empty, not [.] or [..], and
    without a separator. *)
Definition valid_name (d : string) : bool :=
  negb (String.eqb d "") && negb (String.eqb d posixpath.curdir)
  && negb (String.eqb d posixpath.pardir) && PyStr.free_of posixpath.sep d.

(** The path [abspath] normalises. *)
Definition abs_full (cwd path : string) : string :=
  if posixpath.starts_with_sep path then path else posixpath.join cwd path.

(** The components [normpath] keeps are not empty and hold no separator. *)
Definition plain_comp (comp : string) : Prop :=
  PyStr.free_of posixpath.sep comp = true /\ comp <> EmptyString.

(** Every byte of [s] is a dot (a name made of dots has no extension). *)
Fixpoint all_dots (s : string) : bool :=
  match s with
  | EmptyString => true
  | String a s' => Ascii.eqb a posixpath.extsep && all_dots s'
  end.

(* ================================================================= *)
(** ** Sample environments *)

(** Five files in a flat directory; the second and the fourth encoder
    process exit with status 1. *)
Definition five_files : Env :=
  mkEnv "/home/u"
        [File "a.mpg"; File "b.mpg"; File "c.mpg"; File "d.mpg"; File "e.mpg"]
        (fun k _ => if (k =? 1)%nat || (k =? 3)%nat
                    then Exited 1 "" "Conversion failed!"
                    else Exited 0 "" "").

Definition flat_converter : VideoConverter :=
  init "/in" "/out" "ffmpeg" [".mpg"; ".avi"] ".mp4" false.

Definition tree_converter : VideoConverter :=
  init "/in" "/out" "ffmpeg" [".mpg"; ".avi"] ".mp4" true.

(** An input directory without any video file. *)
Definition no_videos : Env :=
  mkEnv "/home/u" [File "notes.txt"; Dir "docs" [File "readme.md"]]
        (fun _ _ => Failed "not invoked").

(** The controller calls [cancel] while the second file is being encoded:
    nothing happens at the worker's first fifteen accesses to the shared
    object, then both statements of [cancel] run. *)
Definition cancel_during_second : list (list ctl_op) :=
  List.repeat [] 15 ++ [[CancelSetFlag; CancelPutLog]].

(** The world when the loop has gone through the first two of the five
    files under that schedule. *)
Definition after_two_files : World :=
  match conversion_loop five_files [("/in", "a.mpg"); ("/in", "b.mpg")]
          (announce five_files (fresh flat_converter cancel_during_second))
  with
  | LoopDone _ w => w
  | LoopAborted _ w => w
  end.

(** A fifty-file directory, every encoder process succeeding. *)
Definition fifty_files : Env :=
  mkEnv "/home/u"
        (map (fun k => File (PyStr.of_nat k ++ ".mpg")%string) (seq 1 50))
        (fun _ _ => Exited 0 "" "").

(** A directory named like a video, and a video inside it. *)
Definition dir_named_like_video : Env :=
  mkEnv "/home/u" [Dir "clips.MP4" [File "one.mpg"]; File "two.avi"]
        (fun _ _ => Exited 0 "" "").

(* ================================================================= *)
(** ** Further notions for the properties of a run *)

(** A progress event that ends a run: its label is one of the three
    terminal statuses. *)
Definition is_terminal (ev : ProgressEvent) : bool :=
  String.eqb (snd ev) nothing_label || String.eqb (snd ev) completed_label
  || String.eqb (snd ev) cancelled_label.

(** The calls made for one file, by mode: lines 138-140 and 98. *)
Definition calls_of (E : Env) (c : VideoConverter)
           (files : list (string * string)) : list os_call :=
  if preserve_structure c
  then flat_map (fun rf : string * string =>
                   [Makedirs (output_subdir E c (fst rf)) true;
                    Spawn (file_cmd E c (fst rf) (snd rf))]) files
  else map (fun rf : string * string =>
              Spawn (file_cmd E c (fst rf) (snd rf))) files.

(** The controller calls [cancel] while the worker is between the last
    turn of the loop over the five files and the check that follows the
    loop: nothing happens at the worker's first thirty-four accesses to the
    shared object. *)
Definition cancel_after_last : list (list ctl_op) :=
  List.repeat [] 34 ++ [[CancelSetFlag; CancelPutLog]].

Definition after_five_files : World :=
  match conversion_loop five_files (get_video_files five_files flat_converter)
          (announce five_files (fresh flat_converter cancel_after_last))
  with
  | LoopDone _ w => w
  | LoopAborted _ w => w
  end.

(** An ASCII capital letter, and a string that holds one. *)
Definition is_upper (a : ascii) : bool :=
  let n := nat_of_ascii a in ((65 <=? n) && (n <=? 90))%nat.

Fixpoint has_upper (s : string) : bool :=
  match s with
  | EmptyString => false
  | String a s' => is_upper a || has_upper s'
  end.

(** An ASCII string: every byte is below 128.  On such a string
    [PyStr.lower] is Python's [str.lower]. *)
Fixpoint is_ascii (s : string) : bool :=
  match s with
  | EmptyString => true
  | String a s' => (nat_of_ascii a <? 128)%nat && is_ascii s'
  end.

(** [len(s)] in characters: the bytes that do not continue a character. *)
Fixpoint char_count (s : string) : nat :=
  match s with
  | EmptyString => 0
  | String a s' =>
      if PyStr.is_continuation a then char_count s' else S (char_count s')
  end.

(** A directory converted onto itself: one [.mp4] file, source and
    destination formats both [.mp4], the output directory being the input
    directory. *)
Definition one_mp4 : Env :=
  mkEnv "/home/u" [File "a.mp4"] (fun _ _ => Exited 1 "" "same file").

Definition in_place_converter : VideoConverter :=
  init "/v" "/v" "ffmpeg" [".mp4"] ".mp4" false.

(* ================================================================= *)
(** ** VideoConverterApp: the host system *)

(** What the application asks of the system it runs on; the answers are
    taken not to change while one method runs. *)
Record Host : Type := mkHost {
  (** [os.path.dirname(os.path.abspath(__file__))] *)
  script_dir : string;
  (** [os.environ["PATH"]], when the variable is set *)
  environ_PATH : option string;
  (** [os.path.isfile] and [os.path.isdir] *)
  isfile : string -> bool;
  isdir : string -> bool;
  (** the exception [os.makedirs(path, exist_ok=True)] raises, if any *)
  makedirs_error : string -> option exn
}.

(** [os.pathsep] *)
Definition pathsep : ascii := ":"%char.

(* ================================================================= *)
(** ** VideoConverterApp.find_default_ffmpeg *)

Definition ffmpeg_names : list string := ["ffmpeg"; "ffmpeg.exe"].

(** The inner loop, lines 346-349, over the directories of [PATH]. *)
Fixpoint search_path (H : Host) (name : string) (dirs : list string)
  : option string :=
  match dirs with
  | [] => None
  | dir_path :: rest =>
      let full_path := posixpath.join dir_path name in
      if isfile H full_path then Some full_path
      else search_path H name rest
  end.

(** The outer loop, lines 338-349, over the names. *)
Fixpoint search_names (H : Host) (names : list string) : option string :=
  match names with
  | [] => None
  | name :: rest =>
      let path := posixpath.join (script_dir H) name in
      if isfile H path then Some path
      else
        match (match environ_PATH H with
               | Some value => search_path H name (PyStr.split pathsep value)
               | None => None
               end) with
        | Some full_path => Some full_path
        | None => search_names H rest
        end
  end.

(** [None] is Python's [None]. *)
Definition find_default_ffmpeg (H : Host) : option string :=
  search_names H ffmpeg_names.

(** Lines 238-242 of [__init__]: the initial content of the FFmpeg path
    field. *)
Definition default_ffmpeg_path (H : Host) : string :=
  match find_default_ffmpeg H with
  | Some default_ffmpeg =>
      if PyStr.is_empty default_ffmpeg then "ffmpeg" else default_ffmpeg
  | None => "ffmpeg"
  end.

(** The places [find_default_ffmpeg] looks at for one name, and for the
    two names, in the order of the search. *)
Definition places (H : Host) (name : string) : list string :=
  posixpath.join (script_dir H) name
  :: match environ_PATH H with
     | Some value =>
         map (fun dir_path => posixpath.join dir_path name)
             (PyStr.split pathsep value)
     | None => []
     end.

Definition ffmpeg_places (H : Host) : list string :=
  places H "ffmpeg" ++ places H "ffmpeg.exe".

(* ================================================================= *)
(** ** str.strip *)

Definition of_bytes (l : list nat) : string :=
  fold_right (fun n s => String (ascii_of_nat n) s) EmptyString l.

(** The characters [str.isspace] accepts, in UTF-8: the ASCII controls
    9-13 and 28-31, the space, U+0085, U+00A0, U+1680, U+2000 to U+200A,
    U+2028, U+2029, U+202F, U+205F and U+3000. *)
Definition whitespace : list string :=
  map of_bytes
      ([[9]; [10]; [11]; [12]; [13]; [28]; [29]; [30]; [31]; [32];
        [194; 133]; [194; 160]; [225; 154; 128]]
       ++ map (fun k => [226; 128; k]) (seq 128 11)
       ++ [[226; 128; 168]; [226; 128; 169]; [226; 128; 175];
           [226; 129; 159]; [227; 128; 128]]).

(** [s.lstrip()] and [s.rstrip()]: one white-space character is removed
    at each turn, [fuel] bounds the number of turns. *)
Fixpoint lstrip_ws (fuel : nat) (s : string) : string :=
  match fuel with
  | O => s
  | S k =>
      match find (fun p => PyStr.startswith s p) whitespace with
      | Some p => lstrip_ws k (PyStr.drop (String.length p) s)
      | None => s
      end
  end.

Fixpoint rstrip_ws (fuel : nat) (s : string) : string :=
  match fuel with
  | O => s
  | S k =>
      match find (fun p => PyStr.endswith s p) whitespace with
      | Some p =>
          rstrip_ws k (PyStr.take (String.length s - String.length p) s)
      | None => s
      end
  end.

(** [s.strip()] *)
Definition str_strip (s : string) : string :=
  let t := lstrip_ws (String.length s) s in
  rstrip_ws (String.length t) t.

(* ================================================================= *)
(** ** VideoConverterApp *)

(** The state of a button. *)
Inductive widget_state : Type := NORMAL | DISABLED.

(** What one run of [update_ui] reads from the worker's side, in this
    order: the messages its first loop gets from the log queue, the events
    its second loop gets from the progress queue, and the answer of
    [is_alive()].  The worker thread runs meanwhile: what it puts in a
    queue after the loop over that queue has ended is not among them,
    whether or not the thread has ended by the time [is_alive()] is
    asked. *)
Record tick_reads : Type := mkReads {
  got_lines : list string;
  got_events : list ProgressEvent;
  alive : bool
}.

Module VideoConverterApp.

(** The attributes of the application object the methods read or write:
    the Tk variables and widgets by their content, [converter] by the
    object it refers to, in the state the application thread has left it
    in, [conversion_thread] by whether a thread object is attached. *)
Record t : Type := mk {
  input_dir : string;
  output_dir : string;
  ffmpeg_path : string;
  src_formats : list (string * bool);
  dst_format : string;
  preserve_structure : bool;
  progress_var : Z;
  progress_label : string;
  convert_btn : widget_state;
  cancel_btn : widget_state;
  log_text : string;
  status_var : string;
  converter : option VideoConverter;
  conversion_thread : bool
}.

(** [__init__], as far as these attributes go. *)
Definition new (H : Host) : t :=
  mk "" "" (default_ffmpeg_path H)
     [(".mpg", true); (".avi", true); (".mov", false); (".mkv", false);
      (".flv", false); (".wmv", false); (".mp4", false); (".m4v", false)]
     ".mp4" true 0%Z "准备就绪" NORMAL DISABLED "" "准备就绪" None false.

(** What a call of [start_conversion] comes to: a warning box, after
    which the method returns without having changed anything; an exception
    out of [os.makedirs], likewise; or the new state, a converter having
    been created and its thread started. *)
Inductive start_outcome : Type :=
| Warned (title message : string)
| Raised (e : exn)
| Started (a : t).

(** [selected_formats], line 428 *)
Definition selected_formats (a : t) : list string :=
  map fst (filter (fun ev : string * bool => snd ev) (src_formats a)).

(** Lines 401-459. *)
Definition start_conversion (H : Host) (a : t) : start_outcome :=
  let input_dir' := str_strip (input_dir a) in
  let output_dir' := str_strip (output_dir a) in
  let ffmpeg_path' := str_strip (ffmpeg_path a) in
  if PyStr.is_empty input_dir' then Warned "输入错误" "请选择输入目录"
  else if PyStr.is_empty output_dir' then Warned "输入错误" "请选择输出目录"
  else if PyStr.is_empty ffmpeg_path' then Warned "输入错误" "请指定FFmpeg路径"
  else if negb (isdir H input_dir') then Warned "输入错误" "输入目录不存在"
  else if negb (isfile H ffmpeg_path')
       then Warned "输入错误" "FFmpeg可执行文件不存在"
  else
    match selected_formats a with
    | [] => Warned "输入错误" "请至少选择一个源格式"
    | _ :: _ =>
        match makedirs_error H output_dir' with
        | Some e => Raised e
        | None =>
            Started
              (mk (input_dir a) (output_dir a) (ffmpeg_path a) (src_formats a)
                  (dst_format a) (preserve_structure a)
                  0%Z "准备开始..." DISABLED NORMAL "" (status_var a)
                  (Some (init input_dir' output_dir' ffmpeg_path'
                              (selected_formats a) (dst_format a)
                              (preserve_structure a)))
                  true)
        end
    end.

(** Lines 461-464. *)
Definition cancel_conversion (a : t) : t :=
  match converter a with
  | Some c =>
      mk (input_dir a) (output_dir a) (ffmpeg_path a) (src_formats a)
         (dst_format a) (preserve_structure a)
         (progress_var a) (progress_label a) (convert_btn a) DISABLED
         (log_text a) (status_var a) (Some (cancel c)) (conversion_thread a)
  | None => a
  end.

(** Lines 466-471. *)
Definition log_message (message : string) (a : t) : t :=
  mk (input_dir a) (output_dir a) (ffmpeg_path a) (src_formats a)
     (dst_format a) (preserve_structure a)
     (progress_var a) (progress_label a) (convert_btn a) (cancel_btn a)
     (log_text a ++ message ++ String (ascii_of_nat 10) "")%string
     (status_var a) (converter a) (conversion_thread a).

(** The body of the second [while] loop, lines 483-493, for one event.
    [Raise] stands for the exception out of the division or of [int]. *)
Definition show_progress (ev : ProgressEvent) (a : t) : py t :=
  let '(processed, total, message) := ev in
  let shown :=
    if (0 <? total)%nat
    then match progress_percent processed total with
         | Some progress =>
             Return (progress,
                     (message ++ " - " ++ PyStr.of_nat processed ++ "/"
                      ++ PyStr.of_nat total ++ " (" ++ PyStr.of_Z progress
                      ++ "%)")%string)
         | None => Raise (OtherException "float")
         end
    else Return (progress_var a, message) in
  match shown with
  | Raise e => Raise e
  | Return (progress, label) =>
      Return (mk (input_dir a) (output_dir a) (ffmpeg_path a) (src_formats a)
                 (dst_format a) (preserve_structure a)
                 progress label (convert_btn a) (cancel_btn a)
                 (log_text a) message (converter a) (conversion_thread a))
  end.

Fixpoint show_all (q : list ProgressEvent) (a : t) : py t :=
  match q with
  | [] => Return a
  | ev :: rest =>
      match show_progress ev a with
      | Return a' => show_all rest a'
      | Raise e => Raise e
      end
  end.

(** Lines 496-505, the thread having ended. *)
Definition conversion_over (a : t) : t :=
  if (progress_var a <? 100)%Z
  then mk (input_dir a) (output_dir a) (ffmpeg_path a) (src_formats a)
          (dst_format a) (preserve_structure a)
          100%Z "转换完成" NORMAL DISABLED
          (log_text a) (status_var a) None false
  else mk (input_dir a) (output_dir a) (ffmpeg_path a) (src_formats a)
          (dst_format a) (preserve_structure a)
          (progress_var a) (progress_label a) NORMAL DISABLED
          (log_text a) (status_var a) None false.

(** One run of [update_ui], lines 473-505, on what it reads.  The
    re-arming of the timer, line 508, is left out. *)
Definition update_ui (r : tick_reads) (a : t) : py t :=
  match converter a with
  | None => Return a
  | Some _ =>
      let a := fold_left (fun a message => log_message message a)
                         (got_lines r) a in
      match show_all (got_events r) a with
      | Raise e => Raise e
      | Return a => Return (if alive r then a else conversion_over a)
      end
  end.

End VideoConverterApp.

(** The successive runs of [update_ui]. *)
Fixpoint ticks (reads : list tick_reads) (a : VideoConverterApp.t)
  : py VideoConverterApp.t :=
  match reads with
  | [] => Return a
  | r :: rest =>
      match VideoConverterApp.update_ui r a with
      | Return a' => ticks rest a'
      | Raise e => Raise e
      end
  end.

(** What the ticks can read over one run whose worker enqueues [lines] and
    [events] in all.  The queues are first-in first-out and an item is got
    once, so what the ticks get, taken together, is a beginning of
    [lines] and a beginning of [events], [lost_lines] and [lost_events]
    being what no tick gets.  [is_alive()] answers true to the ticks
    [before] and false to the tick [last], which releases the converter.
    Something is lost only when the thread ends between a loop of [last]
    and its call of [is_alive()]. *)
Definition reads_of_run (lines : list string) (events : list ProgressEvent)
           (before : list tick_reads) (last : tick_reads)
           (lost_lines : list string) (lost_events : list ProgressEvent)
  : Prop :=
  Forall (fun r => alive r = true) before
  /\ alive last = false
  /\ lines = flat_map got_lines (before ++ [last]) ++ lost_lines
  /\ events = flat_map got_events (before ++ [last]) ++ lost_events.

(** The label of the last of [events], or [d] when there is none. *)
Definition last_label (events : list ProgressEvent) (d : string) : string :=
  snd (last events (0, 0, d)).

(** The lines of a log as the log widget shows them. *)
Definition shown_lines (lines : list string) : string :=
  fold_right (fun line text => (line ++ String (ascii_of_nat 10) text)%string)
             EmptyString lines.

(** A host with FFmpeg in [/usr/bin] and an input directory [/in]. *)
Definition sample_host : Host :=
  mkHost "/opt/cutfile" (Some "/usr/local/bin:/usr/bin")
         (fun p => String.eqb p "/usr/bin/ffmpeg")
         (fun p => String.eqb p "/in")
         (fun _ => None).

(** The window of [sample_host] once the user has typed the two
    directories, with blanks around them. *)
Definition sample_window : VideoConverterApp.t :=
  VideoConverterApp.mk
    " /in" "/out " (default_ffmpeg_path sample_host)
    (VideoConverterApp.src_formats (VideoConverterApp.new sample_host))
    ".mp4" true 0%Z "准备就绪" NORMAL DISABLED "" "准备就绪" None false.

(** That window once Start has been pressed, and its converter once
    Cancel has been pressed as well. *)
Definition started_window : VideoConverterApp.t :=
  match VideoConverterApp.start_conversion sample_host sample_window with
  | VideoConverterApp.Started a => a
  | _ => sample_window
  end.

Definition cancelled_at_once : VideoConverter :=
  cancel (init "/in" "/out" "/usr/bin/ffmpeg" [".mpg"; ".avi"] ".mp4" true).


(** An input directory with a FIFO named like a video, a regular video, a
    sub-directory holding a video, and a link to a directory. *)
Definition mixed_tree : Env :=
  mkEnv "/home/u"
        [Special "pipe.mpg"; File "one.mpg";
         Dir "sub" [File "two.avi"; Special "sock.avi"];
         ClosedDir "link"]
        (fun _ _ => Exited 0 "" "").

(** The converter of [started_window]. *)
Definition started_converter : VideoConverter :=
  init "/in" "/out" "/usr/bin/ffmpeg" [".mpg"; ".avi"] ".mp4" true.

(* ================================================================= *)
(** * Properties *)

(** ** Library functions on examples *)

Example splitext_plain : posixpath.splitext "c.mpg" = ("c", ".mpg").
Proof. reflexivity. Qed.
Example splitext_hidden : posixpath.splitext ".mpg" = (".mpg", "").
Proof. reflexivity. Qed.
Example splitext_two : posixpath.splitext "a.tar.gz" = ("a.tar", ".gz").
Proof. reflexivity. Qed.
Example splitext_dir : posixpath.splitext "a.b/c" = ("a.b/c", "").
Proof. reflexivity. Qed.
Example splitext_dots : posixpath.splitext "...x.y" = ("...x", ".y").
Proof. reflexivity. Qed.
Example join_plain : posixpath.join "/out" "a" = "/out/a".
Proof. reflexivity. Qed.
Example join_slash : posixpath.join "/out/" "a" = "/out/a".
Proof. reflexivity. Qed.
Example join_abs : posixpath.join "/out" "/a" = "/a".
Proof. reflexivity. Qed.
Example normpath_dots : posixpath.normpath "/a/./b/../c//d/" = "/a/c/d".
Proof. reflexivity. Qed.
Example normpath_up : posixpath.normpath "../../a/.." = "../..".
Proof. reflexivity. Qed.
Example normpath_root : posixpath.normpath "/.." = "/".
Proof. reflexivity. Qed.
Example relpath_same : posixpath.relpath "/home/u" "videos" "videos" = ".".
Proof. reflexivity. Qed.
Example relpath_sub :
  posixpath.relpath "/home/u" "videos/a/b" "videos" = "a/b".
Proof. reflexivity. Qed.
Example relpath_up : posixpath.relpath "/home/u" "/home/x" "videos" = "../../x".
Proof. reflexivity. Qed.
Example take_chars_utf8 : PyStr.take_chars 2 "转换失败" = "转换".
Proof. reflexivity. Qed.
Example lower_ext : PyStr.endswith (PyStr.lower "Clip.MP4") ".mp4" = true.
Proof. reflexivity. Qed.

(** ** The controller's interference *)

Lemma strip_ctl_step (c : VideoConverter) (op : ctl_op) :
  strip (ctl_step c op) = strip c.
Proof.
  destruct op; unfold strip; cbn; [reflexivity|].
  unfold worker_lines. rewrite filter_app. cbn. now rewrite app_nil_r.
Qed.

Lemma strip_ctl_steps (ops : list ctl_op) (c : VideoConverter) :
  strip (fold_left ctl_step ops c) = strip c.
Proof.
  revert c. induction ops as [|op ops IH]; intro c; cbn; [reflexivity|].
  now rewrite IH, strip_ctl_step.
Qed.

Lemma still_yield (w : World) : still (yield w) = still w.
Proof.
  unfold yield. destruct (pending w) as [|ops rest]; [reflexivity|].
  unfold still; cbn. now rewrite strip_ctl_steps.
Qed.

Lemma strip_log_queue_put (line : string) (c : VideoConverter) :
  String.eqb line cancel_message = false ->
  strip (log_queue_put line c) = log_queue_put line (strip c).
Proof.
  intro H. unfold strip, log_queue_put; cbn. f_equal.
  unfold worker_lines. rewrite filter_app. cbn. now rewrite H.
Qed.

Lemma still_put_log (line : string) (w : World) :
  String.eqb line cancel_message = false ->
  still (put_log line w) = put_log line (still w).
Proof.
  intro H. unfold put_log at 1. unfold with_self, still at 1. cbn [self calls].
  rewrite strip_log_queue_put by exact H.
  replace (strip (self (yield w))) with (self (still (yield w))) by reflexivity.
  replace (calls (yield w)) with (calls (still (yield w))) by reflexivity.
  rewrite still_yield. reflexivity.
Qed.

Lemma still_put_progress (ev : ProgressEvent) (w : World) :
  still (put_progress ev w) = put_progress ev (still w).
Proof.
  unfold put_progress at 1. unfold with_self, still at 1. cbn [self calls].
  replace (strip (progress_queue_put ev (self (yield w))))
    with (progress_queue_put ev (self (still (yield w)))) by reflexivity.
  replace (calls (yield w)) with (calls (still (yield w))) by reflexivity.
  rewrite still_yield. reflexivity.
Qed.

Lemma flagged_ctl_steps (ops : list ctl_op) (c : VideoConverter) :
  cancel_flag c = true -> cancel_flag (fold_left ctl_step ops c) = true.
Proof.
  revert c. induction ops as [|op ops IH]; intros c H; cbn; [exact H|].
  apply IH. destruct op; cbn; auto.
Qed.

Lemma flagged_yield (w : World) : flagged w -> flagged (yield w).
Proof.
  unfold flagged, yield. destruct (pending w); cbn; auto using flagged_ctl_steps.
Qed.

Lemma flagged_put_log (line : string) (w : World) :
  flagged w -> flagged (put_log line w).
Proof. intro H. apply flagged_yield in H. exact H. Qed.

Lemma flagged_put_progress (ev : ProgressEvent) (w : World) :
  flagged w -> flagged (put_progress ev w).
Proof. intro H. apply flagged_yield in H. exact H. Qed.

Lemma calm_ctl_steps (ops : list ctl_op) (c : VideoConverter) :
  ~ In CancelSetFlag ops -> cancel_flag c = false ->
  cancel_flag (fold_left ctl_step ops c) = false.
Proof.
  revert c. induction ops as [|op ops IH]; intros c Hn H; cbn; [exact H|].
  apply IH; [intro; apply Hn; now right|].
  destruct op; cbn; auto. exfalso; apply Hn; now left.
Qed.

Lemma calm_yield (w : World) : calm w -> calm (yield w).
Proof.
  unfold calm, yield, no_cancel. intros [Hs Hf].
  destruct (pending w) as [|ops rest] eqn:Hp; [rewrite Hp; auto|]. cbn.
  inversion Hs; subst. split; [assumption|]. now apply calm_ctl_steps.
Qed.

Lemma calm_put_log (line : string) (w : World) : calm w -> calm (put_log line w).
Proof. intro H. apply calm_yield in H. exact H. Qed.

Lemma calm_put_progress (ev : ProgressEvent) (w : World) :
  calm w -> calm (put_progress ev w).
Proof. intro H. apply calm_yield in H. exact H. Qed.

Lemma calm_not_flagged (w : World) : calm w -> cancel_flag (self w) = false.
Proof. now intros [_ H]. Qed.

(** ** The encoder invocation *)

Lemma convert_result_returns (o : run_outcome) :
  convert_result o = Return (exit_ok o, diagnostic o).
Proof.
  destruct o as [rc out err|rc message|message]; [|reflexivity|reflexivity].
  unfold convert_result, subprocess_run; cbn.
  destruct (rc =? 0)%Z; reflexivity.
Qed.

Lemma spawned_app (l1 l2 : list os_call) :
  spawned (l1 ++ l2) = spawned l1 ++ spawned l2.
Proof.
  induction l1 as [|[p b|cmd] l1 IH]; cbn; [reflexivity|exact IH|].
  now rewrite IH.
Qed.

(** ** One turn of the loop *)

Lemma process_file_finished (E : Env) (root file : string) (w : World) :
  process_file E root file w = Finished (after_file E root file w).
Proof.
  unfold process_file, after_file, convert_video. cbv zeta.
  rewrite convert_result_returns. reflexivity.
Qed.

Lemma still_record_call (c : os_call) (w : World) :
  still (record_call c w) = record_call c (still w).
Proof. reflexivity. Qed.

Lemma still_os_makedirs (path : string) (b : bool) (w : World) :
  still (os_makedirs path b w) = os_makedirs path b (still w).
Proof. reflexivity. Qed.

Lemma still_begin_file (E : Env) (root file : string) (w : World) :
  still (begin_file E root file w) = begin_file E root file (still w).
Proof.
  unfold begin_file. cbv zeta.
  change (preserve_structure (self (still w)))
    with (preserve_structure (self w)).
  destruct (preserve_structure (self w)).
  - rewrite <- still_os_makedirs.
    rewrite <- still_put_log by reflexivity.
    rewrite <- still_put_progress. reflexivity.
  - rewrite <- still_put_log by reflexivity.
    rewrite <- still_put_progress. reflexivity.
Qed.

Lemma still_with_self (f : VideoConverter -> VideoConverter) (w : World) :
  (forall c, strip (f c) = f (strip c)) ->
  still (with_self f w) = with_self f (still w).
Proof. intro H. unfold still, with_self; cbn. now rewrite H. Qed.

Lemma still_end_file (file : string) (o : run_outcome) (w : World) :
  still (end_file file o w) = end_file file o (still w).
Proof.
  unfold end_file. cbv zeta.
  destruct (exit_ok o).
  - rewrite <- still_put_log by reflexivity.
    rewrite <- still_with_self by reflexivity.
    rewrite <- still_put_progress. reflexivity.
  - rewrite <- !still_put_log by reflexivity.
    rewrite <- still_with_self by reflexivity.
    rewrite <- still_put_progress. reflexivity.
Qed.

Lemma after_file_stages (E : Env) (root file : string) (w : World) :
  after_file E root file w =
  let w1 := begin_file E root file w in
  let cmd := encoder_cmd (self w1) (posixpath.join root file)
                         (output_path E (self w) root file) in
  end_file file (run_process E (length (spawned (calls w1))) cmd)
           (record_call (Spawn cmd) w1).
Proof.
  unfold after_file, begin_file, end_file. cbv zeta.
  destruct (preserve_structure (self w)); reflexivity.
Qed.

Lemma still_after_file (E : Env) (root file : string) (w : World) :
  still (after_file E root file w) = after_file E root file (still w).
Proof.
  rewrite !after_file_stages. cbv zeta.
  rewrite still_end_file, still_record_call.
  rewrite <- still_begin_file. reflexivity.
Qed.

Lemma flagged_begin_file (E : Env) (root file : string) (w : World) :
  flagged w -> flagged (begin_file E root file w).
Proof.
  intro H. unfold begin_file. cbv zeta.
  apply flagged_put_progress, flagged_put_log.
  destruct (preserve_structure (self w)); exact H.
Qed.

Lemma flagged_end_file (file : string) (o : run_outcome) (w : World) :
  flagged w -> flagged (end_file file o w).
Proof.
  intro H. unfold end_file. cbv zeta. apply flagged_put_progress.
  destruct (exit_ok o).
  - apply (flagged_put_log (success_line file)) in H. exact H.
  - apply (flagged_put_log (failure_line file)) in H.
    eapply flagged_put_log in H. exact H.
Qed.

Lemma flagged_after_file (E : Env) (root file : string) (w : World) :
  flagged w -> flagged (after_file E root file w).
Proof.
  intro H. rewrite after_file_stages. cbv zeta.
  apply flagged_end_file.
  apply (flagged_begin_file E root file) in H. exact H.
Qed.

Lemma calm_begin_file (E : Env) (root file : string) (w : World) :
  calm w -> calm (begin_file E root file w).
Proof.
  intro H. unfold begin_file. cbv zeta.
  apply calm_put_progress, calm_put_log.
  destruct (preserve_structure (self w)); exact H.
Qed.

Lemma calm_end_file (file : string) (o : run_outcome) (w : World) :
  calm w -> calm (end_file file o w).
Proof.
  intro H. unfold end_file. cbv zeta. apply calm_put_progress.
  destruct (exit_ok o).
  - apply (calm_put_log (success_line file)) in H. exact H.
  - apply (calm_put_log (failure_line file)) in H.
    eapply calm_put_log in H. exact H.
Qed.

Lemma calm_after_file (E : Env) (root file : string) (w : World) :
  calm w -> calm (after_file E root file w).
Proof.
  intro H. rewrite after_file_stages. cbv zeta.
  apply calm_end_file.
  apply (calm_begin_file E root file) in H. exact H.
Qed.

(** ** The silent run *)

Lemma advance_advance (c : VideoConverter) l1 e1 p1 l2 e2 p2 :
  advance (advance c l1 e1 p1) l2 e2 p2 = advance c (l1 ++ l2) (e1 ++ e2) p2.
Proof.
  unfold advance; cbn. now rewrite <- !app_assoc.
Qed.

Lemma advance_nil (c : VideoConverter) :
  advance c [] [] (processed_files c) = c.
Proof.
  destruct c; unfold advance; cbn. now rewrite !app_nil_r.
Qed.

Lemma converter_ext (c c' : VideoConverter) :
  input_dir c = input_dir c' -> output_dir c = output_dir c' ->
  ffmpeg_path c = ffmpeg_path c' -> src_formats c = src_formats c' ->
  dst_format c = dst_format c' ->
  preserve_structure c = preserve_structure c' ->
  cancel_flag c = cancel_flag c' -> log_queue c = log_queue c' ->
  progress_queue c = progress_queue c' -> total_files c = total_files c' ->
  processed_files c = processed_files c' -> c = c'.
Proof. destruct c, c'; cbn; intros; subst; reflexivity. Qed.

(** Field reads through the setters, computed on demand. *)
Ltac fields :=
  lazy beta iota delta
    [self calls pending input_dir output_dir ffmpeg_path src_formats
     dst_format preserve_structure cancel_flag log_queue progress_queue
     total_files processed_files
     with_self record_call os_makedirs log_queue_put progress_queue_put
     set_total_files set_processed_files set_cancel_flag advance strip].

Lemma put_log_silent (line : string) (c : VideoConverter) (cs : list os_call) :
  put_log line (mkWorld c cs []) = mkWorld (log_queue_put line c) cs [].
Proof. reflexivity. Qed.

Lemma put_progress_silent (ev : ProgressEvent) (c : VideoConverter)
      (cs : list os_call) :
  put_progress ev (mkWorld c cs [])
  = mkWorld (progress_queue_put ev c) cs [].
Proof. reflexivity. Qed.

Lemma begin_file_silent (E : Env) (root file : string) (c : VideoConverter)
      (cs : list os_call) :
  begin_file E root file (mkWorld c cs [])
  = mkWorld
      (advance c
         [("转换中: " ++ file ++ " → " ++ output_file c file)%string]
         [(processed_files c, total_files c, ("处理: " ++ file)%string)]
         (processed_files c))
      (cs ++ (if preserve_structure c
              then [Makedirs (output_subdir E c root) true] else []))
      [].
Proof.
  unfold begin_file. cbv zeta.
  change (self (mkWorld c cs [])) with c.
  destruct (preserve_structure c) eqn:Hp.
  - unfold os_makedirs, record_call.
    change (self (mkWorld c cs [])) with c.
    change (calls (mkWorld c cs [])) with cs.
    change (pending (mkWorld c cs [])) with (@nil (list ctl_op)).
    rewrite put_log_silent.
    change (self (mkWorld ?x _ _)) with x.
    rewrite put_progress_silent. reflexivity.
  - rewrite app_nil_r, put_log_silent.
    change (self (mkWorld ?x _ _)) with x.
    rewrite put_progress_silent. reflexivity.
Qed.

Lemma end_file_silent (file : string) (o : run_outcome) (c : VideoConverter)
      (cs : list os_call) :
  end_file file o (mkWorld c cs [])
  = mkWorld
      (advance c
         (if exit_ok o then [success_line file]
          else [failure_line file;
                ("错误信息: " ++ PyStr.take_chars 200 (diagnostic o)
                 ++ "...")%string])
         [(processed_files c + 1, total_files c,
           progress_text (processed_files c + 1) (total_files c))]
         (processed_files c + 1))
      cs [].
Proof.
  unfold end_file. cbv zeta.
  destruct (exit_ok o).
  - rewrite put_log_silent. unfold with_self.
    change (self (mkWorld ?x _ _)) with x.
    change (calls (mkWorld _ ?x _)) with x.
    change (pending (mkWorld _ _ ?x)) with x.
    rewrite put_progress_silent. reflexivity.
  - rewrite !put_log_silent. unfold with_self.
    change (self (mkWorld ?x _ _)) with x.
    change (calls (mkWorld _ ?x _)) with x.
    change (pending (mkWorld _ _ ?x)) with x.
    rewrite put_progress_silent. f_equal.
    apply converter_ext; fields; try reflexivity.
    now rewrite <- app_assoc.
Qed.

Lemma after_file_silent (E : Env) (root file : string) (c : VideoConverter)
      (cs : list os_call) :
  after_file E root file (mkWorld c cs [])
  = mkWorld (advance c (file_lines E c (length (spawned cs)) root file)
                     (file_events (processed_files c) (total_files c) file)
                     (processed_files c + 1))
            (cs ++ file_calls E c root file) [].
Proof.
  rewrite after_file_stages. cbv zeta.
  rewrite begin_file_silent.
  change (self (mkWorld ?x _ _)) with x.
  change (calls (mkWorld _ ?x _)) with x.
  unfold record_call.
  change (self (mkWorld ?x _ _)) with x.
  change (calls (mkWorld _ ?x _)) with x.
  change (pending (mkWorld _ _ ?x)) with x.
  rewrite end_file_silent.
  assert (Hk : length (spawned (cs ++ (if preserve_structure c
                 then [Makedirs (output_subdir E c root) true] else [])))
               = length (spawned cs)).
  { rewrite spawned_app. destruct (preserve_structure c); cbn [spawned];
      now rewrite app_nil_r. }
  rewrite Hk. rewrite advance_advance.
  unfold file_lines, file_events, file_calls, file_outcome, file_cmd.
  rewrite <- app_assoc. reflexivity.
Qed.

Lemma run_lines_advance (E : Env) (c : VideoConverter) l e p k files :
  run_lines E (advance c l e p) k files = run_lines E c k files.
Proof.
  revert k. induction files as [|[root file] rest IH]; intro k;
    [reflexivity|].
  cbn [run_lines]. rewrite IH. reflexivity.
Qed.

Lemma run_calls_advance (E : Env) (c : VideoConverter) l e p files :
  run_calls E (advance c l e p) files = run_calls E c files.
Proof.
  induction files as [|[root file] rest IH]; [reflexivity|].
  cbn [run_calls]. rewrite IH. reflexivity.
Qed.

Lemma spawned_file_calls (E : Env) (c : VideoConverter) (root file : string) :
  spawned (file_calls E c root file) = [file_cmd E c root file].
Proof. unfold file_calls. destruct (preserve_structure c); reflexivity. Qed.

Lemma silent_loop_nil (E : Env) (c : VideoConverter) (cs : list os_call) :
  silent_loop E [] (mkWorld c cs []) = mkWorld c cs [].
Proof.
  unfold silent_loop. cbn [self calls run_lines run_events run_calls length].
  now rewrite Nat.add_0_r, advance_nil, app_nil_r.
Qed.

Lemma silent_loop_cons (E : Env) (root file : string)
      (rest : list (string * string)) (c : VideoConverter)
      (cs : list os_call) :
  silent_loop E rest (after_file E root file (mkWorld c cs []))
  = silent_loop E ((root, file) :: rest) (mkWorld c cs []).
Proof.
  rewrite after_file_silent. unfold silent_loop.
  cbn [self calls run_lines run_events run_calls length].
  rewrite advance_advance, run_lines_advance, run_calls_advance.
  rewrite spawned_app, spawned_file_calls, length_app. cbn [length].
  rewrite <- !app_assoc.
  change (processed_files (advance c ?l ?e ?p)) with p.
  change (total_files (advance c ?l ?e ?p)) with (total_files c).
  replace (length (spawned cs) + 1) with (S (length (spawned cs))) by lia.
  replace (processed_files c + 1 + length rest)
    with (processed_files c + S (length rest)) by lia.
  reflexivity.
Qed.


(** ** The loop under any schedule *)

Lemma still_silent (w : World) :
  still w = mkWorld (strip (self w)) (calls w) [].
Proof. reflexivity. Qed.

Lemma conversion_loop_shape (E : Env) (files : list (string * string))
      (w : World) :
  exists (broke : bool) (w' : World) (done rest : list (string * string)),
    conversion_loop E files w = LoopDone broke w'
    /\ files = done ++ rest
    /\ (flagged w -> flagged w')
    /\ (calm w -> calm w' /\ broke = false)
    /\ (if broke
        then rest <> [] /\ flagged w'
             /\ still w' = put_log break_line (silent_loop E done (still w))
        else rest = [] /\ still w' = silent_loop E done (still w)).
Proof.
  revert w. induction files as [|[root file] tl IH]; intro w.
  - exists false, w, [], []. cbn [conversion_loop].
    split; [reflexivity|]. split; [reflexivity|]. split; [auto|].
    split; [auto|]. split; [reflexivity|].
    rewrite (still_silent w). now rewrite silent_loop_nil.
  - cbn [conversion_loop].
    destruct (cancel_flag (self (yield w))) eqn:Hflag.
    + exists true, (put_log break_line (yield w)), [], ((root, file) :: tl).
      split; [reflexivity|]. split; [reflexivity|].
      split; [intros _; now apply flagged_put_log|].
      split.
      { intro Hc. apply calm_yield, calm_not_flagged in Hc. congruence. }
      split; [discriminate|]. split; [now apply flagged_put_log|].
      rewrite still_put_log by reflexivity. rewrite still_yield.
      rewrite (still_silent w). now rewrite silent_loop_nil.
    + rewrite process_file_finished.
      destruct (IH (after_file E root file (yield w)))
        as (broke & w' & done & rest & Hrun & Hsplit & Hflagged & Hcalm & Hend).
      exists broke, w', ((root, file) :: done), rest.
      split; [exact Hrun|]. split; [cbn; now rewrite Hsplit|].
      split; [intro H; now apply Hflagged, flagged_after_file, flagged_yield|].
      split; [intro H; now apply Hcalm, calm_after_file, calm_yield|].
      rewrite still_after_file, still_yield in Hend.
      rewrite (still_silent w) in Hend. rewrite silent_loop_cons in Hend.
      exact Hend.
Qed.

(** ** The header and the footer *)

Lemma still_put_logs (lines : list string) (w : World) :
  Forall (fun line => String.eqb line cancel_message = false) lines ->
  still (fold_left (fun w line => put_log line w) lines w)
  = fold_left (fun w line => put_log line w) lines (still w).
Proof.
  intro H. revert w. induction H as [|line lines Hl _ IH]; intro w;
    [reflexivity|].
  cbn [fold_left]. rewrite IH. now rewrite still_put_log.
Qed.

Lemma header_lines_worker (c : VideoConverter) :
  Forall (fun line => String.eqb line cancel_message = false)
         (header_lines c).
Proof.
  unfold header_lines. repeat constructor.
Qed.

Lemma gvf_strip (E : Env) (c : VideoConverter) :
  get_video_files E (strip c) = get_video_files E c.
Proof. reflexivity. Qed.

Lemma header_strip (c : VideoConverter) :
  header_lines (strip c) = header_lines c.
Proof. reflexivity. Qed.

Lemma still_announce (E : Env) (w : World) :
  still (announce E w) = announce E (still w).
Proof.
  unfold announce. cbv zeta.
  change (self (still w)) with (strip (self w)).
  rewrite header_strip.
  rewrite <- still_put_logs by apply header_lines_worker.
  generalize (fold_left (fun w line => put_log line w)
                        (header_lines (self w)) w) as w1.
  intro w1.
  rewrite !still_with_self by reflexivity.
  change (self (still w1)) with (strip (self w1)).
  rewrite gvf_strip. reflexivity.
Qed.

Lemma put_logs_silent (lines : list string) (c : VideoConverter)
      (cs : list os_call) :
  fold_left (fun w line => put_log line w) lines (mkWorld c cs [])
  = mkWorld (advance c lines [] (processed_files c)) cs [].
Proof.
  revert c. induction lines as [|line lines IH]; intro c.
  - now rewrite advance_nil.
  - cbn [fold_left]. rewrite put_log_silent, IH. f_equal.
    apply converter_ext; fields; try reflexivity.
    now rewrite <- app_assoc.
Qed.

Lemma announce_silent (E : Env) (c : VideoConverter) (cs : list os_call) :
  announce E (mkWorld c cs []) = mkWorld (opened E c) cs [].
Proof.
  unfold announce. cbv zeta. change (self (mkWorld c cs [])) with c.
  rewrite put_logs_silent. unfold with_self.
  change (self (mkWorld ?x _ _)) with x.
  change (calls (mkWorld _ ?x _)) with x.
  change (pending (mkWorld _ _ ?x)) with x.
  f_equal. apply converter_ext; fields; try reflexivity.
  now rewrite app_nil_r.
Qed.

Lemma flagged_put_logs (lines : list string) (w : World) :
  flagged w -> flagged (fold_left (fun w line => put_log line w) lines w).
Proof.
  revert w. induction lines as [|line lines IH]; intros w H; [exact H|].
  cbn [fold_left]. now apply IH, flagged_put_log.
Qed.

Lemma calm_put_logs (lines : list string) (w : World) :
  calm w -> calm (fold_left (fun w line => put_log line w) lines w).
Proof.
  revert w. induction lines as [|line lines IH]; intros w H; [exact H|].
  cbn [fold_left]. now apply IH, calm_put_log.
Qed.

Lemma flagged_with_self (f : VideoConverter -> VideoConverter) (w : World) :
  (forall c, cancel_flag (f c) = cancel_flag c) ->
  flagged w -> flagged (with_self f w).
Proof.
  intros Hf H. unfold flagged, with_self. cbn [self]. now rewrite Hf.
Qed.

Lemma calm_with_self (f : VideoConverter -> VideoConverter) (w : World) :
  (forall c, cancel_flag (f c) = cancel_flag c) ->
  calm w -> calm (with_self f w).
Proof.
  intros Hf [Hs H]. unfold calm, with_self. cbn [self pending].
  now rewrite Hf.
Qed.

Lemma flagged_announce (E : Env) (w : World) :
  flagged w -> flagged (announce E w).
Proof.
  intro H. unfold announce. cbv zeta.
  apply flagged_with_self; [reflexivity|].
  apply flagged_with_self; [reflexivity|].
  now apply flagged_put_logs.
Qed.

Lemma calm_announce (E : Env) (w : World) : calm w -> calm (announce E w).
Proof.
  intro H. unfold announce. cbv zeta.
  apply calm_with_self; [reflexivity|].
  apply calm_with_self; [reflexivity|].
  now apply calm_put_logs.
Qed.

Lemma start_conversion_unfold (E : Env) (w : World) :
  start_conversion E w =
  let w0 := announce E w in
  if (total_files (self w0) =? 0)%nat
  then Finished (put_progress (0, 0, nothing_label) (put_log nothing_line w0))
  else match conversion_loop E (get_video_files E (self w)) w0 with
       | LoopAborted e w1 => Aborted e w1
       | LoopDone _ w1 => Finished (finish w1)
       end.
Proof.
  unfold start_conversion, announce. cbv zeta.
  assert (Hcfg : get_video_files E
                   (self (fold_left (fun w line => put_log line w)
                                    (header_lines (self w)) w))
                 = get_video_files E (self w)).
  { rewrite <- gvf_strip.
    change (strip (self ?x)) with (self (still x)).
    rewrite still_put_logs by apply header_lines_worker.
    rewrite (still_silent w), put_logs_silent.
    change (self (mkWorld ?x _ _)) with x.
    rewrite <- (gvf_strip E (self w)). reflexivity. }
  rewrite Hcfg. reflexivity.
Qed.

Lemma finish_unfold (w : World) :
  finish w = if cancel_flag (self (yield w))
             then cancelled_end (yield w) else completed_end (yield w).
Proof. reflexivity. Qed.

Lemma still_cancelled_end (w : World) :
  still (cancelled_end w) = cancelled_end (still w).
Proof.
  unfold cancelled_end.
  rewrite <- still_put_log by reflexivity.
  rewrite <- still_put_progress. reflexivity.
Qed.

Lemma still_completed_end (w : World) :
  still (completed_end w) = completed_end (still w).
Proof.
  unfold completed_end. cbv zeta.
  rewrite <- (still_put_log (PyStr.repeat "=" 60)) by reflexivity.
  rewrite <- still_put_log by reflexivity.
  rewrite <- still_put_progress. reflexivity.
Qed.

Lemma cancelled_end_silent (c : VideoConverter) (cs : list os_call) :
  cancelled_end (mkWorld c cs [])
  = mkWorld (advance c [cancelled_line]
               [(processed_files c, total_files c, cancelled_label)]
               (processed_files c)) cs [].
Proof. reflexivity. Qed.

Lemma completed_end_silent (c : VideoConverter) (cs : list os_call) :
  completed_end (mkWorld c cs [])
  = mkWorld (advance c
               [PyStr.repeat "=" 60;
                summary_line (processed_files c) (total_files c)]
               [(processed_files c, total_files c, completed_label)]
               (processed_files c)) cs [].
Proof.
  unfold completed_end. cbv zeta.
  rewrite put_log_silent.
  change (self (mkWorld ?x _ _)) with x.
  rewrite put_log_silent.
  change (self (mkWorld ?x _ _)) with x.
  rewrite put_progress_silent. f_equal.
  apply converter_ext; fields; try reflexivity.
  now rewrite <- app_assoc.
Qed.

Lemma flagged_cancelled_end (w : World) :
  flagged w -> flagged (cancelled_end w).
Proof.
  intro H. unfold cancelled_end.
  now apply flagged_put_progress, flagged_put_log.
Qed.

Lemma self_still (w : World) : self (still w) = strip (self w).
Proof. reflexivity. Qed.

Lemma calls_still (w : World) : calls (still w) = calls w.
Proof. reflexivity. Qed.

Lemma total_strip (c : VideoConverter) : total_files (strip c) = total_files c.
Proof. reflexivity. Qed.

Lemma processed_strip (c : VideoConverter) :
  processed_files (strip c) = processed_files c.
Proof. reflexivity. Qed.

Lemma progress_strip (c : VideoConverter) :
  progress_queue (strip c) = progress_queue c.
Proof. reflexivity. Qed.

Lemma log_strip (c : VideoConverter) :
  log_queue (strip c) = worker_lines (log_queue c).
Proof. reflexivity. Qed.

Lemma total_announce (E : Env) (w : World) :
  total_files (self (announce E w)) = length (get_video_files E (self w)).
Proof.
  rewrite <- total_strip, <- self_still.
  rewrite still_announce, (still_silent w), announce_silent.
  unfold opened. cbn [self total_files]. now rewrite gvf_strip.
Qed.

(** ** How a run ends *)

Lemma nothing_after_silent (E : Env) (c : VideoConverter)
      (cs : list os_call) :
  put_progress (0, 0, nothing_label)
    (put_log nothing_line (mkWorld (opened E c) cs []))
  = final_world E (mkWorld c cs []) Nothing.
Proof.
  rewrite put_log_silent, put_progress_silent.
  unfold final_world. cbv zeta.
  cbn [self calls ending_done ending_tail ending_event run_lines run_events
       run_calls app fst].
  now rewrite app_nil_r.
Qed.

Lemma log_put_advance (line : string) (c : VideoConverter) ls es p :
  log_queue_put line (advance c ls es p) = advance c (ls ++ [line]) es p.
Proof.
  apply converter_ext; fields; try reflexivity. now rewrite app_assoc.
Qed.

Lemma processed_advance (c : VideoConverter) ls es p :
  processed_files (advance c ls es p) = p.
Proof. reflexivity. Qed.

Lemma total_advance (c : VideoConverter) ls es p :
  total_files (advance c ls es p) = total_files c.
Proof. reflexivity. Qed.

Lemma processed_opened (E : Env) (c : VideoConverter) :
  processed_files (opened E c) = 0.
Proof. reflexivity. Qed.

Lemma total_opened (E : Env) (c : VideoConverter) :
  total_files (opened E c) = length (get_video_files E c).
Proof. reflexivity. Qed.

Lemma cancelled_after_silent (E : Env) (done : list (string * string))
      (broke : bool) (c : VideoConverter) (cs : list os_call) :
  cancelled_end
    ((if broke then put_log break_line else fun v => v)
       (silent_loop E done (mkWorld (opened E c) cs [])))
  = final_world E (mkWorld c cs []) (Cancelled done broke).
Proof.
  unfold silent_loop, final_world. cbv zeta.
  cbn [self calls ending_done ending_tail ending_event fst].
  destruct broke.
  - rewrite put_log_silent, log_put_advance, cancelled_end_silent.
    rewrite advance_advance, processed_advance, total_advance.
    rewrite processed_opened. cbn [Nat.add].
    rewrite <- !app_assoc. reflexivity.
  - rewrite cancelled_end_silent.
    rewrite advance_advance, processed_advance, total_advance.
    rewrite processed_opened. cbn [Nat.add app]. reflexivity.
Qed.

Lemma completed_after_silent (E : Env) (c : VideoConverter)
      (cs : list os_call) :
  completed_end
    (silent_loop E (get_video_files E c) (mkWorld (opened E c) cs []))
  = final_world E (mkWorld c cs []) Completed.
Proof.
  unfold silent_loop, final_world. cbv zeta.
  cbn [self calls ending_done ending_tail ending_event fst].
  rewrite completed_end_silent.
  rewrite advance_advance, processed_advance, total_advance.
  rewrite processed_opened. cbn [Nat.add].
  rewrite !total_opened. reflexivity.
Qed.

Lemma start_conversion_ends (E : Env) (w : World) :
  exists (w' : World) (e : ending),
    start_conversion E w = Finished w'
    /\ still w' = final_world E (still w) e
    /\ (flagged w -> flagged w')
    /\ match e with
       | Nothing => get_video_files E (self w) = []
       | Completed => get_video_files E (self w) <> []
       | Cancelled done broke =>
           get_video_files E (self w) <> [] /\ flagged w'
           /\ exists rest, get_video_files E (self w) = done ++ rest
                /\ (if broke then rest <> [] else rest = [])
       end
    /\ (calm w -> match e with Cancelled _ _ => False | _ => True end).
Proof.
  rewrite start_conversion_unfold. cbv zeta. rewrite total_announce.
  destruct (get_video_files E (self w)) as [|f files] eqn:Hfiles.
  - cbn [length Nat.eqb].
    exists (put_progress (0, 0, nothing_label)
              (put_log nothing_line (announce E w))), Nothing.
    split; [reflexivity|]. split.
    { rewrite still_put_progress, still_put_log by reflexivity.
      rewrite still_announce, (still_silent w), announce_silent.
      apply nothing_after_silent. }
    split.
    { intro H. now apply flagged_put_progress, flagged_put_log,
                 flagged_announce. }
    split; [reflexivity|]. intros _. exact I.
  - cbn [length Nat.eqb]. rewrite <- Hfiles.
    destruct (conversion_loop_shape E (get_video_files E (self w))
                                    (announce E w))
      as (broke & w1 & done & rest & Hrun & Hsplit & Hflagged & Hcalm & Hend).
    rewrite Hrun, finish_unfold.
    assert (Hne : get_video_files E (self w) <> []) by (rewrite Hfiles; discriminate).
    rewrite still_announce, (still_silent w), announce_silent in Hend.
    destruct (cancel_flag (self (yield w1))) eqn:Hflag.
    + exists (cancelled_end (yield w1)), (Cancelled done broke).
      split; [reflexivity|]. split.
      { rewrite still_cancelled_end, still_yield, (still_silent w).
        rewrite <- cancelled_after_silent.
        destruct broke; destruct Hend as (_ & Hend);
          [destruct Hend as (_ & Hend)|]; now rewrite Hend. }
      split; [intros _; now apply flagged_cancelled_end|].
      split.
      { split; [exact Hne|]. split; [now apply flagged_cancelled_end|].
        exists rest. split; [exact Hsplit|].
        destruct broke; now destruct Hend. }
      intro Hc. apply (calm_announce E), Hcalm in Hc. destruct Hc as [Hc _].
      apply calm_yield, calm_not_flagged in Hc. congruence.
    + assert (Hb : broke = false).
      { destruct broke; [|reflexivity]. destruct Hend as (_ & Hfl & _).
        apply flagged_yield in Hfl. unfold flagged in Hfl. congruence. }
      subst broke. destruct Hend as (Hrest & Hend). subst rest.
      rewrite app_nil_r in Hsplit. subst done.
      exists (completed_end (yield w1)), Completed.
      split; [reflexivity|]. split.
      { rewrite still_completed_end, still_yield, (still_silent w).
        rewrite <- completed_after_silent, Hend.
        now rewrite gvf_strip. }
      split.
      { intro H. apply (flagged_announce E), Hflagged, flagged_yield in H.
        unfold flagged in H. congruence. }
      split; [exact Hne|]. intros _. exact I.
Qed.

(** ** What the final world shows *)

Lemma file_lines_config (E : Env) (c c' : VideoConverter) k root file :
  same_config c c' -> file_lines E c k root file = file_lines E c' k root file.
Proof.
  destruct c, c'. unfold same_config. cbn.
  intros (-> & -> & -> & -> & -> & ->). reflexivity.
Qed.

Lemma file_calls_config (E : Env) (c c' : VideoConverter) root file :
  same_config c c' -> file_calls E c root file = file_calls E c' root file.
Proof.
  destruct c, c'. unfold same_config. cbn.
  intros (-> & -> & -> & -> & -> & ->). reflexivity.
Qed.

Lemma run_lines_config (E : Env) (c c' : VideoConverter) k files :
  same_config c c' -> run_lines E c k files = run_lines E c' k files.
Proof.
  intro H. revert k. induction files as [|[root file] rest IH]; intro k;
    [reflexivity|].
  cbn [run_lines]. now rewrite IH, (file_lines_config E k root file H).
Qed.

Lemma run_calls_config (E : Env) (c c' : VideoConverter) files :
  same_config c c' -> run_calls E c files = run_calls E c' files.
Proof.
  intro H. induction files as [|[root file] rest IH]; [reflexivity|].
  cbn [run_calls]. now rewrite IH, (file_calls_config E root file H).
Qed.

Lemma same_config_opened_strip (E : Env) (c : VideoConverter) :
  same_config (opened E (strip c)) c.
Proof. repeat split. Qed.

Lemma final_observables (E : Env) (w w' : World) (e : ending) :
  still w' = final_world E (still w) e ->
  let c := self w in
  let n := length (get_video_files E c) in
  let done := ending_done E c e in
  calls w' = calls w ++ run_calls E c done
  /\ progress_queue (self w')
     = progress_queue c ++ run_events 0 n done ++ [ending_event n e]
  /\ worker_lines (log_queue (self w'))
     = worker_lines (log_queue c) ++ header_lines c
       ++ run_lines E c (length (spawned (calls w))) done ++ ending_tail n e
  /\ total_files (self w') = n
  /\ processed_files (self w') = fst (fst (ending_event n e))
  /\ same_config (self w') c.
Proof.
  intro H. cbv zeta.
  assert (Hdone : ending_done E (strip (self w)) e = ending_done E (self w) e).
  { destruct e; reflexivity. }
  pose proof (same_config_opened_strip E (self w)) as Hcfg.
  split.
  { apply (f_equal calls) in H. rewrite calls_still in H. rewrite H.
    unfold final_world. cbv zeta. cbn [calls]. rewrite self_still, Hdone.
    now rewrite calls_still, (run_calls_config E _ Hcfg). }
  split.
  { apply (f_equal (fun v => progress_queue (self v))) in H.
    rewrite self_still, progress_strip in H. rewrite H.
    unfold final_world. cbv zeta. cbn [self]. rewrite self_still, Hdone.
    unfold advance. cbn [progress_queue]. rewrite total_opened, gvf_strip.
    reflexivity. }
  split.
  { apply (f_equal (fun v => log_queue (self v))) in H.
    rewrite self_still, log_strip in H. rewrite H.
    unfold final_world. cbv zeta. cbn [self]. rewrite self_still, Hdone.
    unfold advance. cbn [log_queue]. rewrite total_opened, gvf_strip.
    rewrite calls_still, (run_lines_config E _ _ Hcfg).
    unfold opened. cbn [log_queue]. rewrite header_strip, log_strip.
    now rewrite <- app_assoc. }
  split.
  { apply (f_equal (fun v => total_files (self v))) in H.
    rewrite self_still, total_strip in H. rewrite H.
    unfold final_world. cbv zeta. cbn [self]. rewrite self_still.
    rewrite total_advance, total_opened, gvf_strip. reflexivity. }
  split.
  { apply (f_equal (fun v => processed_files (self v))) in H.
    rewrite self_still, processed_strip in H. rewrite H.
    unfold final_world. cbv zeta. cbn [self]. rewrite self_still.
    rewrite processed_advance, total_opened, gvf_strip. reflexivity. }
  apply (f_equal self) in H. rewrite self_still in H.
  assert (Hs : same_config (self w') (strip (self w'))) by (repeat split).
  rewrite H in Hs. unfold final_world in Hs. cbv zeta in Hs. cbn [self] in Hs.
  rewrite self_still in Hs.
  destruct Hs as (H1 & H2 & H3 & H4 & H5 & H6).
  repeat split; assumption.
Qed.

(** ** The lists a run produces *)

Lemma spawned_run_calls (E : Env) (c : VideoConverter)
      (files : list (string * string)) :
  spawned (run_calls E c files)
  = map (fun rf => file_cmd E c (fst rf) (snd rf)) files.
Proof.
  induction files as [|[root file] rest IH]; [reflexivity|].
  cbn [run_calls map fst snd].
  now rewrite spawned_app, spawned_file_calls, IH.
Qed.

Lemma length_run_events (p t : nat) (files : list (string * string)) :
  length (run_events p t files) = 2 * length files.
Proof.
  revert p. induction files as [|[root file] rest IH]; intro p;
    [reflexivity|].
  cbn [run_events file_events app length]. rewrite IH. lia.
Qed.

Lemma run_events_bounds (p t : nat) (files : list (string * string)) :
  Forall (fun ev : ProgressEvent =>
            p <= fst (fst ev) <= p + length files /\ snd (fst ev) = t)
         (run_events p t files).
Proof.
  revert p. induction files as [|[root file] rest IH]; intro p;
    [constructor|].
  cbn [run_events file_events app length].
  constructor; [cbn; lia|]. constructor; [cbn; lia|].
  eapply Forall_impl; [|apply IH]. cbn. intros ev [H1 H2]. split; [lia|assumption].
Qed.

Lemma run_events_labels (p t : nat) (files : list (string * string)) :
  Forall (fun ev : ProgressEvent => snd ev <> completed_label)
         (run_events p t files).
Proof.
  revert p. induction files as [|[root file] rest IH]; intro p;
    [constructor|].
  cbn [run_events file_events app].
  constructor; [cbn [snd]; intro H; discriminate H|].
  constructor; [cbn [snd]; intro H; discriminate H|]. apply IH.
Qed.

(** ** Failure lines in the log *)

Lemma failure_line_is_failure (file : string) :
  is_failure_line (failure_line file) = true.
Proof. reflexivity. Qed.




Lemma ending_tail_failures (n : nat) (e : ending) :
  filter is_failure_line (ending_tail n e) = [].
Proof. destruct e as [| |done [|]]; reflexivity. Qed.


Lemma worker_lines_incl (q : list string) (line : string) :
  In line (worker_lines q) -> In line q.
Proof. unfold worker_lines. intro H. now apply filter_In in H. Qed.

Lemma calm_fresh (c : VideoConverter) (sched : list (list ctl_op)) :
  cancel_flag c = false -> no_cancel sched -> calm (fresh c sched).
Proof. intros Hf Hs. split; assumption. Qed.

(* ================================================================= *)
(** * The claims *)



(** The scenario of the specification: five files, the encoder fails on
    the second and the fourth; the run ends "completed" with five files
    processed and exactly two failure lines. *)
Example five_files_two_failures :
  exists w',
    start_conversion five_files (fresh flat_converter []) = Finished w'
    /\ last (progress_queue (self w')) (0, 0, "") = (5, 5, completed_label)
    /\ filter is_failure_line (log_queue (self w'))
       = [failure_line "b.mpg"; failure_line "d.mpg"].
Proof. eexists. split; [vm_compute; reflexivity|]. split; reflexivity. Qed.

Lemma start_conversion_nothing_silent (E : Env) (c : VideoConverter)
      (cs : list os_call) :
  get_video_files E c = [] ->
  start_conversion E (mkWorld c cs [])
  = Finished (final_world E (mkWorld c cs []) Nothing).
Proof.
  intro H. rewrite start_conversion_unfold. cbv zeta.
  rewrite total_announce. cbn [self]. rewrite H. cbn [length Nat.eqb].
  now rewrite announce_silent, nothing_after_silent.
Qed.

(** C6, as the code has it.  In a run whose enumeration yields no file, the
    orchestrator logs the seven header lines and then exactly one more
    line, the "no convertible file" line; it enqueues exactly one progress
    event, the terminal (0, 0, "nothing to convert"); it makes no call to
    the operating system, so the encoder is never invoked; and it returns.
    When the controller stays silent these eight lines are the whole log. *)
Theorem nothing_to_convert
        (E : Env) (idir odir ff : string) (srcs : list string) (dst : string)
        (pres : bool) (sched : list (list ctl_op)) :
  let c := init idir odir ff srcs dst pres in
  get_video_files E c = [] ->
  exists w',
    start_conversion E (fresh c sched) = Finished w'
    /\ worker_lines (log_queue (self w')) = header_lines c ++ [nothing_line]
    /\ progress_queue (self w') = [(0, 0, nothing_label)]
    /\ calls w' = []
    /\ (sched = [] -> log_queue (self w') = header_lines c ++ [nothing_line]).
Proof.
  intros c Hnone.
  destruct (start_conversion_ends E (fresh c sched))
    as (w' & e & Hrun & Hstill & _ & He & _).
  change (self (fresh c sched)) with c in He.
  destruct e as [| |done broke];
    [|contradiction|destruct He as [He _]; contradiction].
  apply final_observables in Hstill. cbv zeta in Hstill.
  change (self (fresh c sched)) with c in Hstill.
  change (calls (fresh c sched)) with (@nil os_call) in Hstill.
  cbn [ending_done ending_event ending_tail run_calls run_lines run_events
       app] in Hstill.
  destruct Hstill as (Hcalls & Hprog & Hlog & _).
  exists w'. split; [exact Hrun|]. split; [exact Hlog|].
  split; [exact Hprog|]. split; [exact Hcalls|].
  intro Hs. subst sched. unfold fresh in Hrun.
  rewrite start_conversion_nothing_silent in Hrun by exact Hnone.
  injection Hrun as <-. unfold final_world. cbv zeta.
  cbn [self calls ending_done ending_tail run_lines app].
  reflexivity.
Qed.

Lemma nothing_to_convert_witness :
  get_video_files no_videos tree_converter = []
  /\ exists w',
      start_conversion no_videos (fresh tree_converter []) = Finished w'
      /\ worker_lines (log_queue (self w'))
         = header_lines tree_converter ++ [nothing_line]
      /\ progress_queue (self w') = [(0, 0, nothing_label)]
      /\ calls w' = []
      /\ (@nil (list ctl_op) = [] ->
          log_queue (self w') = header_lines tree_converter ++ [nothing_line]).
Proof.
  assert (H : get_video_files no_videos tree_converter = [])
    by (vm_compute; reflexivity).
  split; [exact H|].
  exact (@nothing_to_convert no_videos "/in" "/out" "ffmpeg"
           [".mpg"; ".avi"] ".mp4" true [] H).
Defined.

(** C6 as stated fails: with no file to convert the run enqueues eight log
    lines, not one. *)
Lemma nothing_to_convert_logs_eight_lines :
  get_video_files no_videos tree_converter = []
  /\ exists w',
      start_conversion no_videos (fresh tree_converter []) = Finished w'
      /\ length (log_queue (self w')) = 8
      /\ length (log_queue (self w')) <> 1.
Proof.
  split; [vm_compute; reflexivity|].
  eexists. split; [vm_compute; reflexivity|].
  split; [reflexivity|]. cbn. discriminate.
Qed.

(** ** Progress events *)

Lemma chain_run_events (t : nat) (files : list (string * string))
      (p lo : nat) (rest : list nat) :
  lo <= p -> chain (p + length files) rest ->
  chain lo (counts (run_events p t files) ++ rest).
Proof.
  revert p lo. induction files as [|[root file] tl IH]; intros p lo Hlo Hrest.
  - cbn [run_events counts map app length] in *.
    rewrite Nat.add_0_r in Hrest. destruct rest as [|a r]; [exact I|].
    cbn [chain] in *. split; [lia|tauto].
  - cbn [run_events file_events counts map app fst length] in *.
    split; [exact Hlo|]. split; [lia|].
    apply IH; [lia|]. now replace (p + 1 + length tl) with (p + S (length tl)) by lia.
Qed.

Lemma counts_app (q1 q2 : list ProgressEvent) :
  counts (q1 ++ q2) = counts q1 ++ counts q2.
Proof. apply map_app. Qed.

Lemma ending_facts (E : Env) (c : VideoConverter) (e : ending) :
  match e with
  | Nothing => get_video_files E c = []
  | Completed => get_video_files E c <> []
  | Cancelled done broke =>
      exists rest, get_video_files E c = done ++ rest
                   /\ (if broke then rest <> [] else rest = [])
  end ->
  let n := length (get_video_files E c) in
  let done := ending_done E c e in
  length done <= n
  /\ ending_event n e = (length done, n, snd (ending_event n e))
  /\ (snd (ending_event n e) = completed_label -> length done = n)
  /\ (snd (ending_event n e) = cancelled_label ->
      exists broke, e = Cancelled done broke).
Proof.
  intro He. cbv zeta. destruct e as [| |done broke];
    cbn [ending_done ending_event snd fst length].
  - rewrite He. cbn [length]. repeat split; auto. discriminate.
  - repeat split; auto. discriminate.
  - destruct He as (rest & -> & _). rewrite length_app.
    repeat split; [lia|discriminate|]. intros _. now exists broke.
Qed.

(** C4.  In every run, whatever the controller does: each progress event
    carries processed <= total; the processed counts of successive events
    never decrease; every event carries the same total, the number of
    enumerated files; and an event labelled "completed", in particular
    the terminal one, carries processed = total. *)
Theorem progress_events_invariant
        (E : Env) (idir odir ff : string) (srcs : list string) (dst : string)
        (pres : bool) (sched : list (list ctl_op)) :
  let c := init idir odir ff srcs dst pres in
  let n := length (get_video_files E c) in
  exists w',
    start_conversion E (fresh c sched) = Finished w'
    /\ Forall (fun ev : ProgressEvent => fst (fst ev) <= snd (fst ev))
              (progress_queue (self w'))
    /\ nondecreasing (counts (progress_queue (self w')))
    /\ Forall (fun ev : ProgressEvent => snd (fst ev) = n)
              (progress_queue (self w'))
    /\ Forall (fun ev : ProgressEvent =>
                 snd ev = completed_label -> fst (fst ev) = snd (fst ev))
              (progress_queue (self w'))
    /\ (forall p t, last (progress_queue (self w')) (0, 0, "")
                    = (p, t, completed_label) -> p = n /\ t = n).
Proof.
  intros c n.
  destruct (start_conversion_ends E (fresh c sched))
    as (w' & e & Hrun & Hstill & _ & He & _).
  change (self (fresh c sched)) with c in He.
  apply final_observables in Hstill. cbv zeta in Hstill.
  change (self (fresh c sched)) with c in Hstill.
  destruct Hstill as (_ & Hprog & _).
  change (progress_queue c) with (@nil ProgressEvent) in Hprog.
  cbn [app] in Hprog. fold n in Hprog.
  assert (He' : match e with
                | Nothing => get_video_files E c = []
                | Completed => get_video_files E c <> []
                | Cancelled done broke =>
                    exists rest, get_video_files E c = done ++ rest
                      /\ (if broke then rest <> [] else rest = [])
                end).
  { destruct e; [exact He|exact He|]. now destruct He as (_ & _ & He). }
  destruct (ending_facts E c e He') as (Hlen & Hev & Hcompl & _).
  fold n in Hlen, Hev, Hcompl.
  set (done := ending_done E c e) in *.
  pose proof (run_events_bounds 0 n done) as Hb.
  exists w'. split; [exact Hrun|]. rewrite Hprog, Hev.
  split.
  { apply Forall_app. split.
    - eapply Forall_impl; [|exact Hb]. cbn. intros ev [H1 H2]. lia.
    - constructor; [cbn; lia|constructor]. }
  split.
  { unfold nondecreasing. rewrite counts_app.
    apply chain_run_events; [lia|]. cbn. lia. }
  split.
  { apply Forall_app. split.
    - eapply Forall_impl; [|exact Hb]. cbn. intros ev [_ H2]. exact H2.
    - constructor; [reflexivity|constructor]. }
  split.
  { apply Forall_app. split.
    - eapply Forall_impl; [|apply run_events_labels]. cbn.
      intros ev H1 H2. contradiction.
    - constructor; [|constructor]. cbn [fst snd]. exact Hcompl. }
  intros p t Hlast. rewrite last_last in Hlast.
  injection Hlast as Hp Ht Hl. split; [|now subst t].
  subst p. apply Hcompl. exact Hl.
Qed.

(** ** Cancellation *)

Lemma conversion_loop_app (E : Env) (l1 l2 : list (string * string))
      (w : World) :
  conversion_loop E (l1 ++ l2) w
  = match conversion_loop E l1 w with
    | LoopDone false w1 => conversion_loop E l2 w1
    | r => r
    end.
Proof.
  revert w. induction l1 as [|[root file] l1 IH]; intro w; [reflexivity|].
  cbn [app conversion_loop].
  destruct (cancel_flag (self (yield w))); [reflexivity|].
  rewrite process_file_finished. apply IH.
Qed.

(** C3.  When the check at the top of the loop, before some file starts,
    finds the flag set (the loop has gone through the files [pre] and
    reached [w1], and the flag reads true there), the run returns without
    any further call to the operating system: the encoder has been spawned
    for the files of [pre] only, not for that file nor for a later one; a
    cancellation line is logged at the break and another after the loop;
    and the run ends with the progress event carrying the current
    processed count, the total and the status "cancelled". *)
Theorem cancellation_stops_the_run
        (E : Env) (w : World) (pre : list (string * string))
        (root file : string) (post : list (string * string)) (w1 : World) :
  get_video_files E (self w) = pre ++ (root, file) :: post ->
  conversion_loop E pre (announce E w) = LoopDone false w1 ->
  cancel_flag (self (yield w1)) = true ->
  exists w',
    start_conversion E w = Finished w'
    /\ calls w' = calls w1
    /\ spawned (calls w')
       = spawned (calls w)
         ++ map (fun rf => file_cmd E (self w) (fst rf) (snd rf)) pre
    /\ In break_line (log_queue (self w'))
    /\ In cancelled_line (log_queue (self w'))
    /\ processed_files (self w') = length pre
    /\ total_files (self w') = length (pre ++ (root, file) :: post)
    /\ last (progress_queue (self w')) (0, 0, "")
       = (length pre, length (pre ++ (root, file) :: post), cancelled_label).
Proof.
  intros Hfiles Hloop Hflag.
  destruct (conversion_loop_shape E pre (announce E w))
    as (broke & w1' & done & rest & Hrun & Hsplit & _ & _ & Hend).
  rewrite Hloop in Hrun. injection Hrun as <- <-.
  destruct Hend as (-> & Hend). rewrite app_nil_r in Hsplit. subst done.
  rewrite still_announce, (still_silent w), announce_silent in Hend.
  set (w' := cancelled_end (yield (put_log break_line (yield w1)))).
  assert (Hrun : start_conversion E w = Finished w').
  { rewrite start_conversion_unfold. cbv zeta. rewrite total_announce.
    rewrite Hfiles, conversion_loop_app, Hloop.
    rewrite length_app. cbn [length].
    replace (length pre + S (length post) =? 0)%nat with false
      by (symmetry; apply Nat.eqb_neq; lia).
    cbn [conversion_loop]. rewrite Hflag, finish_unfold.
    assert (Hfl : flagged (yield (put_log break_line (yield w1))))
      by (apply flagged_yield, flagged_put_log; exact Hflag).
    unfold flagged in Hfl. rewrite Hfl. reflexivity. }
  assert (Hstill : still w' = final_world E (still w) (Cancelled pre true)).
  { unfold w'. rewrite still_cancelled_end, still_yield.
    rewrite still_put_log by reflexivity. rewrite still_yield, Hend.
    rewrite (still_silent w). apply (cancelled_after_silent E pre true). }
  assert (Hcalls1 : calls w1 = calls w ++ run_calls E (self w) pre).
  { rewrite <- (calls_still w1), Hend. unfold silent_loop. cbn [calls self].
    now rewrite (run_calls_config E _ (same_config_opened_strip E (self w))). }
  apply final_observables in Hstill. cbv zeta in Hstill.
  cbn [ending_done ending_event ending_tail fst] in Hstill.
  destruct Hstill as (Hcalls & Hprog & Hlog & Htotal & Hproc & _).
  exists w'. split; [exact Hrun|].
  split; [now rewrite Hcalls, Hcalls1|].
  split; [now rewrite Hcalls, spawned_app, spawned_run_calls|].
  split.
  { apply worker_lines_incl. rewrite Hlog.
    apply in_or_app; right. apply in_or_app; right. apply in_or_app; right.
    now left. }
  split.
  { apply worker_lines_incl. rewrite Hlog.
    apply in_or_app; right. apply in_or_app; right. apply in_or_app; right.
    right. now left. }
  split; [exact Hproc|]. split; [now rewrite Htotal, Hfiles|].
  rewrite Hprog, !app_assoc, last_last. now rewrite Hfiles.
Qed.

Lemma cancellation_stops_the_run_witness :
  get_video_files five_files
                  (self (fresh flat_converter cancel_during_second))
  = [("/in", "a.mpg"); ("/in", "b.mpg")]
    ++ ("/in", "c.mpg") :: [("/in", "d.mpg"); ("/in", "e.mpg")]
  /\ conversion_loop five_files [("/in", "a.mpg"); ("/in", "b.mpg")]
       (announce five_files (fresh flat_converter cancel_during_second))
     = LoopDone false after_two_files
  /\ cancel_flag (self (yield after_two_files)) = true
  /\ exists w',
      start_conversion five_files (fresh flat_converter cancel_during_second)
      = Finished w'
      /\ calls w' = calls after_two_files
      /\ spawned (calls w')
         = spawned (calls (fresh flat_converter cancel_during_second))
           ++ map (fun rf =>
                     file_cmd five_files
                       (self (fresh flat_converter cancel_during_second))
                       (fst rf) (snd rf))
                  [("/in", "a.mpg"); ("/in", "b.mpg")]
      /\ In break_line (log_queue (self w'))
      /\ In cancelled_line (log_queue (self w'))
      /\ processed_files (self w') = 2
      /\ total_files (self w') = 5
      /\ last (progress_queue (self w')) (0, 0, "") = (2, 5, cancelled_label).
Proof.
  assert (H1 : get_video_files five_files
                 (self (fresh flat_converter cancel_during_second))
               = [("/in", "a.mpg"); ("/in", "b.mpg")]
                 ++ ("/in", "c.mpg") :: [("/in", "d.mpg"); ("/in", "e.mpg")])
    by (vm_compute; reflexivity).
  assert (H2 : conversion_loop five_files [("/in", "a.mpg"); ("/in", "b.mpg")]
                 (announce five_files
                           (fresh flat_converter cancel_during_second))
               = LoopDone false after_two_files)
    by (vm_compute; reflexivity).
  assert (H3 : cancel_flag (self (yield after_two_files)) = true)
    by (vm_compute; reflexivity).
  split; [exact H1|]. split; [exact H2|]. split; [exact H3|].
  exact (@cancellation_stops_the_run five_files
           (fresh flat_converter cancel_during_second)
           [("/in", "a.mpg"); ("/in", "b.mpg")] "/in" "c.mpg"
           [("/in", "d.mpg"); ("/in", "e.mpg")] after_two_files H1 H2 H3).
Defined.

(** ** The encoder invoker *)



(** The kinds of outcome on examples: normal exit, non-zero exit,
    undecodable output, failure to launch. *)
Example convert_result_ok :
  convert_result (Exited 0 "" "frame=1") = Return (true, "frame=1").
Proof. reflexivity. Qed.
Example convert_result_nonzero :
  convert_result (Exited 1 "" "Invalid data") = Return (false, "Invalid data").
Proof. reflexivity. Qed.
Example convert_result_undecodable :
  convert_result (Undecodable 0 "'utf-8' codec can't decode byte 0xff")
  = Return (false, "'utf-8' codec can't decode byte 0xff").
Proof. reflexivity. Qed.
Example convert_result_launch :
  convert_result (Failed "[Errno 2] No such file or directory: 'ffmpeg'")
  = Return (false, "[Errno 2] No such file or directory: 'ffmpeg'").
Proof. reflexivity. Qed.

(** ** The encoder arguments *)

(** C8.  The command line is the executable, [-i] and the input path, the
    arguments the table gives for the destination format (the stream copy
    for a format that is not in the table), [-y] and the output path; so it
    depends on the destination format, the executable and the two paths
    only.  Each of the four rows names a video codec, an audio codec and an
    audio bitrate. *)
Theorem encoder_cmd_table (c : VideoConverter) (input_path output_path : string) :
  encoder_cmd c input_path output_path
  = [ffmpeg_path c; "-i"; input_path] ++ encoder_args (dst_format c)
    ++ ["-y"; output_path]
  /\ (forall c', dst_format c' = dst_format c ->
                 ffmpeg_path c' = ffmpeg_path c ->
                 encoder_cmd c' input_path output_path
                 = encoder_cmd c input_path output_path)
  /\ map fst format_table = [".mp4"; ".webm"; ".avi"; ".mov"]
  /\ Forall (fun row => names_codecs (snd row)) format_table
  /\ (~ In (dst_format c) (map fst format_table) ->
      encoder_args (dst_format c) = stream_copy).
Proof.
  split.
  { unfold encoder_cmd, encoder_args, format_table. cbn [find fst snd].
    destruct (String.eqb (dst_format c) ".mp4"); [reflexivity|].
    destruct (String.eqb (dst_format c) ".webm"); [reflexivity|].
    destruct (String.eqb (dst_format c) ".avi"); [reflexivity|].
    destruct (String.eqb (dst_format c) ".mov"); reflexivity. }
  split.
  { intros c' Hd Hf. unfold encoder_cmd. now rewrite Hd, Hf. }
  split; [reflexivity|].
  split.
  { unfold format_table.
    repeat (apply Forall_cons;
            [unfold names_codecs; cbn [snd In]; repeat split; auto 12|]).
    apply Forall_nil. }
  intro Hnot. unfold encoder_args, format_table in *. cbn [find fst snd map] in *.
  destruct (String.eqb_spec (dst_format c) ".mp4") as [H|_];
    [exfalso; apply Hnot; rewrite H; cbn; tauto|].
  destruct (String.eqb_spec (dst_format c) ".webm") as [H|_];
    [exfalso; apply Hnot; rewrite H; cbn; tauto|].
  destruct (String.eqb_spec (dst_format c) ".avi") as [H|_];
    [exfalso; apply Hnot; rewrite H; cbn; tauto|].
  destruct (String.eqb_spec (dst_format c) ".mov") as [H|_];
    [exfalso; apply Hnot; rewrite H; cbn; tauto|].
  reflexivity.
Qed.

Example encoder_cmd_mp4 :
  encoder_cmd flat_converter "/in/a.mpg" "/out/a.mp4"
  = ["ffmpeg"; "-i"; "/in/a.mpg"; "-c:v"; "libx264"; "-crf"; "23";
     "-preset"; "medium"; "-c:a"; "aac"; "-b:a"; "128k"; "-y"; "/out/a.mp4"].
Proof. reflexivity. Qed.

Example encoder_cmd_other :
  encoder_cmd (init "/in" "/out" "ffmpeg" [".mpg"] ".MP4" false)
              "/in/a.mpg" "/out/a.MP4"
  = ["ffmpeg"; "-i"; "/in/a.mpg"; "-c"; "copy"; "-y"; "/out/a.MP4"].
Proof. reflexivity. Qed.

(** ** cancel *)

(** C9 as stated fails: [cancel] does not leave the log queue alone. *)
Lemma cancel_enqueues_a_log_line :
  log_queue (cancel flat_converter) = [cancel_message]
  /\ log_queue (cancel flat_converter) <> log_queue flat_converter
  /\ cancel flat_converter <> set_cancel_flag true flat_converter.
Proof.
  split; [reflexivity|]. split; [discriminate|].
  intro H. apply (f_equal log_queue) in H. discriminate H.
Qed.

(** C9, as the code has it.  [cancel] sets the flag and puts exactly one
    line on the log queue; it leaves the progress queue, the two counters
    and the configuration alone.  So does any sequence of steps of the
    controller: every progress event comes from the orchestrator, and so
    does every log line other than the controller's own message. *)
Theorem cancel_effect (c : VideoConverter) :
  cancel c = log_queue_put cancel_message (set_cancel_flag true c)
  /\ cancel_flag (cancel c) = true
  /\ log_queue (cancel c) = log_queue c ++ [cancel_message]
  /\ progress_queue (cancel c) = progress_queue c
  /\ total_files (cancel c) = total_files c
  /\ processed_files (cancel c) = processed_files c
  /\ same_config (cancel c) c
  /\ (forall ops, progress_queue (fold_left ctl_step ops c) = progress_queue c
                  /\ worker_lines (log_queue (fold_left ctl_step ops c))
                     = worker_lines (log_queue c)).
Proof.
  split; [reflexivity|]. split; [reflexivity|]. split; [reflexivity|].
  split; [reflexivity|]. split; [reflexivity|]. split; [reflexivity|].
  split; [repeat split|].
  intro ops. pose proof (strip_ctl_steps ops c) as H. split.
  - apply (f_equal progress_queue) in H. exact H.
  - apply (f_equal log_queue) in H. exact H.
Qed.

(** ** The percentage *)

(** C5 fails on the code at 29 files out of 50: the code computes
    [int((29 / 50) * 100)] in binary floating point, which is 57, whereas
    floor(29 * 100 / 50) is 58; the progress event of the run says 57. *)
Theorem progress_percent_29_of_50 :
  progress_percent 29 50 = Some 57%Z
  /\ (Z.of_nat 29 * 100 / Z.of_nat 50 = 58)%Z
  /\ progress_text 29 50 = "进度: 29/50 (57%)"
  /\ exists w',
      start_conversion fifty_files (fresh flat_converter []) = Finished w'
      /\ nth_error (progress_queue (self w')) 57
         = Some (29, 50, "进度: 29/50 (57%)").
Proof.
  split; [vm_compute; reflexivity|]. split; [reflexivity|].
  split; [vm_compute; reflexivity|].
  eexists. split; [vm_compute; reflexivity|]. vm_compute. reflexivity.
Qed.

(** Elsewhere the two agree, for instance at every count of a five-file
    run. *)
Example progress_percent_of_5 :
  map (fun p => progress_percent p 5) (seq 1 5)
  = map (fun p => Some (Z.of_nat p * 100 / 5)%Z) (seq 1 5).
Proof. vm_compute. reflexivity. Qed.

(** ** Enumeration *)


Lemma in_filenames (es : list entry) (name : string) :
  In name (filenames es) ->
  exists e, In e es /\ is_dir e = false /\ entry_name e = name.
Proof.
  unfold filenames. intro H. apply in_map_iff in H.
  destruct H as (e & Hname & He). apply filter_In in He.
  destruct He as [He Hd]. exists e. split; [exact He|].
  split; [now apply negb_true_iff in Hd|exact Hname].
Qed.

Lemma walk_entry_sound (e : entry) :
  forall (top root : string) (dirs files : list string),
    In (root, dirs, files) (walk_entry top e) ->
    exists d children path es,
      e = Dir d children /\ dir_at children path es
      /\ root = descend (posixpath.join top d) path
      /\ dirs = dirnames es /\ files = filenames es.
Proof.
  induction e as [name|name|name children IH|name] using entry_tree_ind;
    intros top root dirs files Hin;
    [contradiction|contradiction| |contradiction].
  cbn [walk_entry] in Hin. destruct Hin as [Heq|Hin].
  - injection Heq as <- <- <-.
    exists name, children, [], children.
    repeat split; constructor.
  - apply in_flat_map in Hin. destruct Hin as (e & He & Hin).
    rewrite Forall_forall in IH.
    destruct (IH e He _ _ _ _ Hin) as (d & ch & path & es & -> & Hat & -> & -> & ->).
    exists name, children, (d :: path), es.
    repeat split. econstructor; eassumption.
Qed.

Lemma os_walk_sound (top : string) (entries : list entry)
      (root : string) (dirs files : list string) :
  In (root, dirs, files) (os_walk top entries) ->
  exists path es,
    dir_at entries path es /\ root = descend top path
    /\ dirs = dirnames es /\ files = filenames es.
Proof.
  unfold os_walk. intros [Heq|Hin].
  - injection Heq as <- <- <-. exists [], entries. repeat split. constructor.
  - apply in_flat_map in Hin. destruct Hin as (e & He & Hin).
    destruct (@walk_entry_sound e _ _ _ _ Hin)
      as (d & ch & path & es & -> & Hat & -> & -> & ->).
    exists (d :: path), es. repeat split. econstructor; eassumption.
Qed.

Lemma uncancelled_run_spawns (E : Env) (c : VideoConverter)
      (sched : list (list ctl_op)) :
  cancel_flag c = false -> no_cancel sched ->
  exists w',
    start_conversion E (fresh c sched) = Finished w'
    /\ spawned (calls w')
       = map (fun rf => file_cmd E c (fst rf) (snd rf)) (get_video_files E c).
Proof.
  intros Hflag Hsched.
  destruct (start_conversion_ends E (fresh c sched))
    as (w' & e & Hrun & Hstill & _ & He & Hcalm).
  specialize (Hcalm (calm_fresh c Hflag Hsched)).
  change (self (fresh c sched)) with c in He.
  apply final_observables in Hstill. cbv zeta in Hstill.
  change (self (fresh c sched)) with c in Hstill.
  change (calls (fresh c sched)) with (@nil os_call) in Hstill.
  destruct Hstill as (Hcalls & _).
  exists w'. split; [exact Hrun|]. rewrite Hcalls. cbn [app].
  rewrite spawned_run_calls.
  destruct e as [| |done broke]; [|reflexivity|contradiction].
  cbn [ending_done]. now rewrite He.
Qed.

Lemma in_spawned (cmd : list string) (calls : list os_call) :
  In cmd (spawned calls) -> In (Spawn cmd) calls.
Proof.
  induction calls as [|[p b|cmd'] r IH]; cbn [spawned]; [tauto| |].
  - intro H. right. now apply IH.
  - intros [->|H]; [now left|right; now apply IH].
Qed.




(** ** Paths *)

Lemma append_assoc (a b c : string) :
  ((a ++ b) ++ c = a ++ (b ++ c))%string.
Proof. induction a as [|x a IH]; cbn; [reflexivity|now rewrite IH]. Qed.

Lemma append_nil_r (a : string) : (a ++ "")%string = a.
Proof. induction a as [|x a IH]; cbn; [reflexivity|now rewrite IH]. Qed.

Lemma split_nonempty (c : ascii) (s : string) : PyStr.split c s <> [].
Proof.
  destruct s as [|a s]; cbn; [discriminate|].
  destruct (Ascii.eqb a c); [discriminate|].
  destruct (PyStr.split c s); discriminate.
Qed.

Lemma split_app (c : ascii) (x y : string) :
  PyStr.split c (x ++ String c y) = PyStr.split c x ++ PyStr.split c y.
Proof.
  induction x as [|a x IH].
  - cbn. now rewrite Ascii.eqb_refl.
  - cbn [String.append PyStr.split]. rewrite IH.
    destruct (Ascii.eqb a c); [reflexivity|].
    pose proof (split_nonempty c x) as Hne.
    destruct (PyStr.split c x); [contradiction|reflexivity].
Qed.

Lemma split_free (c : ascii) (d : string) :
  PyStr.free_of c d = true -> PyStr.split c d = [d].
Proof.
  induction d as [|a d IH]; [reflexivity|].
  cbn [PyStr.free_of PyStr.split]. intro H.
  apply andb_true_iff in H. destruct H as [Ha Hd].
  apply negb_true_iff in Ha. rewrite Ha, (IH Hd). reflexivity.
Qed.

Lemma split_all_free (c : ascii) (s : string) :
  Forall (fun comp => PyStr.free_of c comp = true) (PyStr.split c s).
Proof.
  induction s as [|a s IH]; [repeat constructor|].
  cbn [PyStr.split]. destruct (Ascii.eqb a c) eqn:Ha.
  - constructor; [reflexivity|exact IH].
  - destruct (PyStr.split c s) as [|h t]; [repeat constructor; cbn; now rewrite Ha|].
    inversion IH; subst. constructor; [cbn; now rewrite Ha|assumption].
Qed.

Lemma join_cons (a b : string) (r : list string) :
  PyStr.join "/" (a :: b :: r)
  = (a ++ String posixpath.sep (PyStr.join "/" (b :: r)))%string.
Proof. reflexivity. Qed.

Lemma split_concat (comps : list string) :
  comps <> [] ->
  Forall (fun comp => PyStr.free_of posixpath.sep comp = true) comps ->
  PyStr.split posixpath.sep (PyStr.join "/" comps) = comps.
Proof.
  intros Hne H. induction H as [|a comps Ha Hall IH]; [contradiction|].
  destruct comps as [|b comps].
  - now apply split_free.
  - rewrite join_cons, split_app, (split_free _ _ Ha), IH by discriminate.
    reflexivity.
Qed.

Lemma ends_with_sep_cons (a : ascii) (s : string) :
  posixpath.ends_with_sep (String a s)
  = match s with
    | EmptyString => Ascii.eqb a posixpath.sep
    | String _ _ => posixpath.ends_with_sep s
    end.
Proof.
  unfold posixpath.ends_with_sep, PyStr.endswith.
  cbn [String.length Nat.leb].
  destruct s as [|b s].
  - cbn [String.length Nat.sub Nat.leb andb PyStr.drop String.eqb].
    apply andb_true_r.
  - cbn [String.length Nat.sub Nat.leb andb PyStr.drop].
    rewrite !Nat.sub_0_r. reflexivity.
Qed.

Lemma ends_with_sep_app (x y : string) :
  y <> EmptyString ->
  posixpath.ends_with_sep (x ++ y) = posixpath.ends_with_sep y.
Proof.
  intro Hy. induction x as [|a x IH]; [reflexivity|].
  cbn [String.append]. rewrite ends_with_sep_cons, IH.
  destruct (x ++ y)%string eqn:Hxy; [|reflexivity].
  destruct x; [cbn in Hxy; contradiction|discriminate Hxy].
Qed.

Lemma ends_with_sep_split (s : string) :
  posixpath.ends_with_sep s = true -> exists g, s = (g ++ "/")%string.
Proof.
  induction s as [|a s IH]; [discriminate|].
  rewrite ends_with_sep_cons. destruct s as [|b s].
  - intro H. apply Ascii.eqb_eq in H. subst a. now exists EmptyString.
  - intro H. destruct (IH H) as (g & Hg). exists (String a g).
    cbn. now rewrite Hg.
Qed.

Lemma starts_with_sep_app (x y : string) :
  x <> EmptyString ->
  posixpath.starts_with_sep (x ++ y) = posixpath.starts_with_sep x.
Proof. destruct x as [|a x]; [contradiction|reflexivity]. Qed.

Lemma valid_name_spec (d : string) :
  valid_name d = true ->
  String.eqb d "" = false /\ String.eqb d posixpath.curdir = false
  /\ String.eqb d posixpath.pardir = false
  /\ PyStr.free_of posixpath.sep d = true
  /\ posixpath.starts_with_sep d = false.
Proof.
  unfold valid_name. intro H.
  apply andb_true_iff in H. destruct H as [H H4].
  apply andb_true_iff in H. destruct H as [H H3].
  apply andb_true_iff in H. destruct H as [H1 H2].
  apply negb_true_iff in H1, H2, H3.
  repeat split; try assumption.
  destruct d as [|a d]; [reflexivity|].
  cbn [PyStr.free_of] in H4. apply andb_true_iff in H4.
  destruct H4 as [H4 _]. apply negb_true_iff in H4.
  unfold posixpath.starts_with_sep. cbn [PyStr.startswith].
  unfold posixpath.sep in H4. now rewrite H4.
Qed.

Lemma join_valid (top d : string) :
  valid_name d = true ->
  posixpath.join top d
  = if PyStr.is_empty top || posixpath.ends_with_sep top
    then (top ++ d)%string else (top ++ String posixpath.sep d)%string.
Proof.
  intro Hd. apply valid_name_spec in Hd.
  destruct Hd as (_ & _ & _ & _ & Hs).
  unfold posixpath.join. now rewrite Hs.
Qed.

Lemma valid_name_nonempty (d : string) :
  valid_name d = true -> d <> EmptyString.
Proof. intros H ->. discriminate H. Qed.

Lemma starts_with_sep_nonempty (s : string) :
  posixpath.starts_with_sep s = true -> s <> EmptyString.
Proof. intros H ->. discriminate H. Qed.

Lemma starts_with_sep_join (a b : string) :
  posixpath.starts_with_sep a = true ->
  posixpath.starts_with_sep (posixpath.join a b) = true.
Proof.
  intro Ha. unfold posixpath.join.
  destruct (posixpath.starts_with_sep b) eqn:Hb; [exact Hb|].
  destruct (PyStr.is_empty a || posixpath.ends_with_sep a);
    rewrite starts_with_sep_app; auto using starts_with_sep_nonempty.
Qed.

Lemma starts_with_sep_abs_full (cwd path : string) :
  posixpath.starts_with_sep cwd = true ->
  posixpath.starts_with_sep (abs_full cwd path) = true.
Proof.
  intro Hc. unfold abs_full.
  destruct (posixpath.starts_with_sep path) eqn:Hp; [exact Hp|].
  now apply starts_with_sep_join.
Qed.

Lemma is_empty_false (s : string) :
  s <> EmptyString -> PyStr.is_empty s = false.
Proof. destruct s; [contradiction|reflexivity]. Qed.

Lemma is_empty_true (s : string) : PyStr.is_empty s = true -> s = EmptyString.
Proof. destruct s; [reflexivity|discriminate]. Qed.

Lemma app_nonempty_r (x y : string) :
  y <> EmptyString -> (x ++ y)%string <> EmptyString.
Proof. destruct x; [exact (fun H => H)|discriminate]. Qed.

Lemma join_rel (a b : string) :
  posixpath.starts_with_sep b = false ->
  posixpath.join a b
  = if PyStr.is_empty a || posixpath.ends_with_sep a
    then (a ++ b)%string else (a ++ String posixpath.sep b)%string.
Proof. intro Hs. unfold posixpath.join. now rewrite Hs. Qed.

Lemma join_prefix (cwd : string) :
  cwd <> EmptyString ->
  exists P, P <> EmptyString /\ posixpath.ends_with_sep P = true
            /\ forall b, posixpath.starts_with_sep b = false ->
                         posixpath.join cwd b = (P ++ b)%string.
Proof.
  intro Hne. destruct (posixpath.ends_with_sep cwd) eqn:He.
  - exists cwd. split; [exact Hne|]. split; [exact He|].
    intros b Hb. rewrite join_rel by exact Hb.
    now rewrite He, orb_true_r.
  - exists (cwd ++ "/")%string.
    split; [apply app_nonempty_r; discriminate|].
    split; [rewrite ends_with_sep_app by discriminate; reflexivity|].
    intros b Hb. rewrite join_rel by exact Hb.
    rewrite He, (@is_empty_false cwd Hne). cbn [orb].
    now rewrite append_assoc.
Qed.

(** [abspath] of a path one level down is one [join] away. *)
Lemma abs_full_join (cwd top d : string) :
  posixpath.starts_with_sep cwd = true ->
  valid_name d = true ->
  abs_full cwd (posixpath.join top d) = posixpath.join (abs_full cwd top) d.
Proof.
  intros Hc Hd. pose proof (@valid_name_nonempty d Hd) as Hne.
  pose proof (@valid_name_spec d Hd) as (_ & _ & _ & _ & Hds).
  unfold abs_full at 2.
  destruct (posixpath.starts_with_sep top) eqn:Ht.
  - unfold abs_full. now rewrite starts_with_sep_join.
  - assert (Hj : posixpath.starts_with_sep (posixpath.join top d) = false).
    { rewrite join_valid by exact Hd. destruct top as [|a top].
      - cbn [PyStr.is_empty orb String.append]. exact Hds.
      - destruct (PyStr.is_empty (String a top)
                  || posixpath.ends_with_sep (String a top));
          rewrite starts_with_sep_app by discriminate; exact Ht. }
    unfold abs_full. rewrite Hj.
    destruct (@join_prefix cwd (@starts_with_sep_nonempty cwd Hc))
      as (P & HP & HPe & HPj).
    rewrite !HPj by assumption.
    rewrite !join_valid by exact Hd.
    destruct top as [|a top].
    + cbn [PyStr.is_empty orb String.append].
      now rewrite append_nil_r, HPe, orb_true_r.
    + cbn [PyStr.is_empty orb].
      rewrite (@ends_with_sep_app P (String a top)) by discriminate.
      rewrite (@is_empty_false _ (@app_nonempty_r P (String a top)
                                    ltac:(discriminate))).
      cbn [orb].
      destruct (posixpath.ends_with_sep (String a top));
        now rewrite append_assoc.
Qed.

Lemma initial_slashes_join (F d : string) :
  posixpath.starts_with_sep F = true ->
  valid_name d = true ->
  posixpath.initial_slashes (posixpath.join F d) = posixpath.initial_slashes F.
Proof.
  intros HF Hd.
  pose proof (@valid_name_spec d Hd) as (Hd0 & _ & _ & _ & Hds).
  rewrite join_valid by exact Hd.
  destruct d as [|d0 d]; [discriminate Hd0|].
  assert (Hd0' : Ascii.eqb d0 "/" = false).
  { unfold posixpath.starts_with_sep in Hds. cbn [PyStr.startswith] in Hds.
    now rewrite andb_true_r in Hds. }
  destruct F as [|a F1]; [discriminate HF|].
  assert (Ha : Ascii.eqb a "/" = true).
  { unfold posixpath.starts_with_sep in HF. cbn [PyStr.startswith] in HF.
    now rewrite andb_true_r in HF. }
  cbn [PyStr.is_empty orb]. rewrite ends_with_sep_cons.
  unfold posixpath.initial_slashes, posixpath.sep.
  destruct F1 as [|b F2].
  - rewrite Ha. cbn [String.append PyStr.startswith].
    rewrite Ha, Hd0'. reflexivity.
  - rewrite ends_with_sep_cons. destruct F2 as [|c F3].
    + unfold posixpath.sep. destruct (Ascii.eqb b "/") eqn:Hb;
        cbn [String.append PyStr.startswith];
        rewrite ?Ha, ?Hb, ?Hd0'; cbn [andb negb]; rewrite ?Ha; reflexivity.
    + destruct (posixpath.ends_with_sep (String c F3));
        cbn [String.append PyStr.startswith]; reflexivity.
Qed.

Lemma norm_step_valid (k : nat) (acc : list string) (d : string) :
  valid_name d = true -> posixpath.norm_step k acc d = acc ++ [d].
Proof.
  intro Hd. pose proof (@valid_name_spec d Hd) as (H1 & H2 & H3 & _).
  unfold posixpath.norm_step. now rewrite H1, H2, H3.
Qed.

Lemma norm_step_empty (k : nat) (acc : list string) :
  posixpath.norm_step k acc "" = acc.
Proof. reflexivity. Qed.

Lemma norm_comps_join (F d : string) :
  posixpath.starts_with_sep F = true ->
  valid_name d = true ->
  posixpath.norm_comps (posixpath.join F d) = posixpath.norm_comps F ++ [d].
Proof.
  intros HF Hd. unfold posixpath.norm_comps.
  rewrite initial_slashes_join by assumption.
  pose proof (@valid_name_spec d Hd) as (_ & _ & _ & Hfree & _).
  rewrite join_valid by exact Hd.
  rewrite (@is_empty_false F (@starts_with_sep_nonempty F HF)). cbn [orb].
  destruct (posixpath.ends_with_sep F) eqn:He.
  - destruct (@ends_with_sep_split F He) as (G & ->).
    rewrite append_assoc.
    change ("/" ++ d)%string with (String posixpath.sep d).
    change (G ++ "/")%string with (G ++ String posixpath.sep "")%string.
    rewrite !split_app, (@split_free posixpath.sep d Hfree).
    cbn [PyStr.split]. rewrite !fold_left_app. cbn [fold_left].
    now rewrite norm_step_empty, norm_step_valid.
  - rewrite split_app, (@split_free posixpath.sep d Hfree).
    rewrite fold_left_app. cbn [fold_left]. now rewrite norm_step_valid.
Qed.

Lemma removelast_Forall (A : Type) (P : A -> Prop) (l : list A) :
  Forall P l -> Forall P (removelast l).
Proof.
  induction 1 as [|a l Ha Hl IH]; [constructor|].
  cbn [removelast]. destruct l; [constructor|]. now constructor.
Qed.

Lemma norm_step_plain (k : nat) (acc : list string) (comp : string) :
  Forall plain_comp acc -> PyStr.free_of posixpath.sep comp = true ->
  Forall plain_comp (posixpath.norm_step k acc comp).
Proof.
  intros Hacc Hfree. unfold posixpath.norm_step.
  destruct (String.eqb_spec comp "") as [|Hne]; [exact Hacc|].
  cbn [orb]. destruct (String.eqb comp posixpath.curdir); [exact Hacc|].
  match goal with |- Forall _ (if ?b then _ else _) => destruct b end.
  - apply Forall_app. split; [exact Hacc|]. repeat constructor; assumption.
  - now apply removelast_Forall.
Qed.

Lemma fold_norm_plain (k : nat) (comps acc : list string) :
  Forall (fun comp => PyStr.free_of posixpath.sep comp = true) comps ->
  Forall plain_comp acc ->
  Forall plain_comp (fold_left (posixpath.norm_step k) comps acc).
Proof.
  intro H. revert acc. induction H as [|comp comps Hc _ IH]; intros acc Hacc;
    [exact Hacc|].
  cbn [fold_left]. apply IH. now apply norm_step_plain.
Qed.

Lemma norm_comps_plain (F : string) : Forall plain_comp (posixpath.norm_comps F).
Proof.
  unfold posixpath.norm_comps. apply fold_norm_plain; [|constructor].
  apply split_all_free.
Qed.

Lemma lstrip_plain_join (comps : list string) :
  Forall plain_comp comps ->
  PyStr.lstrip posixpath.sep (PyStr.join "/" comps) = PyStr.join "/" comps.
Proof.
  intro H. destruct H as [|a comps [Hfree Hne] _]; [reflexivity|].
  assert (Hjoin : exists rest, PyStr.join "/" (a :: comps) = (a ++ rest)%string).
  { destruct comps as [|b comps].
    - exists EmptyString. unfold PyStr.join. cbn. now rewrite append_nil_r.
    - eexists. apply join_cons. }
  destruct Hjoin as (rest & ->).
  destruct a as [|a0 a]; [contradiction|].
  cbn [PyStr.free_of] in Hfree. apply andb_true_iff in Hfree.
  destruct Hfree as [Ha _]. apply negb_true_iff in Ha.
  cbn [String.append PyStr.lstrip]. now rewrite Ha.
Qed.

Lemma join_plain_empty (comps : list string) :
  Forall plain_comp comps ->
  PyStr.is_empty (PyStr.join "/" comps) = true -> comps = [].
Proof.
  intros H He. destruct H as [|a comps [_ Hne] _]; [reflexivity|].
  apply is_empty_true in He. exfalso.
  destruct comps as [|b comps].
  - unfold PyStr.join in He. cbn in He. now apply Hne.
  - rewrite join_cons in He. destruct a; [now apply Hne|discriminate He].
Qed.

(** The components of an absolute path survive [normpath] and the
    splitting [relpath] does. *)
Lemma tail_list_normpath (F : string) :
  posixpath.starts_with_sep F = true ->
  posixpath.tail_list (posixpath.normpath F) = posixpath.norm_comps F.
Proof.
  intro HF. pose proof (norm_comps_plain F) as Hplain.
  unfold posixpath.normpath.
  rewrite (@is_empty_false F (@starts_with_sep_nonempty F HF)).
  assert (Hk : posixpath.initial_slashes F = 1
               \/ posixpath.initial_slashes F = 2).
  { unfold posixpath.initial_slashes.
    unfold posixpath.starts_with_sep in HF. rewrite HF.
    destruct (PyStr.startswith F "//" && negb (PyStr.startswith F "///"));
      auto. }
  set (comps := posixpath.norm_comps F) in *.
  assert (Hstrip : forall k, k = 1 \/ k = 2 ->
            PyStr.lstrip posixpath.sep
              (PyStr.repeat "/" k ++ PyStr.join "/" comps)
            = PyStr.join "/" comps).
  { intros k [->| ->]; cbn [PyStr.repeat String.append PyStr.lstrip];
      rewrite ?Ascii.eqb_refl;
      change (Ascii.eqb "/" posixpath.sep) with true; cbn [PyStr.lstrip];
      now apply lstrip_plain_join. }
  assert (Hne : forall k, k = 1 \/ k = 2 ->
            PyStr.is_empty (PyStr.repeat "/" k ++ PyStr.join "/" comps)
            = false).
  { intros k [->| ->]; reflexivity. }
  rewrite (Hne _ Hk). unfold posixpath.tail_list. rewrite (Hstrip _ Hk).
  destruct (PyStr.is_empty (PyStr.join "/" comps)) eqn:He.
  - symmetry. now apply join_plain_empty.
  - apply split_concat.
    + intros ->. discriminate He.
    + eapply Forall_impl; [|exact Hplain]. now intros comp [H _].
Qed.

Lemma commonprefix_app (l r : list string) :
  posixpath.commonprefix l (l ++ r) = l.
Proof.
  induction l as [|a l IH]; [destruct r; reflexivity|].
  cbn [app posixpath.commonprefix]. now rewrite String.eqb_refl, IH.
Qed.

Lemma abspath_abs_full (cwd path : string) :
  posixpath.abspath cwd path = posixpath.normpath (abs_full cwd path).
Proof.
  unfold posixpath.abspath, abs_full.
  destruct (posixpath.starts_with_sep path); reflexivity.
Qed.

Lemma norm_comps_descend (cwd : string) (path : list string) (top : string) :
  posixpath.starts_with_sep cwd = true ->
  Forall (fun d => valid_name d = true) path ->
  posixpath.norm_comps (abs_full cwd (descend top path))
  = posixpath.norm_comps (abs_full cwd top) ++ path.
Proof.
  intros Hc H. revert top. induction H as [|d path Hd _ IH]; intro top.
  - cbn [descend fold_left]. now rewrite app_nil_r.
  - change (descend top (d :: path))
      with (descend (posixpath.join top d) path).
    rewrite IH, abs_full_join by assumption.
    rewrite norm_comps_join by (auto using starts_with_sep_abs_full).
    now rewrite <- app_assoc.
Qed.

(** [os.path.relpath] of a directory reached by [os.walk] from [top],
    relative to [top]: the names walked through, joined; [.] for [top]
    itself. *)
Lemma relpath_descend (cwd top : string) (path : list string) :
  posixpath.starts_with_sep cwd = true ->
  Forall (fun d => valid_name d = true) path ->
  posixpath.relpath cwd (descend top path) top
  = match path with
    | [] => posixpath.curdir
    | _ => PyStr.join "/" path
    end.
Proof.
  intros Hc Hpath. unfold posixpath.relpath. cbv zeta.
  rewrite !abspath_abs_full.
  rewrite !tail_list_normpath by (auto using starts_with_sep_abs_full).
  rewrite norm_comps_descend by assumption.
  rewrite commonprefix_app, Nat.sub_diag. cbn [List.repeat app].
  rewrite skipn_app, Nat.sub_diag, skipn_all. cbn [app skipn].
  destruct path; reflexivity.
Qed.

(** ** The extension of a file name *)

Lemma rfind_from_free (c : ascii) (s : string) (i found : Z) :
  PyStr.free_of c s = true -> PyStr.rfind_from i c s found = found.
Proof.
  revert i found. induction s as [|a s IH]; intros i found H; [reflexivity|].
  cbn [PyStr.free_of] in H. apply andb_true_iff in H. destruct H as [Ha Hs].
  apply negb_true_iff in Ha. cbn [PyStr.rfind_from]. rewrite Ha. now apply IH.
Qed.

Lemma rfind_from_app (c : ascii) (x y : string) (i found : Z) :
  PyStr.rfind_from i c (x ++ String c y) found
  = PyStr.rfind_from (i + Z.of_nat (String.length x) + 1) c y
                     (i + Z.of_nat (String.length x)).
Proof.
  revert i found. induction x as [|a x IH]; intros i found.
  - cbn [String.append PyStr.rfind_from String.length].
    rewrite Ascii.eqb_refl. f_equal; lia.
  - cbn [String.append PyStr.rfind_from String.length]. rewrite IH.
    f_equal; lia.
Qed.

Lemma has_non_dot_past (s : string) (i lo hi : Z) :
  (hi <= i)%Z -> posixpath.has_non_dot i lo hi s = false.
Proof.
  revert i. induction s as [|a s IH]; intros i Hi; [reflexivity|].
  cbn [posixpath.has_non_dot]. rewrite IH by lia.
  replace (i <? hi)%Z with false by (symmetry; apply Z.ltb_ge; lia).
  now rewrite andb_false_r.
Qed.

Lemma has_non_dot_app (x y : string) (i : Z) :
  (0 <= i)%Z ->
  posixpath.has_non_dot i 0 (i + Z.of_nat (String.length x)) (x ++ y)
  = negb (all_dots x).
Proof.
  revert i. induction x as [|a x IH]; intros i Hi.
  - cbn [String.append String.length all_dots negb].
    apply has_non_dot_past. lia.
  - cbn [String.append String.length all_dots posixpath.has_non_dot].
    replace (i + Z.of_nat (S (String.length x)))%Z
      with (i + 1 + Z.of_nat (String.length x))%Z by lia.
    rewrite IH by lia.
    replace (0 <=? i)%Z with true by (symmetry; apply Z.leb_le; lia).
    replace (i <? i + 1 + Z.of_nat (String.length x))%Z with true
      by (symmetry; apply Z.ltb_lt; lia).
    cbn [andb]. now rewrite negb_andb.
Qed.

Lemma take_app (x y : string) : PyStr.take (String.length x) (x ++ y) = x.
Proof. induction x as [|a x IH]; cbn; [now destruct y|now rewrite IH]. Qed.

Lemma drop_app (x y : string) : PyStr.drop (String.length x) (x ++ y) = y.
Proof. induction x as [|a x IH]; cbn; [reflexivity|exact IH]. Qed.

(** [splitext] takes a file name apart at its last dot, provided the name
    holds no separator and something other than dots comes before. *)
Lemma splitext_app (stem ext : string) :
  PyStr.free_of posixpath.extsep ext = true ->
  PyStr.free_of posixpath.sep (stem ++ String posixpath.extsep ext) = true ->
  all_dots stem = false ->
  posixpath.splitext (stem ++ String posixpath.extsep ext)
  = (stem, String posixpath.extsep ext).
Proof.
  intros Hext Hsep Hstem. unfold posixpath.splitext. cbv zeta.
  unfold PyStr.rfind.
  rewrite (@rfind_from_free _ _ 0%Z (-1)%Z Hsep).
  rewrite rfind_from_app.
  rewrite (@rfind_from_free _ _ _ _ Hext).
  replace (-1 <? 0 + Z.of_nat (String.length stem))%Z with true
    by (symmetry; apply Z.ltb_lt; lia).
  change (-1 + 1)%Z with 0%Z.
  rewrite has_non_dot_app, Hstem by lia. cbn [negb].
  cbn [Z.add]. rewrite Nat2Z.id. now rewrite take_app, drop_app.
Qed.

Example splitext_upper : posixpath.splitext "Clip.MPG" = ("Clip", ".MPG").
Proof. reflexivity. Qed.

(** ** The destination of a file *)

Lemma calls_after_file (E : Env) (root file : string) (w : World) :
  calls (after_file E root file w) = calls w ++ file_calls E (self w) root file.
Proof.
  rewrite <- (calls_still (after_file E root file w)).
  rewrite still_after_file, (still_silent w), after_file_silent.
  cbn [calls]. reflexivity.
Qed.

Lemma encoder_cmd_ends (c : VideoConverter) (input_path output_path : string) :
  last (encoder_cmd c input_path output_path) "" = output_path
  /\ nth 2 (encoder_cmd c input_path output_path) "" = input_path.
Proof.
  unfold encoder_cmd.
  destruct (String.eqb (dst_format c) ".mp4"); [split; reflexivity|].
  destruct (String.eqb (dst_format c) ".webm"); [split; reflexivity|].
  destruct (String.eqb (dst_format c) ".avi"); [split; reflexivity|].
  destruct (String.eqb (dst_format c) ".mov"); split; reflexivity.
Qed.

(** C7.  For every file the loop processes: in preserve-structure mode the
    destination sub-directory is the destination root joined with the path
    of the file's directory relative to the source root, it is created with
    [exist_ok=True] just before the encoder is spawned, and the encoder
    writes to that sub-directory joined with the destination file name; in
    flat mode the encoder writes to the destination root joined with the
    destination file name.  The destination file name is the source file
    name with its extension replaced by the destination extension: a
    name [stem.ext] becomes [stem] followed by the destination extension.
    For a
    directory that [os.walk] reached through the names [path], the relative
    path is these names joined ([.] for the source root itself); so a file
    [c.mpg] in [<root>/a/b] goes with destination [<out>] and extension
    [.mp4] to [<out>/a/b/c.mp4]. *)
Theorem destination_path (E : Env) (w : World) (root file : string) :
  let c := self w in
  let name := (fst (posixpath.splitext file) ++ dst_format c)%string in
  let subdir := posixpath.join (output_dir c)
                  (posixpath.relpath (cwd E) root (input_dir c)) in
  exists w',
    process_file E root file w = Finished w'
    /\ calls w'
       = calls w
         ++ (if preserve_structure c
             then [Makedirs subdir true;
                   Spawn (encoder_cmd c (posixpath.join root file)
                                      (posixpath.join subdir name))]
             else [Spawn (encoder_cmd c (posixpath.join root file)
                                      (posixpath.join (output_dir c) name))])
    /\ (forall i o, last (encoder_cmd c i o) "" = o
                    /\ nth 2 (encoder_cmd c i o) "" = i)
    /\ (forall stem ext,
          file = (stem ++ String posixpath.extsep ext)%string ->
          PyStr.free_of posixpath.extsep ext = true ->
          PyStr.free_of posixpath.sep file = true ->
          all_dots stem = false ->
          name = (stem ++ dst_format c)%string)
    /\ (forall path,
          posixpath.starts_with_sep (cwd E) = true ->
          input_dir c <> "" ->
          Forall (fun d => valid_name d = true) path ->
          root = descend (input_dir c) path ->
          posixpath.relpath (cwd E) root (input_dir c)
          = match path with
            | [] => posixpath.curdir
            | _ => PyStr.join "/" path
            end)
    /\ (preserve_structure c = true -> dst_format c = ".mp4" ->
        posixpath.starts_with_sep (cwd E) = true ->
        input_dir c <> "" -> output_dir c <> "" ->
        posixpath.ends_with_sep (output_dir c) = false ->
        output_path E c (descend (input_dir c) ["a"; "b"]) "c.mpg"
        = (output_dir c ++ "/a/b/c.mp4")%string).
Proof.
  intros c name subdir.
  exists (after_file E root file w).
  split; [apply process_file_finished|].
  split.
  { rewrite calls_after_file. fold c. unfold file_calls, file_cmd, output_path.
    unfold output_subdir, output_file. fold subdir. fold name.
    destruct (preserve_structure c); reflexivity. }
  split; [intros i o; apply encoder_cmd_ends|].
  split.
  { intros stem ext -> Hext Hsep Hstem. unfold name.
    now rewrite splitext_app. }
  split.
  { intros path Hcwd _ Hpath ->. now apply relpath_descend. }
  intros Hpres Hdst Hcwd _ Hout Hends.
  unfold output_path, output_subdir, output_file. rewrite Hpres, Hdst.
  rewrite relpath_descend by (repeat constructor; assumption).
  change (fst (posixpath.splitext "c.mpg") ++ ".mp4")%string with "c.mp4".
  change (PyStr.join "/" ["a"; "b"]) with "a/b".
  rewrite (@join_rel (output_dir c) "a/b" eq_refl).
  rewrite (@is_empty_false (output_dir c) Hout), Hends. cbn [orb].
  rewrite (@join_rel _ "c.mp4" eq_refl).
  rewrite ends_with_sep_app by discriminate.
  rewrite (@is_empty_false _ (@app_nonempty_r (output_dir c)
                               (String posixpath.sep "a/b")
                               ltac:(discriminate))).
  change (posixpath.ends_with_sep (String posixpath.sep "a/b")) with false.
  cbn [orb]. now rewrite append_assoc.
Qed.

Lemma destination_path_witness :
  posixpath.starts_with_sep (cwd dir_named_like_video) = true
  /\ Forall (fun d => valid_name d = true) ["a"; "b"]
  /\ exists w',
      process_file dir_named_like_video "/in/a/b" "c.mpg"
                   (fresh tree_converter [])
      = Finished w'
      /\ calls w'
         = [Makedirs "/out/a/b" true;
            Spawn ["ffmpeg"; "-i"; "/in/a/b/c.mpg"; "-c:v"; "libx264";
                   "-crf"; "23"; "-preset"; "medium"; "-c:a"; "aac";
                   "-b:a"; "128k"; "-y"; "/out/a/b/c.mp4"]]
      /\ posixpath.relpath "/home/u" "/in/a/b" "/in" = "a/b"
      /\ output_path dir_named_like_video tree_converter
                     (descend "/in" ["a"; "b"]) "c.mpg"
         = "/out/a/b/c.mp4".
Proof.
  assert (H1 : posixpath.starts_with_sep (cwd dir_named_like_video) = true)
    by reflexivity.
  assert (H2 : Forall (fun d => valid_name d = true) ["a"; "b"])
    by (repeat constructor).
  split; [exact H1|]. split; [exact H2|].
  destruct (@destination_path dir_named_like_video (fresh tree_converter [])
              "/in/a/b" "c.mpg")
    as (w' & Hrun & Hcalls & _ & _ & Hrel & Hexample).
  exists w'. split; [exact Hrun|]. split; [exact Hcalls|].
  split.
  - apply (Hrel ["a"; "b"] H1); [discriminate|exact H2|reflexivity].
  - apply Hexample; try reflexivity; discriminate.
Defined.

(** A top-level file goes to [<out>/./<name>], a flat run to
    [<out>/<name>]; a name without extension gets the extension appended. *)
Example output_path_top :
  output_path five_files tree_converter "/in" "Clip.MPG" = "/out/./Clip.mp4".
Proof. reflexivity. Qed.
Example output_path_flat :
  output_path five_files flat_converter "/in" "Clip.MPG" = "/out/Clip.mp4".
Proof. reflexivity. Qed.
Example output_file_hidden : output_file flat_converter ".mpg" = ".mpg.mp4".
Proof. reflexivity. Qed.

(* ================================================================= *)
(** * Further properties of the converter *)

(** ** The two ways a run is cancelled *)

Lemma run_breaks_at (E : Env) (w : World) (pre : list (string * string))
      (root file : string) (post : list (string * string)) (w1 : World) :
  get_video_files E (self w) = pre ++ (root, file) :: post ->
  conversion_loop E pre (announce E w) = LoopDone false w1 ->
  cancel_flag (self (yield w1)) = true ->
  exists w',
    start_conversion E w = Finished w'
    /\ flagged w'
    /\ still w' = final_world E (still w) (Cancelled pre true).
Proof.
  intros Hfiles Hloop Hflag.
  destruct (conversion_loop_shape E pre (announce E w))
    as (broke & w1' & done & rest & Hrun & Hsplit & _ & _ & Hend).
  rewrite Hloop in Hrun. injection Hrun as <- <-.
  destruct Hend as (-> & Hend). rewrite app_nil_r in Hsplit. subst done.
  rewrite still_announce, (still_silent w), announce_silent in Hend.
  assert (Hfl : flagged (yield (put_log break_line (yield w1))))
    by (apply flagged_yield, flagged_put_log; exact Hflag).
  exists (cancelled_end (yield (put_log break_line (yield w1)))).
  split.
  { rewrite start_conversion_unfold. cbv zeta. rewrite total_announce.
    rewrite Hfiles, conversion_loop_app, Hloop.
    rewrite length_app. cbn [length].
    replace (length pre + S (length post) =? 0)%nat with false
      by (symmetry; apply Nat.eqb_neq; lia).
    cbn [conversion_loop]. rewrite Hflag, finish_unfold.
    unfold flagged in Hfl. rewrite Hfl. reflexivity. }
  split; [now apply flagged_cancelled_end|].
  rewrite still_cancelled_end, still_yield.
  rewrite still_put_log by reflexivity. rewrite still_yield, Hend.
  rewrite (still_silent w). apply (cancelled_after_silent E pre true).
Qed.

Lemma run_cancelled_late (E : Env) (w w1 : World) :
  get_video_files E (self w) <> [] ->
  conversion_loop E (get_video_files E (self w)) (announce E w)
  = LoopDone false w1 ->
  cancel_flag (self (yield w1)) = true ->
  exists w',
    start_conversion E w = Finished w'
    /\ flagged w'
    /\ still w'
       = final_world E (still w) (Cancelled (get_video_files E (self w)) false).
Proof.
  intros Hne Hloop Hflag.
  destruct (conversion_loop_shape E (get_video_files E (self w))
                                  (announce E w))
    as (broke & w1' & done & rest & Hrun & Hsplit & _ & _ & Hend).
  rewrite Hloop in Hrun. injection Hrun as <- <-.
  destruct Hend as (-> & Hend). rewrite app_nil_r in Hsplit.
  rewrite still_announce, (still_silent w), announce_silent in Hend.
  exists (cancelled_end (yield w1)).
  split.
  { rewrite start_conversion_unfold. cbv zeta. rewrite total_announce.
    destruct (get_video_files E (self w)) as [|f files] eqn:Hfiles;
      [contradiction|].
    cbn [length Nat.eqb]. rewrite Hloop, finish_unfold, Hflag. reflexivity. }
  split; [apply flagged_cancelled_end, Hflag|].
  rewrite still_cancelled_end, still_yield, Hend, (still_silent w).
  rewrite Hsplit.
  apply (cancelled_after_silent E done false).
Qed.

Lemma set_flag_ctl_steps (ops : list ctl_op) (c : VideoConverter) :
  In CancelSetFlag ops -> cancel_flag (fold_left ctl_step ops c) = true.
Proof.
  revert c. induction ops as [|op ops IH]; intros c H; [contradiction|].
  cbn [fold_left]. destruct H as [->|H]; [|now apply IH].
  apply flagged_ctl_steps. reflexivity.
Qed.

Lemma run_calls_by_mode (E : Env) (c : VideoConverter)
      (files : list (string * string)) :
  run_calls E c files = calls_of E c files.
Proof.
  unfold calls_of.
  induction files as [|[root file] rest IH]; cbn [run_calls];
    [now destruct (preserve_structure c)|].
  rewrite IH. unfold file_calls.
  destruct (preserve_structure c); reflexivity.
Qed.

(** Every run from a fresh world, with what it leaves behind. *)
Lemma fresh_run (E : Env) (c : VideoConverter) (sched : list (list ctl_op)) :
  let n := length (get_video_files E c) in
  exists (w' : World) (e : ending),
    start_conversion E (fresh c sched) = Finished w'
    /\ match e with
       | Nothing => get_video_files E c = []
       | Completed => get_video_files E c <> []
       | Cancelled done broke =>
           get_video_files E c <> [] /\ cancel_flag (self w') = true
           /\ exists rest, get_video_files E c = done ++ rest
                /\ (if broke then rest <> [] else rest = [])
       end
    /\ (cancel_flag c = false -> no_cancel sched ->
        match e with Cancelled _ _ => False | _ => True end)
    /\ calls w' = run_calls E c (ending_done E c e)
    /\ progress_queue (self w')
       = progress_queue c ++ run_events 0 n (ending_done E c e)
         ++ [ending_event n e]
    /\ worker_lines (log_queue (self w'))
       = worker_lines (log_queue c) ++ header_lines c
         ++ run_lines E c 0 (ending_done E c e) ++ ending_tail n e
    /\ total_files (self w') = n
    /\ processed_files (self w') = fst (fst (ending_event n e))
    /\ same_config (self w') c.
Proof.
  cbv zeta.
  destruct (start_conversion_ends E (fresh c sched))
    as (w' & e & Hrun & Hstill & _ & He & Hcalm).
  change (self (fresh c sched)) with c in He.
  apply final_observables in Hstill. cbv zeta in Hstill.
  change (self (fresh c sched)) with c in Hstill.
  change (calls (fresh c sched)) with (@nil os_call) in Hstill.
  cbn [app spawned length] in Hstill.
  destruct Hstill as (Hcalls & Hprog & Hlog & Htotal & Hproc & Hcfg).
  exists w', e. split; [exact Hrun|]. split; [exact He|].
  split; [intros Hf Hs; apply Hcalm, calm_fresh; assumption|].
  split; [exact Hcalls|]. split; [exact Hprog|]. split; [exact Hlog|].
  split; [exact Htotal|]. split; [exact Hproc|exact Hcfg].
Qed.

(** ** What every run does, whatever the controller does *)

(** X1.  Whatever the controller thread does and whenever it does it, a run
    returns and has gone through a prefix [done] of the enumerated files,
    nothing else: the calls made to the operating system are exactly those
    for the files of [done], in order (in preserve-structure mode a
    [makedirs(..., exist_ok=True)] of the destination sub-directory right
    before each encoder process, in flat mode the encoder processes alone,
    no directory being ever created); [processed_files] is the length of
    [done] and [total_files] the number of enumerated files; and when some
    file was left out, the flag is set and the run ends with the
    "cancelled" event carrying these two counts. *)
Theorem every_run_processes_a_prefix
        (E : Env) (idir odir ff : string) (srcs : list string) (dst : string)
        (pres : bool) (sched : list (list ctl_op)) :
  let c := init idir odir ff srcs dst pres in
  let files := get_video_files E c in
  exists w' done rest,
    start_conversion E (fresh c sched) = Finished w'
    /\ files = done ++ rest
    /\ calls w'
       = (if pres
          then flat_map (fun rf : string * string =>
                           [Makedirs (output_subdir E c (fst rf)) true;
                            Spawn (file_cmd E c (fst rf) (snd rf))]) done
          else map (fun rf : string * string =>
                      Spawn (file_cmd E c (fst rf) (snd rf))) done)
    /\ processed_files (self w') = length done
    /\ total_files (self w') = length files
    /\ (rest <> [] ->
        cancel_flag (self w') = true
        /\ last (progress_queue (self w')) (0, 0, "")
           = (length done, length files, cancelled_label)).
Proof.
  intros c files.
  destruct (fresh_run E c sched)
    as (w' & e & Hrun & He & _ & Hcalls & Hprog & _ & Htotal & Hproc & _).
  fold files in He, Hprog, Htotal, Hproc.
  rewrite run_calls_by_mode in Hcalls. unfold calls_of in Hcalls.
  change (preserve_structure c) with pres in Hcalls.
  change (progress_queue c) with (@nil ProgressEvent) in Hprog.
  cbn [app] in Hprog.
  destruct e as [| |done broke]; cbn [ending_done ending_event fst] in *.
  - exists w', [], []. rewrite He in *.
    split; [exact Hrun|]. split; [reflexivity|]. split; [exact Hcalls|].
    split; [exact Hproc|]. split; [exact Htotal|]. intro H. now contradiction H.
  - exists w', files, []. split; [exact Hrun|].
    split; [now rewrite app_nil_r|]. split; [exact Hcalls|].
    split; [exact Hproc|]. split; [exact Htotal|]. intro H. now contradiction H.
  - destruct He as (_ & Hflag & rest & Hsplit & _).
    exists w', done, rest. split; [exact Hrun|]. split; [exact Hsplit|].
    split; [exact Hcalls|]. split; [exact Hproc|]. split; [exact Htotal|].
    intros _. split; [exact Hflag|]. now rewrite Hprog, last_last.
Qed.

Lemma run_events_not_terminal (p t : nat) (files : list (string * string)) :
  Forall (fun ev => is_terminal ev = false) (run_events p t files).
Proof.
  revert p. induction files as [|[root file] rest IH]; intro p;
    [constructor|].
  cbn [run_events file_events app].
  constructor; [reflexivity|]. constructor; [reflexivity|]. apply IH.
Qed.

(** X2.  Whatever the controller does, the progress queue of a run holds,
    for each file of the prefix [done] the run went through, the
    "processing" event and the event with the count after it, in order,
    none of which carries a terminal status; and then exactly one terminal
    event, which is the last thing the run enqueues.  A file that was
    started is therefore always finished and counted.  The terminal status
    is "nothing to convert" exactly when no file was enumerated; it is
    "cancelled" only if the flag is set; and it is "completed" only if
    there were files and every one was processed. *)
Theorem one_terminal_event_closes_the_run
        (E : Env) (idir odir ff : string) (srcs : list string) (dst : string)
        (pres : bool) (sched : list (list ctl_op)) :
  let c := init idir odir ff srcs dst pres in
  let files := get_video_files E c in
  let n := length files in
  exists w' done rest t,
    start_conversion E (fresh c sched) = Finished w'
    /\ files = done ++ rest
    /\ length done = processed_files (self w')
    /\ progress_queue (self w') = run_events 0 n done ++ [t]
    /\ Forall (fun ev => is_terminal ev = false) (run_events 0 n done)
    /\ is_terminal t = true
    /\ (snd t = nothing_label <-> n = 0)
    /\ (snd t = cancelled_label -> cancel_flag (self w') = true)
    /\ (snd t = completed_label -> rest = [] /\ 0 < n).
Proof.
  intros c files n.
  destruct (fresh_run E c sched)
    as (w' & e & Hrun & He & _ & _ & Hprog & _ & _ & Hproc & _).
  fold files in He, Hprog, Hproc. fold n in Hprog, Hproc.
  change (progress_queue c) with (@nil ProgressEvent) in Hprog.
  cbn [app] in Hprog.
  assert (Hsplit : exists rest,
             files = ending_done E c e ++ rest
             /\ (snd (ending_event n e) = completed_label -> rest = [])).
  { destruct e as [| |done broke]; cbn [ending_done ending_event snd].
    - exists []. split; [now rewrite He|reflexivity].
    - exists []. split; [now rewrite app_nil_r|reflexivity].
    - destruct He as (_ & _ & rest & Hsplit & _). exists rest.
      split; [exact Hsplit|discriminate]. }
  destruct Hsplit as (rest & Hsplit & Hcompl).
  exists w', (ending_done E c e), rest, (ending_event n e).
  split; [exact Hrun|]. split; [exact Hsplit|].
  split; [rewrite Hproc; destruct e as [| |done broke]; reflexivity|].
  split; [exact Hprog|].
  split; [apply run_events_not_terminal|].
  split; [destruct e; reflexivity|].
  split.
  { destruct e as [| |done broke]; cbn [ending_event snd]; unfold n.
    - rewrite He. split; reflexivity.
    - split; [discriminate|]. intro H. apply length_zero_iff_nil in H.
      contradiction.
    - destruct He as (Hne & _). split; [discriminate|].
      intro H. apply length_zero_iff_nil in H. contradiction. }
  split.
  { destruct e as [| |done broke]; cbn [ending_event snd];
      [discriminate|discriminate|]. intros _. now destruct He as (_ & H & _). }
  intro Hl. split; [now apply Hcompl|].
  destruct e as [| |done broke]; cbn [ending_event snd] in Hl;
    [discriminate| |discriminate].
  unfold n. destruct files; [now contradiction He|cbn; lia].
Qed.

(** ** Cancelling early and cancelling late *)

Lemma flagged_announce_first (E : Env) (w : World) :
  flagged (yield w) -> flagged (announce E w).
Proof.
  intro H. unfold announce. cbv zeta.
  apply flagged_with_self; [reflexivity|].
  apply flagged_with_self; [reflexivity|].
  unfold header_lines. cbn [fold_left].
  do 6 apply flagged_put_log.
  unfold put_log. apply flagged_with_self; [reflexivity|exact H].
Qed.

Lemma flagged_start_converts_nothing
      (E : Env) (c : VideoConverter) (sched : list (list ctl_op)) :
  get_video_files E c <> [] ->
  flagged (yield (fresh c sched)) ->
  exists w',
    start_conversion E (fresh c sched) = Finished w'
    /\ calls w' = []
    /\ processed_files (self w') = 0
    /\ total_files (self w') = length (get_video_files E c)
    /\ progress_queue (self w')
       = progress_queue c
         ++ [(0, length (get_video_files E c), cancelled_label)]
    /\ worker_lines (log_queue (self w'))
       = worker_lines (log_queue c) ++ header_lines c
         ++ [break_line; cancelled_line]
    /\ cancel_flag (self w') = true.
Proof.
  intros Hne Hfirst.
  destruct (get_video_files E c) as [|[root file] post] eqn:Hfiles;
    [now contradiction Hne|].
  destruct (@run_breaks_at E (fresh c sched) [] root file post
              (announce E (fresh c sched)))
    as (w' & Hrun & Hflag & Hstill).
  { exact Hfiles. }
  { reflexivity. }
  { apply flagged_yield, flagged_announce_first, Hfirst. }
  apply final_observables in Hstill. cbv zeta in Hstill.
  change (self (fresh c sched)) with c in Hstill.
  change (calls (fresh c sched)) with (@nil os_call) in Hstill.
  rewrite Hfiles in Hstill.
  cbn [ending_done ending_event ending_tail run_calls run_lines run_events
       app fst length spawned] in Hstill.
  destruct Hstill as (Hcalls & Hprog & Hlog & Htotal & Hproc & _).
  exists w'. split; [exact Hrun|]. split; [exact Hcalls|].
  split; [exact Hproc|]. split; [exact Htotal|]. split; [exact Hprog|].
  split; [exact Hlog|exact Hflag].
Qed.

(** X3.  When the flag is set by the time the worker first touches the
    shared object (it was set beforehand, or the controller sets it before
    that first access), a run over a non-empty enumeration converts
    nothing: it makes no call to the operating system at all (no
    directory is created, no encoder is spawned), logs the header and the
    two cancellation lines, and enqueues a single progress event,
    (0, total, "cancelled"). *)
Theorem cancel_before_the_first_file
        (E : Env) (c : VideoConverter) (sched : list (list ctl_op)) :
  get_video_files E c <> [] ->
  cancel_flag c = true
  \/ (exists ops rest, sched = ops :: rest /\ In CancelSetFlag ops) ->
  exists w',
    start_conversion E (fresh c sched) = Finished w'
    /\ calls w' = []
    /\ processed_files (self w') = 0
    /\ total_files (self w') = length (get_video_files E c)
    /\ progress_queue (self w')
       = progress_queue c
         ++ [(0, length (get_video_files E c), cancelled_label)]
    /\ worker_lines (log_queue (self w'))
       = worker_lines (log_queue c) ++ header_lines c
         ++ [break_line; cancelled_line]
    /\ cancel_flag (self w') = true.
Proof.
  intros Hne Hset. apply flagged_start_converts_nothing; [exact Hne|].
  destruct Hset as [Hc|(ops & rest & -> & Hin)].
  - apply flagged_yield. exact Hc.
  - unfold flagged, yield, fresh. cbn [pending self].
    now apply set_flag_ctl_steps.
Qed.

Lemma cancel_before_the_first_file_witness :
  get_video_files five_files flat_converter <> []
  /\ (cancel_flag flat_converter = true
      \/ (exists ops rest,
             [[CancelSetFlag; CancelPutLog]] = ops :: rest
             /\ In CancelSetFlag ops))
  /\ exists w',
      start_conversion five_files
        (fresh flat_converter [[CancelSetFlag; CancelPutLog]]) = Finished w'
      /\ calls w' = []
      /\ processed_files (self w') = 0
      /\ total_files (self w')
         = length (get_video_files five_files flat_converter)
      /\ progress_queue (self w')
         = progress_queue flat_converter
           ++ [(0, length (get_video_files five_files flat_converter),
                cancelled_label)]
      /\ worker_lines (log_queue (self w'))
         = worker_lines (log_queue flat_converter)
           ++ header_lines flat_converter ++ [break_line; cancelled_line]
      /\ cancel_flag (self w') = true.
Proof.
  assert (H1 : get_video_files five_files flat_converter <> [])
    by (vm_compute; discriminate).
  assert (H2 : cancel_flag flat_converter = true
               \/ (exists ops rest,
                      [[CancelSetFlag; CancelPutLog]] = ops :: rest
                      /\ In CancelSetFlag ops)).
  { right. exists [CancelSetFlag; CancelPutLog], [].
    split; [reflexivity|]. left. reflexivity. }
  split; [exact H1|]. split; [exact H2|].
  exact (@cancel_before_the_first_file five_files flat_converter
           [[CancelSetFlag; CancelPutLog]] H1 H2).
Defined.

(** X4.  When the flag is first found set by the check that follows the
    loop (the loop has gone through every file without a break and reached
    [w1], and the flag reads true there), every file has been converted
    and yet the run ends as cancelled: the encoder has been spawned for
    each enumerated file; the log holds the header, the lines of every
    file and then the cancellation line alone, without the break line and
    without the summary; and the terminal event is (n, n, "cancelled")
    with n = processed = total. *)
Theorem cancel_after_the_last_file
        (E : Env) (c : VideoConverter) (sched : list (list ctl_op))
        (w1 : World) :
  let files := get_video_files E c in
  let n := length files in
  files <> [] ->
  conversion_loop E files (announce E (fresh c sched)) = LoopDone false w1 ->
  cancel_flag (self (yield w1)) = true ->
  exists w',
    start_conversion E (fresh c sched) = Finished w'
    /\ spawned (calls w')
       = map (fun rf => file_cmd E c (fst rf) (snd rf)) files
    /\ processed_files (self w') = n
    /\ total_files (self w') = n
    /\ progress_queue (self w')
       = progress_queue c ++ run_events 0 n files ++ [(n, n, cancelled_label)]
    /\ worker_lines (log_queue (self w'))
       = worker_lines (log_queue c) ++ header_lines c
         ++ run_lines E c 0 files ++ [cancelled_line].
Proof.
  intros files n Hne Hloop Hflag.
  destruct (@run_cancelled_late E (fresh c sched) w1 Hne Hloop Hflag)
    as (w' & Hrun & _ & Hstill).
  apply final_observables in Hstill. cbv zeta in Hstill.
  change (self (fresh c sched)) with c in Hstill.
  change (calls (fresh c sched)) with (@nil os_call) in Hstill.
  fold files in Hstill. fold n in Hstill.
  cbn [ending_done ending_event ending_tail app fst length spawned] in Hstill.
  destruct Hstill as (Hcalls & Hprog & Hlog & Htotal & Hproc & _).
  exists w'. split; [exact Hrun|].
  split; [rewrite Hcalls; apply spawned_run_calls|].
  split; [exact Hproc|]. split; [exact Htotal|]. split; [exact Hprog|].
  exact Hlog.
Qed.

Lemma cancel_after_the_last_file_witness :
  get_video_files five_files flat_converter <> []
  /\ conversion_loop five_files (get_video_files five_files flat_converter)
       (announce five_files (fresh flat_converter cancel_after_last))
     = LoopDone false after_five_files
  /\ cancel_flag (self (yield after_five_files)) = true
  /\ exists w',
      start_conversion five_files (fresh flat_converter cancel_after_last)
      = Finished w'
      /\ spawned (calls w')
         = map (fun rf => file_cmd five_files flat_converter (fst rf) (snd rf))
               (get_video_files five_files flat_converter)
      /\ processed_files (self w')
         = length (get_video_files five_files flat_converter)
      /\ total_files (self w')
         = length (get_video_files five_files flat_converter)
      /\ progress_queue (self w')
         = progress_queue flat_converter
           ++ run_events 0 (length (get_video_files five_files flat_converter))
                (get_video_files five_files flat_converter)
           ++ [(length (get_video_files five_files flat_converter),
                length (get_video_files five_files flat_converter),
                cancelled_label)]
      /\ worker_lines (log_queue (self w'))
         = worker_lines (log_queue flat_converter)
           ++ header_lines flat_converter
           ++ run_lines five_files flat_converter 0
                (get_video_files five_files flat_converter)
           ++ [cancelled_line].
Proof.
  assert (H1 : get_video_files five_files flat_converter <> [])
    by (vm_compute; discriminate).
  assert (H2 : conversion_loop five_files
                 (get_video_files five_files flat_converter)
                 (announce five_files (fresh flat_converter cancel_after_last))
               = LoopDone false after_five_files)
    by (vm_compute; reflexivity).
  assert (H3 : cancel_flag (self (yield after_five_files)) = true)
    by (vm_compute; reflexivity).
  split; [exact H1|]. split; [exact H2|]. split; [exact H3|].
  exact (@cancel_after_the_last_file five_files flat_converter
           cancel_after_last after_five_files H1 H2 H3).
Defined.

(** ** The log of a run that nobody cancels *)






(** ** Enumeration, continued *)

Lemma filenames_complete (es : list entry) (e : entry) :
  In e es -> is_dir e = false -> In (entry_name e) (filenames es).
Proof.
  intros H Hd. unfold filenames. apply in_map_iff. exists e.
  split; [reflexivity|]. apply filter_In. split; [exact H|].
  now rewrite Hd.
Qed.

Lemma walk_entry_complete (children : list entry) (path : list string)
      (es : list entry) :
  dir_at children path es ->
  forall top d,
    In (descend (posixpath.join top d) path, dirnames es, filenames es)
       (walk_entry top (Dir d children)).
Proof.
  induction 1 as [es|es d' children' path es' Hin Hat IH]; intros top d.
  - left. reflexivity.
  - cbn [walk_entry]. right. apply in_flat_map.
    exists (Dir d' children'). split; [exact Hin|].
    exact (IH (posixpath.join top d) d').
Qed.

Lemma os_walk_complete (top : string) (entries : list entry)
      (path : list string) (es : list entry) :
  dir_at entries path es ->
  In (descend top path, dirnames es, filenames es) (os_walk top entries).
Proof.
  intro H. unfold os_walk. destruct H as [es|es d children path es' Hin Hat].
  - left. reflexivity.
  - right. apply in_flat_map. exists (Dir d children).
    split; [exact Hin|]. exact (walk_entry_complete Hat top d).
Qed.

(** X6.  In preserve-structure mode the enumeration is exact.  For a
    name [file] in ASCII (on such names the lower-casing modelled is
    Python's), the pair (root, file) is yielded if and only if
    [file] passes the suffix test and is the name of an entry that is not
    a directory (a regular file or not), in some directory that [os.walk]
    reaches from the input directory by descending through directories it
    can list and that are no symbolic links, [root] being the path
    [os.walk] builds for that directory.  No such entry is missed at any
    depth, no directory is yielded, and what lies behind a link to a
    directory or in a directory that cannot be listed is not yielded. *)
Theorem tree_enumeration_is_exact
        (E : Env) (idir odir ff : string) (srcs : list string) (dst : string)
        (root file : string) :
  let tree := init idir odir ff srcs dst true in
  is_ascii file = true ->
  (In (root, file) (get_video_files E tree)
   <-> (matches_format tree file = true
        /\ exists path es e,
            dir_at (listing E) path es /\ root = descend idir path
            /\ In e es /\ is_dir e = false /\ entry_name e = file)).
Proof.
  intros tree _. unfold get_video_files.
  cbn [preserve_structure tree init input_dir]. split.
  - intro Hin. apply in_flat_map in Hin.
    destruct Hin as ([[r dirs] files] & Hwalk & Hin).
    apply in_map_iff in Hin. destruct Hin as (f & Heq & Hf).
    injection Heq as -> ->. apply filter_In in Hf. destruct Hf as [Hf Hmatch].
    split; [exact Hmatch|].
    destruct (@os_walk_sound _ _ _ _ _ Hwalk) as (path & es & Hat & -> & _ & ->).
    destruct (in_filenames _ _ Hf) as (e & He & Hd & Hname).
    exists path, es, e. split; [exact Hat|]. split; [reflexivity|].
    split; [exact He|]. split; [exact Hd|exact Hname].
  - intros (Hmatch & path & es & e & Hat & -> & He & Hd & <-).
    apply in_flat_map.
    exists (descend idir path, dirnames es, filenames es).
    split; [now apply os_walk_complete|].
    apply in_map_iff. exists (entry_name e). split; [reflexivity|].
    apply filter_In. split; [now apply filenames_complete|exact Hmatch].
Qed.

(** On [mixed_tree]: the FIFO in the sub-directory is yielded, the
    enumeration holds the four entries that are no directories, and
    nothing from the link. *)
Lemma tree_enumeration_is_exact_witness :
  is_ascii "sock.avi" = true
  /\ (In ("/in/sub", "sock.avi") (get_video_files mixed_tree tree_converter)
      <-> (matches_format tree_converter "sock.avi" = true
           /\ exists path es e,
               dir_at (listing mixed_tree) path es
               /\ "/in/sub" = descend "/in" path
               /\ In e es /\ is_dir e = false
               /\ entry_name e = "sock.avi"))
  /\ get_video_files mixed_tree tree_converter
     = [("/in", "pipe.mpg"); ("/in", "one.mpg");
        ("/in/sub", "two.avi"); ("/in/sub", "sock.avi")].
Proof.
  split; [reflexivity|].
  split; [|reflexivity].
  exact (@tree_enumeration_is_exact mixed_tree "/in" "/out" "ffmpeg"
           [".mpg"; ".avi"] ".mp4" "/in/sub" "sock.avi" eq_refl).
Defined.

Lemma lower_ascii_not_upper (a : ascii) : is_upper (PyStr.lower_ascii a) = false.
Proof. destruct a as [[] [] [] [] [] [] [] []]; reflexivity. Qed.

Lemma has_upper_lower (s : string) : has_upper (PyStr.lower s) = false.
Proof.
  induction s as [|a s IH]; [reflexivity|].
  cbn [PyStr.lower has_upper]. now rewrite lower_ascii_not_upper, IH.
Qed.

Lemma has_upper_drop (n : nat) (s : string) :
  has_upper (PyStr.drop n s) = true -> has_upper s = true.
Proof.
  revert s. induction n as [|n IH]; intros [|a s] H; cbn in *; try assumption.
  apply IH in H. rewrite H. apply orb_true_r.
Qed.

Lemma endswith_upper (s ext : string) :
  has_upper ext = true -> PyStr.endswith (PyStr.lower s) ext = false.
Proof.
  intro Hup. unfold PyStr.endswith.
  destruct (String.length ext <=? String.length (PyStr.lower s))%nat;
    [|reflexivity].
  cbn [andb]. apply not_true_is_false. intro Heq.
  apply String.eqb_eq in Heq. rewrite <- Heq in Hup.
  apply has_upper_drop in Hup. now rewrite has_upper_lower in Hup.
Qed.

Lemma existsb_filter_dead (A : Type) (f dead : A -> bool) (l : list A) :
  (forall x, dead x = true -> f x = false) ->
  existsb f (filter (fun x => negb (dead x)) l) = existsb f l.
Proof.
  intro H. induction l as [|x l IH]; [reflexivity|].
  cbn [filter existsb]. destruct (dead x) eqn:Hd; cbn [negb].
  - now rewrite (H x Hd), IH.
  - cbn [existsb]. now rewrite IH.
Qed.

Lemma filter_all_dead (A : Type) (dead : A -> bool) (l : list A) :
  Forall (fun x => dead x = true) l -> filter (fun x => negb (dead x)) l = [].
Proof.
  induction 1 as [|x l Hx _ IH]; [reflexivity|].
  cbn [filter]. now rewrite Hx.
Qed.

Lemma get_video_files_ext (E : Env) (c c' : VideoConverter) :
  input_dir c = input_dir c' ->
  preserve_structure c = preserve_structure c' ->
  (forall file, matches_format c file = matches_format c' file) ->
  get_video_files E c = get_video_files E c'.
Proof.
  intros Hi Hp Hm. unfold get_video_files. rewrite <- Hi, <- Hp.
  destruct (preserve_structure c).
  - apply flat_map_ext. intros [[root dirs] files].
    f_equal. apply filter_ext. exact Hm.
  - f_equal. apply filter_ext. exact Hm.
Qed.

Lemma get_video_files_no_format (E : Env) (c : VideoConverter) :
  src_formats c = [] -> get_video_files E c = [].
Proof.
  intro H.
  assert (Hno : forall l, filter (matches_format c) l = []).
  { intro l. induction l as [|x l IH]; [reflexivity|].
    cbn [filter]. unfold matches_format at 1. rewrite H. exact IH. }
  unfold get_video_files. destruct (preserve_structure c).
  - induction (os_walk (input_dir c) (listing E)) as [|[[r d] f] l IH];
      [reflexivity|].
    cbn [flat_map]. now rewrite Hno, IH.
  - now rewrite Hno.
Qed.

(** X7.  The suffix test compares the lower-cased file name with the
    extension as it was given: a source extension that holds an ASCII
    capital letter never matches any name.  Removing such extensions from
    [src_formats] leaves the enumeration unchanged, in both modes, and a
    converter all of whose source extensions hold a capital letter
    enumerates nothing. *)
Theorem capital_extensions_never_match
        (E : Env) (idir odir ff : string) (srcs : list string) (dst : string)
        (pres : bool) :
  let c := init idir odir ff srcs dst pres in
  let c' := init idir odir ff (filter (fun ext => negb (has_upper ext)) srcs)
                 dst pres in
  (forall file ext, has_upper ext = true ->
                    PyStr.endswith (PyStr.lower file) ext = false)
  /\ get_video_files E c = get_video_files E c'
  /\ (Forall (fun ext => has_upper ext = true) srcs ->
      get_video_files E c = []).
Proof.
  intros c c'.
  assert (Heq : get_video_files E c = get_video_files E c').
  { apply get_video_files_ext; [reflexivity|reflexivity|].
    intro file. unfold matches_format. cbn [src_formats c c' init].
    symmetry. apply existsb_filter_dead.
    intros ext Hup. now apply endswith_upper. }
  split; [intros file ext Hup; now apply endswith_upper|].
  split; [exact Heq|].
  intro Hall. rewrite Heq. apply get_video_files_no_format.
  cbn [src_formats c' init]. now apply filter_all_dead.
Qed.

Lemma walk_entry_file (top : string) (e : entry) :
  is_dir e = false -> walk_entry top e = [].
Proof. destruct e; [reflexivity|reflexivity|discriminate|discriminate]. Qed.

Lemma walk_files_only (top : string) (l : list entry) :
  Forall (fun e => is_dir e = false) l -> flat_map (walk_entry top) l = [].
Proof.
  induction 1 as [|e l He _ IH]; [reflexivity|].
  cbn [flat_map]. now rewrite (walk_entry_file top e He), IH.
Qed.

Lemma filenames_files_only (l : list entry) :
  Forall (fun e => is_dir e = false) l -> filenames l = os_listdir l.
Proof.
  unfold filenames, os_listdir.
  induction 1 as [|e l He _ IH]; [reflexivity|].
  cbn [filter map]. rewrite He. cbn [negb map]. now rewrite IH.
Qed.

(** X8.  On an input directory that holds no sub-directory the two modes
    enumerate the same files in the same order: the recursive walk yields
    what the flat listing yields. *)
Theorem modes_agree_without_subdirectories
        (E : Env) (idir odir ff : string) (srcs : list string) (dst : string) :
  Forall (fun e => is_dir e = false) (listing E) ->
  get_video_files E (init idir odir ff srcs dst true)
  = get_video_files E (init idir odir ff srcs dst false).
Proof.
  intro Hflat. unfold get_video_files.
  cbn [preserve_structure init input_dir]. unfold os_walk.
  rewrite (walk_files_only idir Hflat). cbn [flat_map].
  rewrite app_nil_r, (filenames_files_only Hflat). reflexivity.
Qed.

Lemma modes_agree_without_subdirectories_witness :
  Forall (fun e => is_dir e = false) (listing five_files)
  /\ get_video_files five_files
       (init "/in" "/out" "ffmpeg" [".mpg"; ".avi"] ".mp4" true)
     = get_video_files five_files
         (init "/in" "/out" "ffmpeg" [".mpg"; ".avi"] ".mp4" false).
Proof.
  assert (H : Forall (fun e => is_dir e = false) (listing five_files))
    by (repeat constructor).
  split; [exact H|].
  exact (@modes_agree_without_subdirectories five_files "/in" "/out" "ffmpeg"
           [".mpg"; ".avi"] ".mp4" H).
Defined.

(** ** Converting a directory onto itself *)

Lemma take_drop (n : nat) (s : string) :
  (PyStr.take n s ++ PyStr.drop n s)%string = s.
Proof.
  revert s. induction n as [|n IH]; intros [|a s]; cbn; try reflexivity.
  now rewrite IH.
Qed.

Lemma splitext_whole (p : string) :
  (fst (posixpath.splitext p) ++ snd (posixpath.splitext p))%string = p.
Proof.
  unfold posixpath.splitext. cbv zeta.
  destruct (_ <? _)%Z; [|apply append_nil_r].
  destruct (posixpath.has_non_dot _ _ _ _); [|apply append_nil_r].
  apply take_drop.
Qed.

Lemma encoder_cmd_overwrites (c : VideoConverter) (i o : string) :
  exists args, encoder_cmd c i o = [ffmpeg_path c; "-i"; i] ++ args ++ ["-y"; o].
Proof.
  unfold encoder_cmd.
  destruct (String.eqb (dst_format c) ".mp4");
    [now exists ["-c:v"; "libx264"; "-crf"; "23"; "-preset"; "medium";
                 "-c:a"; "aac"; "-b:a"; "128k"]|].
  destruct (String.eqb (dst_format c) ".webm");
    [now exists ["-c:v"; "libvpx-vp9"; "-crf"; "30"; "-b:v"; "0";
                 "-c:a"; "libopus"; "-b:a"; "128k"]|].
  destruct (String.eqb (dst_format c) ".avi");
    [now exists ["-c:v"; "mpeg4"; "-q:v"; "3"; "-c:a"; "mp3"; "-b:a"; "128k"]|].
  destruct (String.eqb (dst_format c) ".mov");
    [now exists ["-c:v"; "h264"; "-crf"; "23"; "-c:a"; "aac"; "-b:a"; "128k"]|].
  now exists ["-c"; "copy"].
Qed.

(** X9.  In flat mode with the output directory equal to the input
    directory, an enumerated file whose extension already is the
    destination extension is converted onto itself: the destination file
    name is the source file name, and a run that nobody cancels spawns the
    encoder with one and the same path as its input and as its output, the
    overwrite switch [-y] standing before the output as in every command
    line. *)
Theorem same_directory_same_extension
        (E : Env) (dir ff : string) (srcs : list string) (dst : string)
        (sched : list (list ctl_op)) (file : string) :
  let c := init dir dir ff srcs dst false in
  let p := posixpath.join dir file in
  In (dir, file) (get_video_files E c) ->
  snd (posixpath.splitext file) = dst ->
  no_cancel sched ->
  output_file c file = file
  /\ exists w' args,
      start_conversion E (fresh c sched) = Finished w'
      /\ In (Spawn ([ff; "-i"; p] ++ args ++ ["-y"; p])) (calls w').
Proof.
  intros c p Hin Hext Hsched.
  assert (Hname : output_file c file = file).
  { unfold output_file. cbn [dst_format c init]. rewrite <- Hext.
    apply splitext_whole. }
  split; [exact Hname|].
  destruct (@uncancelled_run_spawns E c sched eq_refl Hsched)
    as (w' & Hrun & Hspawn).
  destruct (encoder_cmd_overwrites c p p) as (args & Hcmd).
  exists w', args. split; [exact Hrun|].
  apply in_spawned. rewrite Hspawn.
  apply in_map_iff. exists (dir, file). split; [|exact Hin].
  cbn [fst snd]. unfold file_cmd, output_path.
  cbn [preserve_structure output_dir c init]. fold c.
  rewrite Hname. exact Hcmd.
Qed.

Lemma same_directory_same_extension_witness :
  In ("/v", "a.mp4") (get_video_files one_mp4 in_place_converter)
  /\ snd (posixpath.splitext "a.mp4") = ".mp4"
  /\ no_cancel []
  /\ output_file in_place_converter "a.mp4" = "a.mp4"
  /\ exists w' args,
      start_conversion one_mp4 (fresh in_place_converter []) = Finished w'
      /\ In (Spawn (["ffmpeg"; "-i"; posixpath.join "/v" "a.mp4"] ++ args
                    ++ ["-y"; posixpath.join "/v" "a.mp4"]))
            (calls w').
Proof.
  assert (H1 : In ("/v", "a.mp4") (get_video_files one_mp4 in_place_converter))
    by (left; reflexivity).
  assert (H2 : snd (posixpath.splitext "a.mp4") = ".mp4") by reflexivity.
  assert (H3 : no_cancel []) by constructor.
  split; [exact H1|]. split; [exact H2|]. split; [exact H3|].
  exact (@same_directory_same_extension one_mp4 "/v" "ffmpeg" [".mp4"] ".mp4"
           [] "a.mp4" H1 H2 H3).
Defined.

(** ** The diagnostic excerpt *)

Lemma take_chars_prefix (n : nat) (s : string) :
  exists rest, s = (PyStr.take_chars n s ++ rest)%string.
Proof.
  revert n. induction s as [|a s IH]; intro n; [now exists ""|].
  cbn [PyStr.take_chars]. destruct (PyStr.is_continuation a).
  - destruct (IH n) as (rest & H). exists rest. cbn. now rewrite <- H.
  - destruct n as [|k]; [now exists (String a s)|].
    destruct (IH k) as (rest & H). exists rest. cbn. now rewrite <- H.
Qed.

Lemma take_chars_count (n : nat) (s : string) :
  char_count (PyStr.take_chars n s) = Nat.min n (char_count s).
Proof.
  revert n. induction s as [|a s IH]; intro n; [now rewrite Nat.min_0_r|].
  cbn [PyStr.take_chars char_count].
  destruct (PyStr.is_continuation a) eqn:Ha.
  - cbn [char_count]. rewrite Ha. apply IH.
  - destruct n as [|k]; [reflexivity|].
    cbn [char_count]. rewrite Ha, IH. reflexivity.
Qed.

Lemma take_chars_all (n : nat) (s : string) :
  char_count s <= n -> PyStr.take_chars n s = s.
Proof.
  revert n. induction s as [|a s IH]; intros n H; [reflexivity|].
  cbn [PyStr.take_chars char_count] in *.
  destruct (PyStr.is_continuation a).
  - now rewrite IH.
  - destruct n as [|k]; [lia|]. rewrite IH; [reflexivity|lia].
Qed.

(** X10.  When the encoder fails on a file, the loop body (the
    controller staying silent meanwhile) logs three lines for it: the
    "converting" line, the failure line, and a line
    made of the prefix "错误信息: ", an excerpt of the diagnostic text and
    three dots.  The excerpt is the longest prefix of the diagnostic text
    with at most 200 characters: it is the whole text when that has no
    more than 200 characters, and the three dots follow it even then. *)
Theorem failure_logs_a_bounded_excerpt
        (E : Env) (c : VideoConverter) (cs : list os_call)
        (root file : string) :
  let o := run_process E (length (spawned cs)) (file_cmd E c root file) in
  exit_ok o = false ->
  exists w' excerpt rest,
    process_file E root file (mkWorld c cs []) = Finished w'
    /\ diagnostic o = (excerpt ++ rest)%string
    /\ char_count excerpt = Nat.min 200 (char_count (diagnostic o))
    /\ (char_count (diagnostic o) <= 200 -> excerpt = diagnostic o)
    /\ log_queue (self w')
       = log_queue c
         ++ [("转换中: " ++ file ++ " → " ++ output_file c file)%string;
             failure_line file;
             ("错误信息: " ++ excerpt ++ "...")%string].
Proof.
  intros o Hfail.
  destruct (take_chars_prefix 200 (diagnostic o)) as (rest & Hrest).
  exists (after_file E root file (mkWorld c cs [])),
         (PyStr.take_chars 200 (diagnostic o)), rest.
  split; [apply process_file_finished|]. split; [exact Hrest|].
  split; [apply take_chars_count|]. split; [apply take_chars_all|].
  rewrite after_file_silent. unfold file_lines, file_outcome. cbv zeta.
  fold o. rewrite Hfail. reflexivity.
Qed.

Lemma failure_logs_a_bounded_excerpt_witness :
  exit_ok (run_process no_videos (length (spawned []))
             (file_cmd no_videos flat_converter "/in" "a.mpg")) = false
  /\ exists w' excerpt rest,
      process_file no_videos "/in" "a.mpg" (mkWorld flat_converter [] [])
      = Finished w'
      /\ diagnostic (run_process no_videos (length (spawned []))
                       (file_cmd no_videos flat_converter "/in" "a.mpg"))
         = (excerpt ++ rest)%string
      /\ char_count excerpt
         = Nat.min 200
             (char_count
                (diagnostic (run_process no_videos (length (spawned []))
                   (file_cmd no_videos flat_converter "/in" "a.mpg"))))
      /\ (char_count
            (diagnostic (run_process no_videos (length (spawned []))
               (file_cmd no_videos flat_converter "/in" "a.mpg"))) <= 200 ->
          excerpt
          = diagnostic (run_process no_videos (length (spawned []))
              (file_cmd no_videos flat_converter "/in" "a.mpg")))
      /\ log_queue (self w')
         = log_queue flat_converter
           ++ [("转换中: " ++ "a.mpg" ++ " → "
                ++ output_file flat_converter "a.mpg")%string;
               failure_line "a.mpg";
               ("错误信息: " ++ excerpt ++ "...")%string].
Proof.
  assert (H : exit_ok (run_process no_videos (length (spawned []))
                (file_cmd no_videos flat_converter "/in" "a.mpg")) = false)
    by reflexivity.
  split; [exact H|].
  exact (@failure_logs_a_bounded_excerpt no_videos flat_converter [] "/in"
           "a.mpg" H).
Defined.

(** ** Two sources, one destination *)

(** X11.  The destination of a file does not depend on its extension:
    two files of one directory whose names differ in the extension only
    (as [clip.mpg] and [clip.avi]) are given the same destination path, in
    either mode, so the encoder run for the second, with [-y], writes over
    the output of the first. *)
Theorem same_stem_same_destination
        (E : Env) (c : VideoConverter) (root stem ext1 ext2 : string) :
  PyStr.free_of posixpath.extsep ext1 = true ->
  PyStr.free_of posixpath.extsep ext2 = true ->
  PyStr.free_of posixpath.sep (stem ++ String posixpath.extsep ext1) = true ->
  PyStr.free_of posixpath.sep (stem ++ String posixpath.extsep ext2) = true ->
  all_dots stem = false ->
  let file1 := (stem ++ String posixpath.extsep ext1)%string in
  let file2 := (stem ++ String posixpath.extsep ext2)%string in
  output_path E c root file1 = output_path E c root file2
  /\ last (file_cmd E c root file1) "" = last (file_cmd E c root file2) ""
  /\ output_file c file1 = (stem ++ dst_format c)%string.
Proof.
  intros He1 He2 Hs1 Hs2 Hstem file1 file2.
  assert (H1 : output_file c file1 = (stem ++ dst_format c)%string).
  { unfold output_file, file1. now rewrite splitext_app. }
  assert (H2 : output_file c file2 = (stem ++ dst_format c)%string).
  { unfold output_file, file2. now rewrite splitext_app. }
  assert (Hout : output_path E c root file1 = output_path E c root file2).
  { unfold output_path. now rewrite H1, H2. }
  split; [exact Hout|]. split; [|exact H1].
  unfold file_cmd.
  destruct (encoder_cmd_ends c (posixpath.join root file1)
              (output_path E c root file1)) as [-> _].
  destruct (encoder_cmd_ends c (posixpath.join root file2)
              (output_path E c root file2)) as [-> _].
  exact Hout.
Qed.

Lemma same_stem_same_destination_witness :
  PyStr.free_of posixpath.extsep "mpg" = true
  /\ PyStr.free_of posixpath.extsep "avi" = true
  /\ PyStr.free_of posixpath.sep ("clip" ++ String posixpath.extsep "mpg")
     = true
  /\ PyStr.free_of posixpath.sep ("clip" ++ String posixpath.extsep "avi")
     = true
  /\ all_dots "clip" = false
  /\ output_path five_files flat_converter "/in"
       ("clip" ++ String posixpath.extsep "mpg")
     = output_path five_files flat_converter "/in"
         ("clip" ++ String posixpath.extsep "avi")
  /\ last (file_cmd five_files flat_converter "/in"
             ("clip" ++ String posixpath.extsep "mpg")) ""
     = last (file_cmd five_files flat_converter "/in"
               ("clip" ++ String posixpath.extsep "avi")) ""
  /\ output_file flat_converter ("clip" ++ String posixpath.extsep "mpg")
     = ("clip" ++ dst_format flat_converter)%string.
Proof.
  split; [reflexivity|]. split; [reflexivity|]. split; [reflexivity|].
  split; [reflexivity|]. split; [reflexivity|].
  exact (@same_stem_same_destination five_files flat_converter "/in" "clip"
           "mpg" "avi" eq_refl eq_refl eq_refl eq_refl eq_refl).
Defined.

Example str_strip_path :
  str_strip (of_bytes [32; 9] ++ "/in dir" ++ of_bytes [10; 227; 128; 128])
  = "/in dir".
Proof. reflexivity. Qed.

Example str_strip_blank : str_strip (of_bytes [32; 194; 160; 13]) = "".
Proof. reflexivity. Qed.

Example find_default_ffmpeg_on_path :
  find_default_ffmpeg sample_host = Some "/usr/bin/ffmpeg".
Proof. reflexivity. Qed.

Example start_conversion_sample :
  exists a',
    VideoConverterApp.start_conversion sample_host sample_window
    = VideoConverterApp.Started a'
    /\ VideoConverterApp.converter a'
       = Some (init "/in" "/out" "/usr/bin/ffmpeg" [".mpg"; ".avi"] ".mp4"
                    true).
Proof. eexists. split; vm_compute; reflexivity. Qed.

Example start_conversion_without_input :
  VideoConverterApp.start_conversion sample_host
    (VideoConverterApp.new sample_host)
  = VideoConverterApp.Warned "输入错误" "请选择输入目录".
Proof. reflexivity. Qed.

(** ** The log of every run *)

(** X12.  Whatever the controller does, the log of a run, the
    controller's own lines set aside, is made of the seven header lines,
    the lines of exactly the files the run went through, in order, and
    one of four endings that goes with the terminal status: the "no
    video file" line with "nothing to convert"; the separator and the
    summary n/n with "completed", every file having been gone through;
    and with "cancelled" either the break line and the cancellation line,
    when a file was left out, or the cancellation line alone, when none
    was.  The summary line is thus logged by completed runs only. *)
Theorem log_of_every_run
        (E : Env) (idir odir ff : string) (srcs : list string) (dst : string)
        (pres : bool) (sched : list (list ctl_op)) :
  let c := init idir odir ff srcs dst pres in
  let files := get_video_files E c in
  let n := length files in
  exists w' done rest tail,
    start_conversion E (fresh c sched) = Finished w'
    /\ files = done ++ rest
    /\ length done = processed_files (self w')
    /\ worker_lines (log_queue (self w'))
       = header_lines c ++ run_lines E c 0 done ++ tail
    /\ let status := snd (last (progress_queue (self w')) (0, 0, "")) in
       (status = nothing_label /\ files = [] /\ tail = [nothing_line])
       \/ (status = completed_label /\ rest = []
           /\ tail = [PyStr.repeat "=" 60; summary_line n n])
       \/ (status = cancelled_label /\ rest <> []
           /\ tail = [break_line; cancelled_line])
       \/ (status = cancelled_label /\ rest = [] /\ files <> []
           /\ tail = [cancelled_line]).
Proof.
  intros c files n.
  destruct (fresh_run E c sched)
    as (w' & e & Hrun & He & _ & _ & Hprog & Hlog & _ & Hproc & _).
  fold files in He, Hprog, Hlog, Hproc. fold n in Hprog, Hlog, Hproc.
  change (progress_queue c) with (@nil ProgressEvent) in Hprog.
  change (worker_lines (log_queue c)) with (@nil string) in Hlog.
  cbn [app] in Hprog, Hlog.
  assert (Hlast : snd (last (progress_queue (self w')) (0, 0, ""))
                  = snd (ending_event n e))
    by now rewrite Hprog, last_last.
  destruct e as [| |done broke];
    cbn [ending_done ending_event ending_tail fst snd] in *.
  - exists w', [], [], [nothing_line]. rewrite He in *.
    split; [exact Hrun|]. split; [reflexivity|].
    split; [now rewrite Hproc|]. split; [exact Hlog|].
    cbv zeta. rewrite Hlast. left. repeat split.
  - exists w', files, [], [PyStr.repeat "=" 60; summary_line n n].
    split; [exact Hrun|]. split; [now rewrite app_nil_r|].
    split; [now rewrite Hproc|]. split; [exact Hlog|].
    cbv zeta. rewrite Hlast. right; left. repeat split.
  - destruct He as (Hne & _ & rest & Hsplit & Hrest).
    exists w', done, rest, ((if broke then [break_line] else [])
                            ++ [cancelled_line]).
    split; [exact Hrun|]. split; [exact Hsplit|].
    split; [now rewrite Hproc|]. split; [exact Hlog|].
    cbv zeta. rewrite Hlast. destruct broke.
    + right; right; left. repeat split. exact Hrest.
    + right; right; right. repeat split; assumption.
Qed.

(* ================================================================= *)
(** * The application *)

(** ** Looking for FFmpeg *)

Lemma search_path_find (H : Host) (name : string) (dirs : list string) :
  search_path H name dirs
  = find (isfile H) (map (fun d => posixpath.join d name) dirs).
Proof.
  induction dirs as [|d dirs IH]; [reflexivity|].
  cbn [search_path map find].
  destruct (isfile H (posixpath.join d name)); [reflexivity|exact IH].
Qed.

Lemma find_app (A : Type) (f : A -> bool) (l1 l2 : list A) :
  find f (l1 ++ l2)
  = match find f l1 with Some x => Some x | None => find f l2 end.
Proof.
  induction l1 as [|x l1 IH]; [reflexivity|].
  cbn [app find]. destruct (f x); [reflexivity|exact IH].
Qed.

Lemma search_one_name (H : Host) (name : string) :
  (if isfile H (posixpath.join (script_dir H) name)
   then Some (posixpath.join (script_dir H) name)
   else match environ_PATH H with
        | Some value => search_path H name (PyStr.split pathsep value)
        | None => None
        end)
  = find (isfile H) (places H name).
Proof.
  unfold places. cbn [find].
  destruct (isfile H (posixpath.join (script_dir H) name)); [reflexivity|].
  destruct (environ_PATH H) as [value|]; [apply search_path_find|reflexivity].
Qed.

Lemma find_default_ffmpeg_find (H : Host) :
  find_default_ffmpeg H = find (isfile H) (ffmpeg_places H).
Proof.
  unfold find_default_ffmpeg, ffmpeg_names, ffmpeg_places.
  rewrite find_app, <- !search_one_name. cbn [search_names].
  destruct (isfile H (posixpath.join (script_dir H) "ffmpeg"));
    [reflexivity|].
  destruct (match environ_PATH H with
            | Some value => search_path H "ffmpeg" (PyStr.split pathsep value)
            | None => None
            end); [reflexivity|].
  destruct (isfile H (posixpath.join (script_dir H) "ffmpeg.exe"));
    [reflexivity|].
  destruct (match environ_PATH H with
            | Some value =>
                search_path H "ffmpeg.exe" (PyStr.split pathsep value)
            | None => None
            end); reflexivity.
Qed.

Lemma find_first (A : Type) (f : A -> bool) (l : list A) :
  match find f l with
  | Some p =>
      exists pre post,
        l = pre ++ p :: post /\ f p = true
        /\ Forall (fun q => f q = false) pre
  | None => Forall (fun q => f q = false) l
  end.
Proof.
  induction l as [|x l IH]; cbn [find]; [constructor|].
  destruct (f x) eqn:Hx.
  - exists [], l. split; [reflexivity|]. split; [exact Hx|constructor].
  - destruct (find f l) as [p|].
    + destruct IH as (pre & post & -> & Hp & Hpre).
      exists (x :: pre), post. split; [reflexivity|].
      split; [exact Hp|now constructor].
    + now constructor.
Qed.

(** X13.  [find_default_ffmpeg] returns the first existing regular file
    among the places it looks at, in this order: [ffmpeg] in the directory
    of the script, [ffmpeg] in each directory of [PATH] from left to right
    (when [PATH] is set), then [ffmpeg.exe] in the directory of the script
    and in each directory of [PATH]; it returns [None] exactly when none of
    these places is a regular file.  So an [ffmpeg] anywhere on [PATH] is
    preferred to an [ffmpeg.exe] beside the script. *)
Theorem find_default_ffmpeg_first_place (H : Host) :
  match find_default_ffmpeg H with
  | Some p =>
      exists pre post,
        ffmpeg_places H = pre ++ p :: post
        /\ isfile H p = true
        /\ Forall (fun q => isfile H q = false) pre
  | None => Forall (fun q => isfile H q = false) (ffmpeg_places H)
  end.
Proof.
  rewrite find_default_ffmpeg_find.
  pose proof (find_first (isfile H) (ffmpeg_places H)) as Hfirst.
  destruct (find (isfile H) (ffmpeg_places H)) as [p|]; exact Hfirst.
Qed.

Lemma join_name_nonempty (a b : string) :
  b <> EmptyString -> posixpath.join a b <> EmptyString.
Proof.
  intro Hb. unfold posixpath.join.
  destruct (posixpath.starts_with_sep b); [exact Hb|].
  destruct (PyStr.is_empty a || posixpath.ends_with_sep a).
  - destruct a; [exact Hb|discriminate].
  - destruct a; discriminate.
Qed.

Lemma ffmpeg_places_nonempty (H : Host) (p : string) :
  In p (ffmpeg_places H) -> p <> "".
Proof.
  unfold ffmpeg_places, places. intro Hin. apply in_app_or in Hin.
  destruct Hin as [[<-|Hin]|[<-|Hin]];
    try (apply join_name_nonempty; discriminate);
    destruct (environ_PATH H); try contradiction;
    apply in_map_iff in Hin; destruct Hin as (d & <- & _);
    apply join_name_nonempty; discriminate.
Qed.

(** X14.  The FFmpeg path field starts out with a path that is never
    empty: the place found by [find_default_ffmpeg], which is an existing
    regular file, or else the bare name [ffmpeg], and the latter only when
    none of the places searched is a regular file. *)
Theorem default_ffmpeg_path_is_a_file_or_the_bare_name (H : Host) :
  default_ffmpeg_path H <> ""
  /\ ((In (default_ffmpeg_path H) (ffmpeg_places H)
       /\ isfile H (default_ffmpeg_path H) = true)
      \/ (default_ffmpeg_path H = "ffmpeg"
          /\ Forall (fun q => isfile H q = false) (ffmpeg_places H))).
Proof.
  unfold default_ffmpeg_path. rewrite find_default_ffmpeg_find.
  destruct (find (isfile H) (ffmpeg_places H)) as [p|] eqn:Hfind.
  - apply find_some in Hfind. destruct Hfind as [Hin Hp].
    pose proof (@ffmpeg_places_nonempty H p Hin) as Hne.
    destruct p as [|a p]; [now contradiction Hne|]. cbn [PyStr.is_empty].
    split; [discriminate|]. left. split; assumption.
  - split; [discriminate|]. right. split; [reflexivity|].
    apply Forall_forall. intros q Hq. exact (find_none _ _ Hfind q Hq).
Qed.

(** ** Starting a conversion from the window *)

Lemma is_empty_iff (s : string) : PyStr.is_empty s = false <-> s <> "".
Proof. destruct s; cbn; split; congruence. Qed.

Lemma started_state (H : Host) (a a' : VideoConverterApp.t) :
  VideoConverterApp.start_conversion H a = VideoConverterApp.Started a' ->
  a' = VideoConverterApp.mk
         (VideoConverterApp.input_dir a) (VideoConverterApp.output_dir a)
         (VideoConverterApp.ffmpeg_path a) (VideoConverterApp.src_formats a)
         (VideoConverterApp.dst_format a)
         (VideoConverterApp.preserve_structure a)
         0%Z "准备开始..." DISABLED NORMAL "" (VideoConverterApp.status_var a)
         (Some (init (str_strip (VideoConverterApp.input_dir a))
                     (str_strip (VideoConverterApp.output_dir a))
                     (str_strip (VideoConverterApp.ffmpeg_path a))
                     (VideoConverterApp.selected_formats a)
                     (VideoConverterApp.dst_format a)
                     (VideoConverterApp.preserve_structure a)))
         true.
Proof.
  unfold VideoConverterApp.start_conversion. cbv zeta.
  destruct (PyStr.is_empty _); [discriminate|].
  destruct (PyStr.is_empty _); [discriminate|].
  destruct (PyStr.is_empty _); [discriminate|].
  destruct (negb _); [discriminate|].
  destruct (negb _); [discriminate|].
  destruct (VideoConverterApp.selected_formats a); [discriminate|].
  destruct (makedirs_error H _); [discriminate|].
  intro Ha. now injection Ha as <-.
Qed.

(** X15.  [VideoConverterApp.start_conversion] starts a run exactly when
    the three path fields, white space stripped, are not empty, the input
    directory exists, the FFmpeg path is a regular file, at least one
    source format is ticked and the output directory could be created.
    The converter it then creates is a fresh one ([__init__]) for the
    stripped paths, the ticked formats in the order of the check boxes,
    the chosen destination format and the structure option; the log
    widget is cleared, the progress bar is at 0, the start button is
    disabled and the cancel button enabled.  So no run is ever started on
    a missing input directory or with an empty set of source formats. *)
Theorem the_window_starts_only_valid_runs
        (H : Host) (a : VideoConverterApp.t) :
  let i := str_strip (VideoConverterApp.input_dir a) in
  let o := str_strip (VideoConverterApp.output_dir a) in
  let f := str_strip (VideoConverterApp.ffmpeg_path a) in
  let sel := VideoConverterApp.selected_formats a in
  ((exists a', VideoConverterApp.start_conversion H a
               = VideoConverterApp.Started a')
   <-> (i <> "" /\ o <> "" /\ f <> "" /\ isdir H i = true
        /\ isfile H f = true /\ sel <> [] /\ makedirs_error H o = None))
  /\ (forall a',
        VideoConverterApp.start_conversion H a = VideoConverterApp.Started a' ->
        VideoConverterApp.converter a'
        = Some (init i o f sel (VideoConverterApp.dst_format a)
                     (VideoConverterApp.preserve_structure a))
        /\ VideoConverterApp.conversion_thread a' = true
        /\ VideoConverterApp.log_text a' = ""
        /\ VideoConverterApp.progress_var a' = 0%Z
        /\ VideoConverterApp.convert_btn a' = DISABLED
        /\ VideoConverterApp.cancel_btn a' = NORMAL).
Proof.
  intros i o f sel. unfold VideoConverterApp.start_conversion. cbv zeta.
  fold i o f sel.
  destruct (PyStr.is_empty i) eqn:Hi.
  { split; [|discriminate]. split; [intros (a' & Ha); discriminate|].
    intros (Hne & _). apply is_empty_iff in Hne. congruence. }
  destruct (PyStr.is_empty o) eqn:Ho.
  { split; [|discriminate]. split; [intros (a' & Ha); discriminate|].
    intros (_ & Hne & _). apply is_empty_iff in Hne. congruence. }
  destruct (PyStr.is_empty f) eqn:Hf.
  { split; [|discriminate]. split; [intros (a' & Ha); discriminate|].
    intros (_ & _ & Hne & _). apply is_empty_iff in Hne. congruence. }
  destruct (isdir H i) eqn:Hd; cbn [negb].
  2:{ split; [|discriminate]. split; [intros (a' & Ha); discriminate|].
      intros (_ & _ & _ & Hfalse & _). discriminate. }
  destruct (isfile H f) eqn:Hfile; cbn [negb].
  2:{ split; [|discriminate]. split; [intros (a' & Ha); discriminate|].
      intros (_ & _ & _ & _ & Hfalse & _). discriminate. }
  destruct sel as [|ext sel'] eqn:Hsel.
  { split; [|discriminate]. split; [intros (a' & Ha); discriminate|].
    intros (_ & _ & _ & _ & _ & Hne & _). now contradiction Hne. }
  destruct (makedirs_error H o) as [e|] eqn:Hmk.
  { split; [|discriminate]. split; [intros (a' & Ha); discriminate|].
    intros (_ & _ & _ & _ & _ & _ & Hfalse). discriminate. }
  apply is_empty_iff in Hi, Ho, Hf.
  split.
  - split; [intros _|intros _; eexists; reflexivity].
    split; [exact Hi|]. split; [exact Ho|]. split; [exact Hf|].
    split; [reflexivity|]. split; [reflexivity|].
    split; [discriminate|reflexivity].
  - intros a' Ha. injection Ha as <-. repeat split.
Qed.

(** ** The last tick of the timer *)

Lemma log_messages (lines : list string) (a : VideoConverterApp.t) :
  fold_left (fun a message => VideoConverterApp.log_message message a) lines a
  = VideoConverterApp.mk
      (VideoConverterApp.input_dir a) (VideoConverterApp.output_dir a)
      (VideoConverterApp.ffmpeg_path a) (VideoConverterApp.src_formats a)
      (VideoConverterApp.dst_format a) (VideoConverterApp.preserve_structure a)
      (VideoConverterApp.progress_var a) (VideoConverterApp.progress_label a)
      (VideoConverterApp.convert_btn a) (VideoConverterApp.cancel_btn a)
      (VideoConverterApp.log_text a ++ shown_lines lines)%string
      (VideoConverterApp.status_var a) (VideoConverterApp.converter a)
      (VideoConverterApp.conversion_thread a).
Proof.
  revert a. induction lines as [|line lines IH]; intro a.
  - cbn [fold_left shown_lines]. rewrite append_nil_r. now destruct a.
  - cbn [fold_left shown_lines]. rewrite IH.
    unfold VideoConverterApp.log_message.
    cbn [VideoConverterApp.input_dir VideoConverterApp.output_dir
         VideoConverterApp.ffmpeg_path VideoConverterApp.src_formats
         VideoConverterApp.dst_format VideoConverterApp.preserve_structure
         VideoConverterApp.progress_var VideoConverterApp.progress_label
         VideoConverterApp.convert_btn VideoConverterApp.cancel_btn
         VideoConverterApp.log_text VideoConverterApp.status_var
         VideoConverterApp.converter VideoConverterApp.conversion_thread].
    f_equal. rewrite !append_assoc. reflexivity.
Qed.

Ltac app_fields :=
  cbn [VideoConverterApp.input_dir VideoConverterApp.output_dir
       VideoConverterApp.ffmpeg_path VideoConverterApp.src_formats
       VideoConverterApp.dst_format VideoConverterApp.preserve_structure
       VideoConverterApp.progress_var VideoConverterApp.progress_label
       VideoConverterApp.convert_btn VideoConverterApp.cancel_btn
       VideoConverterApp.log_text VideoConverterApp.status_var
       VideoConverterApp.converter VideoConverterApp.conversion_thread].

Lemma last_label_cons (ev : ProgressEvent) (events : list ProgressEvent)
      (d : string) :
  last_label (ev :: events) d = last_label events (snd ev).
Proof.
  unfold last_label. revert ev d.
  induction events as [|ev' events IH]; intros ev d; [reflexivity|].
  change (last (ev :: ev' :: events) (0, 0, d))
    with (last (ev' :: events) (0, 0, d)).
  rewrite (IH ev' d). symmetry. apply IH.
Qed.

Lemma last_label_app (l1 l2 : list ProgressEvent) (d : string) :
  last_label (l1 ++ l2) d = last_label l2 (last_label l1 d).
Proof.
  revert d. induction l1 as [|ev l1 IH]; intro d; [reflexivity|].
  cbn [app]. now rewrite !last_label_cons, IH.
Qed.

(** Events of a run without files carry the total 0 and are shown without
    any arithmetic. *)
Lemma show_all_no_total (events : list ProgressEvent)
      (a : VideoConverterApp.t) :
  Forall (fun ev : ProgressEvent => snd (fst ev) = 0) events ->
  VideoConverterApp.show_all events a
  = Return
      (VideoConverterApp.mk
         (VideoConverterApp.input_dir a) (VideoConverterApp.output_dir a)
         (VideoConverterApp.ffmpeg_path a) (VideoConverterApp.src_formats a)
         (VideoConverterApp.dst_format a)
         (VideoConverterApp.preserve_structure a)
         (VideoConverterApp.progress_var a)
         (last_label events (VideoConverterApp.progress_label a))
         (VideoConverterApp.convert_btn a) (VideoConverterApp.cancel_btn a)
         (VideoConverterApp.log_text a)
         (last_label events (VideoConverterApp.status_var a))
         (VideoConverterApp.converter a)
         (VideoConverterApp.conversion_thread a)).
Proof.
  intro Hall. revert a.
  induction Hall as [|[[p t] m] events Ht _ IH]; intro a.
  - cbn [VideoConverterApp.show_all]. now destruct a.
  - cbn [fst snd] in Ht. subst t.
    cbn [VideoConverterApp.show_all VideoConverterApp.show_progress
         Nat.ltb Nat.leb].
    rewrite IH, !last_label_cons. app_fields. reflexivity.
Qed.

Lemma shown_lines_app (l1 l2 : list string) :
  shown_lines (l1 ++ l2) = (shown_lines l1 ++ shown_lines l2)%string.
Proof.
  induction l1 as [|l l1 IH]; [reflexivity|].
  cbn [app shown_lines fold_right]. fold (shown_lines (l1 ++ l2)).
  fold (shown_lines l1). rewrite IH, append_assoc. reflexivity.
Qed.

Lemma update_ui_no_total (r : tick_reads) (a : VideoConverterApp.t)
      (c0 : VideoConverter) :
  VideoConverterApp.converter a = Some c0 ->
  Forall (fun ev : ProgressEvent => snd (fst ev) = 0) (got_events r) ->
  VideoConverterApp.update_ui r a
  = Return
      ((if alive r then fun a' => a' else VideoConverterApp.conversion_over)
         (VideoConverterApp.mk
            (VideoConverterApp.input_dir a) (VideoConverterApp.output_dir a)
            (VideoConverterApp.ffmpeg_path a) (VideoConverterApp.src_formats a)
            (VideoConverterApp.dst_format a)
            (VideoConverterApp.preserve_structure a)
            (VideoConverterApp.progress_var a)
            (last_label (got_events r) (VideoConverterApp.progress_label a))
            (VideoConverterApp.convert_btn a) (VideoConverterApp.cancel_btn a)
            (VideoConverterApp.log_text a ++ shown_lines (got_lines r))%string
            (last_label (got_events r) (VideoConverterApp.status_var a))
            (VideoConverterApp.converter a)
            (VideoConverterApp.conversion_thread a))).
Proof.
  intros Hconv Hall. unfold VideoConverterApp.update_ui. rewrite Hconv.
  cbv zeta. rewrite log_messages, show_all_no_total by exact Hall.
  app_fields. rewrite Hconv. now destruct (alive r).
Qed.

Lemma ticks_no_total (before : list tick_reads) (last : tick_reads)
      (a : VideoConverterApp.t) (c0 : VideoConverter) :
  VideoConverterApp.converter a = Some c0 ->
  Forall (fun r => alive r = true) before ->
  alive last = false ->
  Forall (fun ev : ProgressEvent => snd (fst ev) = 0)
         (flat_map got_events (before ++ [last])) ->
  (VideoConverterApp.progress_var a < 100)%Z ->
  ticks (before ++ [last]) a
  = Return
      (VideoConverterApp.mk
         (VideoConverterApp.input_dir a) (VideoConverterApp.output_dir a)
         (VideoConverterApp.ffmpeg_path a) (VideoConverterApp.src_formats a)
         (VideoConverterApp.dst_format a)
         (VideoConverterApp.preserve_structure a)
         100%Z "转换完成" NORMAL DISABLED
         (VideoConverterApp.log_text a
          ++ shown_lines (flat_map got_lines (before ++ [last])))%string
         (last_label (flat_map got_events (before ++ [last]))
                     (VideoConverterApp.status_var a))
         None false).
Proof.
  intros Hconv Halive Hlast. revert a Hconv.
  induction Halive as [|r before Hr _ IH]; intros a Hconv Hall Hbar.
  - cbn [app flat_map ticks] in *. rewrite app_nil_r in Hall.
    rewrite !app_nil_r.
    rewrite (update_ui_no_total last a Hconv Hall), Hlast.
    unfold VideoConverterApp.conversion_over. app_fields.
    apply Z.ltb_lt in Hbar. rewrite Hbar. reflexivity.
  - cbn [app flat_map ticks] in *.
    apply Forall_app in Hall. destruct Hall as [Hev Hrest].
    rewrite (update_ui_no_total r a Hconv Hev), Hr. cbv beta iota.
    rewrite IH; [|exact Hconv|exact Hrest|exact Hbar]. app_fields.
    rewrite !shown_lines_app, !last_label_app, !append_assoc.
    reflexivity.
Qed.

(** X16.  What the window shows after a run that found nothing to
    convert.  Whatever the controller did during the run and whatever the
    successive runs of [update_ui] read (the queues being first-in
    first-out, what they get taken together is a beginning of the log
    queue and of the progress queue; [is_alive()] answers true until a
    last tick, to which it answers false), every tick returns normally and
    in the end: the log widget has received the lines the ticks got, in
    order, each followed by a newline; the progress bar, having stayed
    below 100, is set to 100 and the progress label to "转换完成"
    (conversion complete), whatever the terminal event had put there; the
    start button is enabled again, the cancel button disabled, and the
    converter is released.  When nothing was left unread, which is the
    case if the worker thread had ended before the last tick began, the
    log widget holds every line of the log queue and the status bar reads
    "no convertible file".  When the thread ended between the loops of the
    last tick and its call of [is_alive()], so that the terminal event was
    left unread, what was left is never shown and the status bar keeps the
    text it had before the run. *)
Theorem nothing_to_convert_on_screen
        (E : Env) (idir odir ff : string) (srcs : list string) (dst : string)
        (pres : bool) (sched : list (list ctl_op))
        (a : VideoConverterApp.t) :
  let c := init idir odir ff srcs dst pres in
  get_video_files E c = [] ->
  VideoConverterApp.converter a = Some c ->
  (VideoConverterApp.progress_var a < 100)%Z ->
  exists w',
    start_conversion E (fresh c sched) = Finished w'
    /\ worker_lines (log_queue (self w')) = header_lines c ++ [nothing_line]
    /\ progress_queue (self w') = [(0, 0, nothing_label)]
    /\ forall before last lost_lines lost_events,
        reads_of_run (log_queue (self w')) (progress_queue (self w'))
                     before last lost_lines lost_events ->
        exists a',
          ticks (before ++ [last]) a = Return a'
          /\ VideoConverterApp.log_text a'
             = (VideoConverterApp.log_text a
                ++ shown_lines (flat_map got_lines (before ++ [last])))%string
          /\ VideoConverterApp.progress_var a' = 100%Z
          /\ VideoConverterApp.progress_label a' = "转换完成"
          /\ VideoConverterApp.convert_btn a' = NORMAL
          /\ VideoConverterApp.cancel_btn a' = DISABLED
          /\ VideoConverterApp.converter a' = None
          /\ VideoConverterApp.conversion_thread a' = false
          /\ (lost_lines = [] ->
              VideoConverterApp.log_text a'
              = (VideoConverterApp.log_text a
                 ++ shown_lines (log_queue (self w')))%string)
          /\ (lost_events = [] ->
              VideoConverterApp.status_var a' = nothing_label)
          /\ (lost_events <> [] ->
              VideoConverterApp.status_var a' = VideoConverterApp.status_var a).
Proof.
  intros c Hnone Hconv Hbar.
  destruct (fresh_run E c sched)
    as (w' & e & Hrun & He & _ & _ & Hprog & Hlog & _).
  destruct e as [| |done broke];
    [|contradiction|destruct He as [He _]; contradiction].
  change (progress_queue c) with (@nil ProgressEvent) in Hprog.
  change (worker_lines (log_queue c)) with (@nil string) in Hlog.
  cbn [ending_done ending_event ending_tail run_events run_lines app]
    in Hprog, Hlog.
  exists w'. split; [exact Hrun|]. split; [exact Hlog|].
  split; [exact Hprog|].
  intros before last lost_lines lost_events (Halive & Hlast & Hlines & Hevents).
  rewrite Hprog in Hevents.
  assert (Hall : Forall (fun ev : ProgressEvent => snd (fst ev) = 0)
                        (flat_map got_events (before ++ [last]))).
  { assert (H0 : Forall (fun ev : ProgressEvent => snd (fst ev) = 0)
                        (flat_map got_events (before ++ [last])
                         ++ lost_events))
      by (rewrite <- Hevents; constructor; [reflexivity|constructor]).
    now apply Forall_app in H0. }
  eexists. split; [exact (@ticks_no_total before last a c Hconv Halive Hlast Hall Hbar)|].
  app_fields.
  split; [reflexivity|]. split; [reflexivity|]. split; [reflexivity|].
  split; [reflexivity|]. split; [reflexivity|]. split; [reflexivity|].
  split; [reflexivity|].
  split; [intros ->; now rewrite Hlines, app_nil_r|].
  split.
  - intros ->. rewrite app_nil_r in Hevents. now rewrite <- Hevents.
  - intro Hlost. symmetry in Hevents.
    apply app_eq_unit in Hevents.
    destruct Hevents as [[-> _]|[_ ->]]; [reflexivity|now contradiction Hlost].
Qed.

Lemma nothing_to_convert_on_screen_witness :
  get_video_files no_videos started_converter = []
  /\ VideoConverterApp.converter started_window = Some started_converter
  /\ (VideoConverterApp.progress_var started_window < 100)%Z
  /\ exists w',
      start_conversion no_videos (fresh started_converter []) = Finished w'
      /\ worker_lines (log_queue (self w'))
         = header_lines started_converter ++ [nothing_line]
      /\ progress_queue (self w') = [(0, 0, nothing_label)]
      /\ forall before last lost_lines lost_events,
          reads_of_run (log_queue (self w')) (progress_queue (self w'))
                       before last lost_lines lost_events ->
          exists a',
            ticks (before ++ [last]) started_window = Return a'
            /\ VideoConverterApp.log_text a'
               = (VideoConverterApp.log_text started_window
                  ++ shown_lines (flat_map got_lines (before ++ [last])))%string
            /\ VideoConverterApp.progress_var a' = 100%Z
            /\ VideoConverterApp.progress_label a' = "转换完成"
            /\ VideoConverterApp.convert_btn a' = NORMAL
            /\ VideoConverterApp.cancel_btn a' = DISABLED
            /\ VideoConverterApp.converter a' = None
            /\ VideoConverterApp.conversion_thread a' = false
            /\ (lost_lines = [] ->
                VideoConverterApp.log_text a'
                = (VideoConverterApp.log_text started_window
                   ++ shown_lines (log_queue (self w')))%string)
            /\ (lost_events = [] ->
                VideoConverterApp.status_var a' = nothing_label)
            /\ (lost_events <> [] ->
                VideoConverterApp.status_var a'
                = VideoConverterApp.status_var started_window).
Proof.
  assert (H1 : get_video_files no_videos started_converter = [])
    by (vm_compute; reflexivity).
  assert (H2 : VideoConverterApp.converter started_window
               = Some started_converter)
    by (vm_compute; reflexivity).
  assert (H3 : (VideoConverterApp.progress_var started_window < 100)%Z)
    by (vm_compute; reflexivity).
  split; [exact H1|]. split; [exact H2|]. split; [exact H3|].
  exact (@nothing_to_convert_on_screen no_videos "/in" "/out"
           "/usr/bin/ffmpeg" [".mpg"; ".avi"] ".mp4" true []
           started_window H1 H2 H3).
Defined.

(** The two cases on [no_videos].  A single tick that comes after the end
    of the thread shows the eight lines and the terminal status.  A single
    tick during which the thread ends, once the header has been read,
    shows the header alone: the last line and the terminal event are lost,
    and the status bar still reads "准备就绪". *)
Example tick_after_the_end :
  exists a',
    ticks [mkReads (header_lines started_converter ++ [nothing_line])
                   [(0, 0, nothing_label)] false]
          started_window
    = Return a'
    /\ VideoConverterApp.log_text a'
       = shown_lines (header_lines started_converter ++ [nothing_line])
    /\ VideoConverterApp.status_var a' = nothing_label
    /\ VideoConverterApp.progress_label a' = "转换完成".
Proof. eexists. split; [vm_compute; reflexivity|]. repeat split. Qed.

Example tick_across_the_end :
  exists a',
    ticks [mkReads (header_lines started_converter) [] false] started_window
    = Return a'
    /\ VideoConverterApp.log_text a'
       = shown_lines (header_lines started_converter)
    /\ VideoConverterApp.status_var a' = "准备就绪"
    /\ VideoConverterApp.converter a' = None.
Proof. eexists. split; [vm_compute; reflexivity|]. repeat split. Qed.

(** ** Cancel pressed at once *)

(** X17.  When Cancel is pressed after Start before the worker thread has
    touched the converter, nothing is converted.  [cancel_conversion]
    disables the cancel button and leaves the converter with its flag set
    and the line "正在取消转换..." as the only content of its log queue;
    and the run of that converter over a non-empty enumeration, whatever
    else the controller does, makes no call to the operating system and
    enqueues the single progress event (0, total, "cancelled"). *)
Theorem cancel_pressed_before_the_first_step
        (H : Host) (E : Env) (a a1 : VideoConverterApp.t)
        (c : VideoConverter) (sched : list (list ctl_op)) :
  VideoConverterApp.start_conversion H a = VideoConverterApp.Started a1 ->
  VideoConverterApp.converter (VideoConverterApp.cancel_conversion a1)
  = Some c ->
  get_video_files E c <> [] ->
  VideoConverterApp.cancel_btn (VideoConverterApp.cancel_conversion a1)
  = DISABLED
  /\ cancel_flag c = true
  /\ log_queue c = [cancel_message]
  /\ exists w',
      start_conversion E (fresh c sched) = Finished w'
      /\ calls w' = []
      /\ processed_files (self w') = 0
      /\ progress_queue (self w')
         = [(0, length (get_video_files E c), cancelled_label)].
Proof.
  intros Hstart Hc Hne. apply started_state in Hstart. subst a1.
  unfold VideoConverterApp.cancel_conversion in *.
  cbn [VideoConverterApp.converter VideoConverterApp.cancel_btn] in *.
  injection Hc as <-.
  split; [reflexivity|]. split; [reflexivity|]. split; [reflexivity|].
  match goal with
  | Hne : get_video_files E ?c0 <> [] |- _ =>
      destruct (@flagged_start_converts_nothing E c0 sched Hne)
        as (w' & Hrun & Hcalls & Hproc & _ & Hprog & _)
  end.
  { apply flagged_yield. reflexivity. }
  exists w'. split; [exact Hrun|]. split; [exact Hcalls|].
  split; [exact Hproc|exact Hprog].
Qed.

Lemma cancel_pressed_before_the_first_step_witness :
  VideoConverterApp.start_conversion sample_host sample_window
  = VideoConverterApp.Started started_window
  /\ VideoConverterApp.converter
       (VideoConverterApp.cancel_conversion started_window)
     = Some cancelled_at_once
  /\ get_video_files five_files cancelled_at_once <> []
  /\ VideoConverterApp.cancel_btn
       (VideoConverterApp.cancel_conversion started_window)
     = DISABLED
  /\ cancel_flag cancelled_at_once = true
  /\ log_queue cancelled_at_once = [cancel_message]
  /\ exists w',
      start_conversion five_files (fresh cancelled_at_once []) = Finished w'
      /\ calls w' = []
      /\ processed_files (self w') = 0
      /\ progress_queue (self w')
         = [(0, length (get_video_files five_files cancelled_at_once),
             cancelled_label)].
Proof.
  assert (H1 : VideoConverterApp.start_conversion sample_host sample_window
               = VideoConverterApp.Started started_window)
    by (vm_compute; reflexivity).
  assert (H2 : VideoConverterApp.converter
                 (VideoConverterApp.cancel_conversion started_window)
               = Some cancelled_at_once)
    by (vm_compute; reflexivity).
  assert (H3 : get_video_files five_files cancelled_at_once <> [])
    by (vm_compute; discriminate).
  split; [exact H1|]. split; [exact H2|]. split; [exact H3|].
  exact (@cancel_pressed_before_the_first_step sample_host five_files
           sample_window started_window cancelled_at_once [] H1 H2 H3).
Defined.
